(** * FlowTask / FlowTask Pro: task store, persistence and view projection

    A shallow embedding of the two application classes of the repository:

    - [TaskManager]  (src/script.js): the single-file FlowTask application;
    - [FlowTaskPro]  (src/app-core.js extended by src/app-views.js).

    Both keep an array of task objects in [this.tasks], persist it with
    [JSON.stringify] under a fixed [localStorage] key, and derive filtered (and,
    in the Pro variant, sorted) views of it.

    Conventions of the embedding.

    - A JavaScript string is a [string]: a sequence of code units, here
      restricted to the code units below 256.
    - A task object is a [Task] record.  The fields [priority], [dueDate] and
      [project] exist only on FlowTask Pro objects, so they are optional;
      [dueDate] is moreover nullable.
    - The browser is part of the state: [localStorage] is a finite map with
      a quota (a write over quota throws, as [setItem] does), and every call
      of [localStorage.setItem] and of [showNotification] is appended to a
      trace, most recent first.  DOM rendering has no effect on the state
      modelled here, with one exception: [renderTasks] of FlowTask Pro sorts
      an array in place, which is modelled.
    - [Date.now()] and [new Date().toISOString()] are inputs of the
      operations that read the clock. *)

From Stdlib Require Import Ascii String NArith ZArith List Permutation Sorted Lia.
From stdpp Require Import gmap strings list pretty.

Local Open Scope char_scope.
Local Open Scope string_scope.
Local Open Scope list_scope.

(** * Part I: definitions *)

(** ** JavaScript strings *)

Module JsString.

(** [WhiteSpace] and [LineTerminator] code units below 256: TAB, LF, VT, FF,
    CR, SPACE and NBSP.  These are what [String.prototype.trim] strips. *)
Definition isWhiteSpace (c : ascii) : bool :=
  let n := N_of_ascii c in
  ((9 <=? n) && (n <=? 13) || (n =? 32) || (n =? 160))%N.

Fixpoint trimStart (s : string) : string :=
  match s with
  | EmptyString => EmptyString
  | String c s' => if isWhiteSpace c then trimStart s' else s
  end.

Fixpoint trimEnd (s : string) : string :=
  match s with
  | EmptyString => EmptyString
  | String c s' =>
      match trimEnd s' with
      | EmptyString => if isWhiteSpace c then EmptyString else String c EmptyString
      | r => String c r
      end
  end.

(** [text.trim()] *)
Definition trim (s : string) : string := trimEnd (trimStart s).

(** Truthiness of a string: only the empty string is falsy. *)
Definition truthy (s : string) : bool :=
  match s with EmptyString => false | String _ _ => true end.

Definition whitespaceOnly (s : string) : Prop :=
  Forall (fun c => isWhiteSpace c = true) (list_ascii_of_string s).

Fixpoint last (s : string) : option ascii :=
  match s with
  | EmptyString => None
  | String c EmptyString => Some c
  | String _ s' => last s'
  end.

Definition head (s : string) : option ascii :=
  match s with EmptyString => None | String c _ => Some c end.

(** A text that is its own trimmed form and is not empty: it neither
    starts nor ends with white space. *)
Definition trimmedText (s : string) : Prop :=
  s <> "" /\ trim s = s
  /\ (forall c, head s = Some c -> isWhiteSpace c = false)
  /\ (forall c, last s = Some c -> isWhiteSpace c = false).

End JsString.

(** ** JSON text: [JSON.stringify] and [JSON.parse]

    The values the task store serialises are built from [null], booleans,
    strings, arrays and objects; a task has no numeric field.  Number
    literals are therefore outside the fragment modelled here and [parse]
    rejects them. *)

Module JSON.

Unset Elimination Schemes.
Inductive value : Type :=
| VNull
| VBool (b : bool)
| VString (s : string)
| VArray (elements : list value)
| VObject (members : list (string * value)).
Set Elimination Schemes.

Definition chars (s : string) : list ascii := list_ascii_of_string s.

(** The quotation mark, code unit 34. *)
Definition dquote : ascii := Eval cbv in ascii_of_N 34.

(** *** Serialisation *)

Definition hexDigit (n : N) : ascii :=
  if (n <? 10)%N then ascii_of_N (48 + n) else ascii_of_N (87 + n).

(** [QuoteJSONString], one code unit at a time. *)
Definition escapeChar (c : ascii) : list ascii :=
  let n := N_of_ascii c in
  if (n =? 34)%N then ["\"%char; dquote]
  else if (n =? 92)%N then chars "\\"
  else if (n =? 8)%N then chars "\b"
  else if (n =? 9)%N then chars "\t"
  else if (n =? 10)%N then chars "\n"
  else if (n =? 12)%N then chars "\f"
  else if (n =? 13)%N then chars "\r"
  else if (n <? 32)%N then
    chars "\u00" ++ [hexDigit (n / 16); hexDigit (n mod 16)]
  else [c].

Definition quote (s : string) : list ascii :=
  dquote :: flat_map escapeChar (chars s) ++ [dquote].

Fixpoint print (v : value) : list ascii :=
  match v with
  | VNull => chars "null"
  | VBool true => chars "true"
  | VBool false => chars "false"
  | VString s => quote s
  | VArray l =>
      "["%char :: (fix elements (l : list value) : list ascii :=
                match l with
                | [] => []
                | [x] => print x
                | x :: r => print x ++ ","%char :: elements r
                end) l ++ ["]"%char]
  | VObject m =>
      "{"%char :: (fix members (m : list (string * value)) : list ascii :=
                match m with
                | [] => []
                | [(k, x)] => quote k ++ ":"%char :: print x
                | (k, x) :: r => quote k ++ ":"%char :: print x ++ ","%char :: members r
                end) m ++ ["}"%char]
  end.

(** The elements of an array and the members of an object, as [print]
    lays them out between the brackets. *)
Definition printElements : list value -> list ascii :=
  fix elements (l : list value) : list ascii :=
    match l with
    | [] => []
    | [x] => print x
    | x :: r => print x ++ ","%char :: elements r
    end.

Definition printMembers : list (string * value) -> list ascii :=
  fix members (m : list (string * value)) : list ascii :=
    match m with
    | [] => []
    | [(k, x)] => quote k ++ ":"%char :: print x
    | (k, x) :: r => quote k ++ ":"%char :: print x ++ ","%char :: members r
    end.

(** [JSON.stringify(v)], without indentation. *)
Definition stringify (v : value) : string := string_of_list_ascii (print v).

(** *** Parsing *)

Definition isJsonWhiteSpace (c : ascii) : bool :=
  let n := N_of_ascii c in
  ((n =? 32) || (n =? 9) || (n =? 10) || (n =? 13))%N.

Fixpoint skipWhiteSpace (s : list ascii) : list ascii :=
  match s with
  | c :: r => if isJsonWhiteSpace c then skipWhiteSpace r else s
  | [] => []
  end.

Definition hexValue (c : ascii) : option N :=
  let n := N_of_ascii c in
  if ((48 <=? n) && (n <=? 57))%N then Some (n - 48)%N
  else if ((97 <=? n) && (n <=? 102))%N then Some (n - 87)%N
  else if ((65 <=? n) && (n <=? 70))%N then Some (n - 55)%N
  else None.

(** The code unit named by a [\uXXXX] escape; code units of 256 and above
    fall outside the string model and are reported as unreadable. *)
Definition unicodeEscape (h1 h2 h3 h4 : ascii) : option ascii :=
  match hexValue h1, hexValue h2, hexValue h3, hexValue h4 with
  | Some a, Some b, Some c, Some d =>
      let n := (((a * 16 + b) * 16 + c) * 16 + d)%N in
      if (n <? 256)%N then Some (ascii_of_N n) else None
  | _, _, _, _ => None
  end.

Definition simpleEscape (e : ascii) : option ascii :=
  let n := N_of_ascii e in
  if (n =? 34)%N then Some dquote
  else if (n =? 92)%N then Some "\"%char
  else if (n =? 47)%N then Some "/"%char
  else if (n =? 98)%N then Some (ascii_of_N 8)
  else if (n =? 102)%N then Some (ascii_of_N 12)
  else if (n =? 110)%N then Some (ascii_of_N 10)
  else if (n =? 114)%N then Some (ascii_of_N 13)
  else if (n =? 116)%N then Some (ascii_of_N 9)
  else None.

(** The characters of a string literal, after its opening quote, up to
    and including the closing quote. *)
Fixpoint parseChars (s : list ascii) : option (string * list ascii) :=
  match s with
  | [] => None
  | c :: r =>
      if (N_of_ascii c =? 34)%N then Some (EmptyString, r)
      else if (N_of_ascii c =? 92)%N then
        match r with
        | [] => None
        | e :: r1 =>
            if (N_of_ascii e =? 117)%N then
              match r1 with
              | h1 :: h2 :: h3 :: h4 :: r2 =>
                  match unicodeEscape h1 h2 h3 h4 with
                  | Some u =>
                      match parseChars r2 with
                      | Some (str, rest) => Some (String u str, rest)
                      | None => None
                      end
                  | None => None
                  end
              | _ => None
              end
            else
              match simpleEscape e with
              | Some u =>
                  match parseChars r1 with
                  | Some (str, rest) => Some (String u str, rest)
                  | None => None
                  end
              | None => None
              end
        end
      else if (N_of_ascii c <? 32)%N then None
      else
        match parseChars r with
        | Some (str, rest) => Some (String c str, rest)
        | None => None
        end
  end.

Fixpoint stripPrefix (p s : list ascii) : option (list ascii) :=
  match p, s with
  | [], _ => Some s
  | a :: p', b :: s' => if Ascii.eqb a b then stripPrefix p' s' else None
  | _ :: _, [] => None
  end.

Definition parseKeyword (s : list ascii) : option (value * list ascii) :=
  match stripPrefix (chars "null") s with
  | Some r => Some (VNull, r)
  | None =>
      match stripPrefix (chars "true") s with
      | Some r => Some (VBool true, r)
      | None =>
          match stripPrefix (chars "false") s with
          | Some r => Some (VBool false, r)
          | None => None
          end
      end
  end.

(** [CreateDataProperty] on the object under construction: a repeated
    key overwrites the earlier value and keeps its position. *)
Fixpoint defineProperty (k : string) (v : value) (m : list (string * value))
  : list (string * value) :=
  match m with
  | [] => [(k, v)]
  | (k', v') :: r =>
      if String.eqb k' k then (k', v) :: r else (k', v') :: defineProperty k v r
  end.

Definition makeObject (m : list (string * value)) : list (string * value) :=
  fold_left (fun acc kv => defineProperty (fst kv) (snd kv) acc) m [].

Fixpoint parseValue (fuel : nat) (s : list ascii) : option (value * list ascii) :=
  match fuel with
  | O => None
  | S f =>
      match skipWhiteSpace s with
      | [] => None
      | c :: r =>
          if Ascii.eqb c dquote then
            match parseChars r with
            | Some (str, rest) => Some (VString str, rest)
            | None => None
            end
          else if Ascii.eqb c "[" then
            match skipWhiteSpace r with
            | c' :: r' =>
                if Ascii.eqb c' "]" then Some (VArray [], r')
                else
                  match parseElements f r with
                  | Some (l, rest) => Some (VArray l, rest)
                  | None => None
                  end
            | [] => None
            end
          else if Ascii.eqb c "{" then
            match skipWhiteSpace r with
            | c' :: r' =>
                if Ascii.eqb c' "}" then Some (VObject [], r')
                else
                  match parseMembers f r with
                  | Some (m, rest) => Some (VObject (makeObject m), rest)
                  | None => None
                  end
            | [] => None
            end
          else parseKeyword (c :: r)
      end
  end
with parseElements (fuel : nat) (s : list ascii) : option (list value * list ascii) :=
  match fuel with
  | O => None
  | S f =>
      match parseValue f s with
      | Some (v, r) =>
          match skipWhiteSpace r with
          | c :: r' =>
              if Ascii.eqb c "," then
                match parseElements f r' with
                | Some (l, rest) => Some (v :: l, rest)
                | None => None
                end
              else if Ascii.eqb c "]" then Some ([v], r')
              else None
          | [] => None
          end
      | None => None
      end
  end
with parseMembers (fuel : nat) (s : list ascii)
  : option (list (string * value) * list ascii) :=
  match fuel with
  | O => None
  | S f =>
      match skipWhiteSpace s with
      | c :: r =>
          if Ascii.eqb c dquote then
            match parseChars r with
            | Some (k, r1) =>
                match skipWhiteSpace r1 with
                | c1 :: r2 =>
                    if Ascii.eqb c1 ":" then
                      match parseValue f r2 with
                      | Some (v, r3) =>
                          match skipWhiteSpace r3 with
                          | c3 :: r4 =>
                              if Ascii.eqb c3 "," then
                                match parseMembers f r4 with
                                | Some (m, rest) => Some ((k, v) :: m, rest)
                                | None => None
                                end
                              else if Ascii.eqb c3 "}" then Some ([(k, v)], r4)
                              else None
                          | [] => None
                          end
                      | None => None
                      end
                    else None
                | [] => None
                end
            | None => None
            end
          else None
      | [] => None
      end
  end.

(** [JSON.parse(text)]; [None] stands for the [SyntaxError] it throws.
    The text has fewer nested or sequenced values than characters, so
    its length is fuel enough. *)
Definition parse (text : string) : option value :=
  let s := chars text in
  match parseValue (S (length s)) s with
  | Some (v, rest) =>
      match skipWhiteSpace rest with
      | [] => Some v
      | _ :: _ => None
      end
  | None => None
  end.

(** The characters a JSON value of the fragment can start with. *)
Definition startChar (c : ascii) : bool :=
  Ascii.eqb c "n" || Ascii.eqb c "t" || Ascii.eqb c "f"
  || Ascii.eqb c dquote || Ascii.eqb c "[" || Ascii.eqb c "{".

Definition startsValue (s : list ascii) : Prop :=
  exists c tl, s = c :: tl /\ startChar c = true.

(** A value the parser reads back from its own text, whatever follows
    the text, given fuel beyond the length of the text. *)
Definition reads (v : value) : Prop :=
  forall fuel rest,
    length (print v) < fuel -> parseValue fuel (print v ++ rest) = Some (v, rest).

(** Values that stand for JavaScript data: no object has two properties
    of the same name. *)
Fixpoint wellFormed (v : value) : Prop :=
  match v with
  | VArray l =>
      (fix all (l : list value) : Prop :=
         match l with [] => True | x :: r => wellFormed x /\ all r end) l
  | VObject m =>
      NoDup (map fst m) /\
      (fix all (m : list (string * value)) : Prop :=
         match m with [] => True | (_, x) :: r => wellFormed x /\ all r end) m
  | _ => True
  end.

End JSON.


(** ** Dates

    [new Date(s)] for the one format the application itself produces, the
    24 characters [YYYY-MM-DDTHH:mm:ss.sssZ] of [Date.prototype.toISOString].
    The view code is stated over an arbitrary reading of date strings (see
    [FlowTaskPro]); this one instantiates it. *)

Module JsDate.

Definition digit (c : ascii) : option Z :=
  let n := N_of_ascii c in
  if ((48 <=? n) && (n <=? 57))%N then Some (Z.of_N n - 48)%Z else None.

(** Reads [n] decimal digits. *)
Fixpoint digits (n : nat) (acc : Z) (s : list ascii) : option (Z * list ascii) :=
  match n, s with
  | O, _ => Some (acc, s)
  | S n', c :: r =>
      match digit c with
      | Some d => digits n' (acc * 10 + d)%Z r
      | None => None
      end
  | S _, [] => None
  end.

Definition expect (c : ascii) (s : list ascii) : option (list ascii) :=
  match s with
  | c' :: r => if Ascii.eqb c c' then Some r else None
  | [] => None
  end.

(** Days from 1970-01-01 to the given day of the proleptic Gregorian calendar. *)
Definition daysFromCivil (y m d : Z) : Z :=
  let y' := if (m <=? 2)%Z then (y - 1)%Z else y in
  let era := (y' / 400)%Z in
  let yoe := (y' - era * 400)%Z in
  let mp := ((m + 9) mod 12)%Z in
  let doy := ((153 * mp + 2) / 5 + d - 1)%Z in
  let doe := (yoe * 365 + yoe / 4 - yoe / 100 + doy)%Z in
  (era * 146097 + doe - 719468)%Z.

(** The time value in milliseconds, [None] for an Invalid Date. *)
Definition timeValue (s : string) : option Z :=
  '(y, r) ← digits 4 0%Z (list_ascii_of_string s);
  r ← expect "-" r;
  '(mo, r) ← digits 2 0%Z r;
  r ← expect "-" r;
  '(d, r) ← digits 2 0%Z r;
  r ← expect "T" r;
  '(h, r) ← digits 2 0%Z r;
  r ← expect ":" r;
  '(mi, r) ← digits 2 0%Z r;
  r ← expect ":" r;
  '(sec, r) ← digits 2 0%Z r;
  r ← expect "." r;
  '(ms, r) ← digits 3 0%Z r;
  r ← expect "Z" r;
  match r with
  | [] =>
      if ((1 <=? mo) && (mo <=? 12) && (1 <=? d) && (d <=? 31) && (h <=? 23)
          && (mi <=? 59) && (sec <=? 59))%Z
      then Some ((((daysFromCivil y mo d * 24 + h) * 60 + mi) * 60 + sec) * 1000 + ms)%Z
      else None
  | _ :: _ => None
  end.

End JsDate.

(** ** The browser's [localStorage] *)

Module LocalStorage.

(** The entries and the number of code units the origin may store. *)
Record Storage : Type := mkStorage {
  items : gmap string string;
  quota : N
}.

Definition usage (m : gmap string string) : N :=
  map_fold
    (fun k v n => (N.of_nat (String.length k) + N.of_nat (String.length v) + n)%N)
    0%N m.

(** [localStorage.getItem(key)]; [None] is JavaScript's [null]. *)
Definition getItem (ls : Storage) (key : string) : option string :=
  items ls !! key.

(** Whether the entry fits: the keys and values stored afterwards stay
    within the quota. *)
Definition accepts (ls : Storage) (key value : string) : bool :=
  (usage (<[key := value]> (items ls)) <=? quota ls)%N.

(** [localStorage.setItem(key, value)]; [None] stands for the
    [QuotaExceededError] it throws, in which case nothing is written. *)
Definition setItem (ls : Storage) (key value : string) : option Storage :=
  if accepts ls key value
  then Some (mkStorage (<[key := value]> (items ls)) (quota ls))
  else None.

End LocalStorage.

(** ** Task objects *)

Inductive Priority : Type := high | medium | low.

Record Task : Type := mkTask {
  id : string;
  text : string;
  completed : bool;
  priority : option Priority;
  dueDate : option (option string);
  project : option string;
  createdAt : string
}.

Definition setCompleted (b : bool) (t : Task) : Task :=
  mkTask (id t) (text t) b (priority t) (dueDate t) (project t) (createdAt t).

Definition setText (s : string) (t : Task) : Task :=
  mkTask (id t) s (completed t) (priority t) (dueDate t) (project t) (createdAt t).

(** What a method call evaluates to. *)
Inductive ReturnValue : Type :=
| Undefined
| Boolean (b : bool)
| Number (n : N).

(** The observable calls into the browser, most recent first in a trace. *)
Inductive Effect : Type :=
| SetItem (key value : string) (stored : bool)
| ShowNotification (message type : string).

Definition isSetItem (e : Effect) : bool :=
  match e with SetItem _ _ _ => true | ShowNotification _ _ => false end.

(** The user-input errors of the specification, by the message the code
    reports them with. *)
Inductive ValidationError : Type := Empty | TooLong.

Definition validationMessage (e : ValidationError) : string :=
  match e with
  | Empty => "Task cannot be empty"
  | TooLong => "Task must be less than 100 characters"
  end.

(** [this.tasks.find(p)]: the position of the first match stands for the
    object reference [find] returns. *)
Fixpoint findIndex (p : Task -> bool) (l : list Task) : option nat :=
  match l with
  | [] => None
  | t :: r => if p t then Some 0 else S <$> findIndex p r
  end.

(** [task.priority === p] *)
Definition priorityIs (p : Priority) (t : Task) : bool :=
  match priority t, p with
  | Some high, high | Some medium, medium | Some low, low => true
  | _, _ => false
  end.

Definition ids (ts : list Task) : list string := map id ts.

Definition textsTrimmed (ts : list Task) : Prop :=
  Forall (fun t => JsString.trimmedText (text t)) ts.

(** *** Tasks as JavaScript values *)

Module TaskJson.
Import JSON.

Definition priorityName (p : Priority) : string :=
  match p with high => "high" | medium => "medium" | low => "low" end.

Definition property {A} (k : string) (f : A -> value) (o : option A)
  : list (string * value) :=
  match o with Some a => [(k, f a)] | None => [] end.

Definition nullable (d : option string) : value :=
  match d with Some s => VString s | None => VNull end.

(** The object of a task, its properties in the order of the object
    literal in [addTask]. *)
Definition taskObject (t : Task) : value :=
  VObject ([("id", VString (id t)); ("text", VString (text t));
            ("completed", VBool (completed t))]
           ++ property "priority" (fun p => VString (priorityName p)) (priority t)
           ++ property "dueDate" nullable (dueDate t)
           ++ property "project" VString (project t)
           ++ [("createdAt", VString (createdAt t))]).

(** The array [this.tasks]. *)
Definition tasksValue (ts : list Task) : value := VArray (map taskObject ts).

Fixpoint lookupProperty (k : string) (m : list (string * value)) : option value :=
  match m with
  | [] => None
  | (k', v) :: r => if String.eqb k' k then Some v else lookupProperty k r
  end.

Definition asString (v : value) : option string :=
  match v with VString s => Some s | _ => None end.

Definition asBool (v : value) : option bool :=
  match v with VBool b => Some b | _ => None end.

Definition asPriority (v : value) : option Priority :=
  match v with
  | VString s =>
      if String.eqb s "high" then Some high
      else if String.eqb s "medium" then Some medium
      else if String.eqb s "low" then Some low
      else None
  | _ => None
  end.

Definition asNullable (v : value) : option (option string) :=
  match v with VNull => Some None | VString s => Some (Some s) | _ => None end.

(** An absent property reads as [None]; a present one must have the
    expected shape. *)
Definition optional {A} (f : value -> option A) (o : option value)
  : option (option A) :=
  match o with
  | None => Some None
  | Some v => match f v with Some a => Some (Some a) | None => None end
  end.

(** Reading a value back as a task: the fields of the task found under
    their property names. *)
Definition readTask (v : value) : option Task :=
  match v with
  | VObject m =>
      i ← lookupProperty "id" m ≫= asString;
      t ← lookupProperty "text" m ≫= asString;
      c ← lookupProperty "completed" m ≫= asBool;
      p ← optional asPriority (lookupProperty "priority" m);
      d ← optional asNullable (lookupProperty "dueDate" m);
      j ← optional asString (lookupProperty "project" m);
      a ← lookupProperty "createdAt" m ≫= asString;
      Some (mkTask i t c p d j a)
  | _ => None
  end.

Definition readTasks (v : value) : option (list Task) :=
  match v with
  | VArray l => mapM readTask l
  | _ => None
  end.

End TaskJson.

(** ** [Array.prototype.sort]

    The comparator returns a number, [None] standing for [NaN], which
    [sort] reads as [+0].  From ECMAScript 2019 on the sort is stable; it
    is modelled by a stable insertion sort. *)

Module JsArray.

Section Sort.
Context {A : Type} (comparefn : A -> A -> option Z).

Definition sortCompare (x y : A) : Z :=
  match comparefn x y with Some v => v | None => 0%Z end.

Fixpoint insert (x : A) (l : list A) : list A :=
  match l with
  | [] => [x]
  | y :: r => if (0 <? sortCompare x y)%Z then y :: insert x r else x :: l
  end.

Fixpoint sort (l : list A) : list A :=
  match l with
  | [] => []
  | x :: r => insert x (sort r)
  end.
End Sort.

Definition ascendingBy {A : Type} (key : A -> Z) (a b : A) : Prop :=
  (key a <= key b)%Z.

End JsArray.

(** ** FlowTask: [class TaskManager] of src/script.js *)

Module TaskManager.
Import JsString LocalStorage.

Record State : Type := mkState {
  tasks : list Task;
  currentFilter : string;
  localStorage : Storage;
  trace : list Effect
}.

Definition storageKey : string := "flowtask-tasks".

Definition withTasks (ts : list Task) (app : State) : State :=
  mkState ts (currentFilter app) (localStorage app) (trace app).

Definition emit (e : Effect) (app : State) : State :=
  mkState (tasks app) (currentFilter app) (localStorage app) (e :: trace app).

Definition showNotification (message type : string) (app : State) : State :=
  emit (ShowNotification message type) app.

(** [loadTasks()]: the stored text parsed, the empty array when there
    is none or when parsing throws. *)
Definition loadTasks (ls : Storage) : JSON.value :=
  match getItem ls storageKey with
  | Some stored =>
      if truthy stored then
        match JSON.parse stored with
        | Some v => v
        | None => JSON.VArray []
        end
      else JSON.VArray []
  | None => JSON.VArray []
  end.

(** [saveTasks()] *)
Definition saveTasks (app : State) : State :=
  let payload := JSON.stringify (TaskJson.tasksValue (tasks app)) in
  match setItem (localStorage app) storageKey payload with
  | Some ls =>
      emit (SetItem storageKey payload true)
        (mkState (tasks app) (currentFilter app) ls (trace app))
  | None =>
      showNotification "Error saving tasks" "error"
        (emit (SetItem storageKey payload false) app)
  end.

(** [setFilter(filter)] *)
Definition setFilter (filter : string) (app : State) : State :=
  mkState (tasks app) filter (localStorage app) (trace app).

(** [getFilteredTasks()] *)
Definition getFilteredTasks (app : State) : list Task :=
  if String.eqb (currentFilter app) "active" then
    List.filter (fun task => negb (completed task)) (tasks app)
  else if String.eqb (currentFilter app) "completed" then
    List.filter (fun task => completed task) (tasks app)
  else tasks app.

(** [validateTask(text)] *)
Definition validateTask (text : string) (app : State) : bool * State :=
  let trimmed := trim text in
  if negb (truthy trimmed) then
    (false, showNotification "Task cannot be empty" "error" app)
  else if (100 <? String.length trimmed)%nat then
    (false, showNotification "Task must be less than 100 characters" "error" app)
  else (true, app).

(** [addTask(text)]; [now] is the reading of [Date.now()] and [iso] the
    result of [new Date().toISOString()]. *)
Definition addTask (text : string) (now : N) (iso : string) (app : State)
  : ReturnValue * State :=
  let (valid, app) := validateTask text app in
  if negb valid then (Boolean false, app)
  else
    let newTask := mkTask (pretty now) (trim text) false None None None iso in
    let app := withTasks (newTask :: tasks app) app in
    let app := saveTasks app in
    (Boolean true, showNotification "Task added successfully!" "success" app).

(** [toggleTask(id)] *)
Definition toggleTask (i : string) (app : State) : ReturnValue * State :=
  match findIndex (fun t => String.eqb (id t) i) (tasks app) with
  | Some k =>
      let app :=
        withTasks (alter (fun task => setCompleted (negb (completed task)) task)
                     k (tasks app)) app in
      (Undefined, saveTasks app)
  | None => (Undefined, app)
  end.

(** [editTask(id, newText)] *)
Definition editTask (i newText : string) (app : State) : ReturnValue * State :=
  let (valid, app) := validateTask newText app in
  if negb valid then (Boolean false, app)
  else
    match findIndex (fun t => String.eqb (id t) i) (tasks app) with
    | Some k =>
        let app := withTasks (alter (setText (trim newText)) k (tasks app)) app in
        let app := saveTasks app in
        (Boolean true, showNotification "Task updated!" "success" app)
    | None => (Boolean false, app)
    end.

(** [deleteTask(id)] *)
Definition deleteTask (i : string) (app : State) : ReturnValue * State :=
  let app :=
    withTasks (List.filter (fun task => negb (String.eqb (id task) i)) (tasks app))
      app in
  let app := saveTasks app in
  (Undefined, showNotification "Task deleted" "info" app).

(** [clearCompleted()] *)
Definition clearCompleted (app : State) : ReturnValue * State :=
  let completedCount := length (List.filter (fun t => completed t) (tasks app)) in
  let app :=
    withTasks (List.filter (fun task => negb (completed task)) (tasks app)) app in
  let app := saveTasks app in
  (Undefined,
   showNotification ("Cleared " ++ pretty completedCount ++ " completed tasks")
     "info" app).

(** The calls a user interface can make on the store. *)
Inductive Operation : Type :=
| Add (text : string) (now : N) (iso : string)
| Toggle (i : string)
| Edit (i newText : string)
| Delete (i : string)
| ClearCompleted
| SetFilter (filter : string).

Definition perform (app : State) (op : Operation) : State :=
  match op with
  | Add text now iso => snd (addTask text now iso app)
  | Toggle i => snd (toggleTask i app)
  | Edit i newText => snd (editTask i newText app)
  | Delete i => snd (deleteTask i app)
  | ClearCompleted => snd (clearCompleted app)
  | SetFilter f => setFilter f app
  end.

Definition run (ops : list Operation) (app : State) : State :=
  fold_left perform ops app.

(** [new TaskManager()]: the collection is what [loadTasks] returns and
    the filter is 'all'.  The state is in the scope of this embedding when
    what was loaded is an array of task objects. *)
Definition new (ls : Storage) : option State :=
  ts ← TaskJson.readTasks (loadTasks ls);
  Some (mkState ts "all" ls []).

(** The states of the application over its life: it starts on an origin
    that holds no saved tasks, the user interface calls its operations, and
    the page may be loaded again, which builds a new [TaskManager] from
    what is stored. *)
Inductive reachable : State -> Prop :=
| reachable_first_run (ls : Storage) (app : State) :
    getItem ls storageKey = None -> new ls = Some app -> reachable app
| reachable_perform (app : State) (op : Operation) :
    reachable app -> reachable (perform app op)
| reachable_reload (app app' : State) :
    reachable app -> new (localStorage app) = Some app' -> reachable app'.

(** What is stored under the key is the text of a collection with
    trimmed texts. *)
Definition storedTrimmed (ls : Storage) : Prop :=
  forall stored,
    getItem ls storageKey = Some stored ->
    exists ts, stored = JSON.stringify (TaskJson.tasksValue ts) /\ textsTrimmed ts.

(** Every [Add] of the run that succeeds is made at a clock reading whose
    decimal form is not yet an id of the collection. *)
Fixpoint idsFresh (ops : list Operation) (app : State) : Prop :=
  match ops with
  | [] => True
  | op :: rest =>
      match op with
      | Add text now iso =>
          fst (addTask text now iso app) = Boolean true ->
          pretty now ∉ ids (tasks app)
      | _ => True
      end
      /\ idsFresh rest (perform app op)
  end.

(** The outcome the specification calls failing with a validation
    error: the call returns [false], the message of the error is the one
    notification shown, nothing is written, and the collection and the
    rest of the state are as before. *)
Definition rejectedWith (e : ValidationError) (app : State)
  (outcome : ReturnValue * State) : Prop :=
  outcome = (Boolean false, showNotification (validationMessage e) "error" app).

End TaskManager.

(** ** FlowTask Pro: [class FlowTaskPro] of src/app-core.js, with the view
    methods src/app-views.js assigns to its prototype *)

Module FlowTaskPro.
Import JsString LocalStorage.

Record State : Type := mkState {
  tasks : list Task;          (* the contents of the array [this.tasks] refers to *)
  currentView : string;
  currentFilter : string;
  currentSort : string;
  localStorage : Storage;
  trace : list Effect
}.

Definition storageKey : string := "flowtask-pro-tasks".

Definition withTasks (ts : list Task) (app : State) : State :=
  mkState ts (currentView app) (currentFilter app) (currentSort app)
    (localStorage app) (trace app).

Definition emit (e : Effect) (app : State) : State :=
  mkState (tasks app) (currentView app) (currentFilter app) (currentSort app)
    (localStorage app) (e :: trace app).

Definition showNotification (message type : string) (app : State) : State :=
  emit (ShowNotification message type) app.

(** The two tasks of a first run; [iso1] and [iso2] are the results of
    the two calls of [new Date().toISOString()], [tomorrow] that of
    [getTomorrowDate()]. *)
Definition welcomeTasks (iso1 iso2 tomorrow : string) : JSON.value :=
  JSON.VArray
    [JSON.VObject
       [("id", JSON.VString "1");
        ("text", JSON.VString "Welcome to FlowTask Pro!");
        ("completed", JSON.VBool false);
        ("priority", JSON.VString "high");
        ("dueDate", JSON.VNull);
        ("createdAt", JSON.VString iso1);
        ("project", JSON.VString "Inbox")];
     JSON.VObject
       [("id", JSON.VString "2");
        ("text", JSON.VString "Create project presentation");
        ("completed", JSON.VBool false);
        ("priority", JSON.VString "medium");
        ("dueDate", JSON.VString tomorrow);
        ("createdAt", JSON.VString iso2);
        ("project", JSON.VString "Work")]].

(** [loadTasks()]: the value loaded and the notification, if any. *)
Definition loadTasks (iso1 iso2 tomorrow : string) (ls : Storage)
  : JSON.value * list Effect :=
  match getItem ls storageKey with
  | Some stored =>
      if truthy stored then
        match JSON.parse stored with
        | Some v => (v, [])
        | None => (JSON.VArray [], [ShowNotification "Error loading tasks" "error"])
        end
      else (welcomeTasks iso1 iso2 tomorrow, [])
  | None => (welcomeTasks iso1 iso2 tomorrow, [])
  end.

(** [saveTasks()] *)
Definition saveTasks (app : State) : State :=
  let payload := JSON.stringify (TaskJson.tasksValue (tasks app)) in
  match setItem (localStorage app) storageKey payload with
  | Some ls =>
      emit (SetItem storageKey payload true)
        (mkState (tasks app) (currentView app) (currentFilter app)
           (currentSort app) ls (trace app))
  | None =>
      showNotification "Error saving tasks" "error"
        (emit (SetItem storageKey payload false) app)
  end.

(** [validateTask(text)] *)
Definition validateTask (text : string) (app : State) : bool * State :=
  let trimmed := trim text in
  if negb (truthy trimmed) then
    (false, showNotification "Task cannot be empty" "error" app)
  else (true, app).

(** [showView(viewName)] *)
Definition showView (viewName : string) (app : State) : State :=
  mkState (tasks app) viewName (currentFilter app) (currentSort app)
    (localStorage app) (trace app).

(** *** The view methods of src/app-views.js

    An array is an object: [getFilteredTasks] hands out either the very
    array [this.tasks] refers to or one freshly allocated by [filter],
    and [sort] reorders the array it is called on. *)

Inductive ArrayRef : Type :=
| TasksArray                          (* the array [this.tasks] refers to *)
| FreshArray (contents : list Task).  (* an array nothing else refers to *)

Definition contents (app : State) (r : ArrayRef) : list Task :=
  match r with
  | TasksArray => tasks app
  | FreshArray l => l
  end.

(** [getFilteredTasks()] *)
Definition getFilteredTasks (app : State) : ArrayRef :=
  if String.eqb (currentFilter app) "active" then
    FreshArray (List.filter (fun task => negb (completed task)) (tasks app))
  else if String.eqb (currentFilter app) "completed" then
    FreshArray (List.filter (fun task => completed task) (tasks app))
  else if String.eqb (currentFilter app) "high" then
    FreshArray (List.filter (fun task => priorityIs high task) (tasks app))
  else TasksArray.

(** [tasks.sort(comparefn)]: sorts the array referred to and returns
    the same reference. *)
Definition sortInPlace (comparefn : Task -> Task -> option Z)
  (r : ArrayRef) (app : State) : ArrayRef * State :=
  match r with
  | TasksArray => (TasksArray, withTasks (JsArray.sort comparefn (tasks app)) app)
  | FreshArray l => (FreshArray (JsArray.sort comparefn l), app)
  end.

(** [priorityOrder[p]]; [None] is [undefined]. *)
Definition priorityOrder (p : option Priority) : option Z :=
  match p with
  | Some high => Some 3%Z
  | Some medium => Some 2%Z
  | Some low => Some 1%Z
  | None => None
  end.

(** [x - y] on numbers, [NaN] when either is not a number. *)
Definition minus (x y : option Z) : option Z :=
  match x, y with
  | Some a, Some b => Some (a - b)%Z
  | _, _ => None
  end.

Section Views.
(** The time value of [new Date(s)], [None] for an Invalid Date. *)
Variable dateValue : string -> option Z.

(** [sortTasks(tasks)] *)
Definition sortTasks (r : ArrayRef) (app : State) : ArrayRef * State :=
  if String.eqb (currentSort app) "newest" then
    sortInPlace
      (fun a b => minus (dateValue (createdAt b)) (dateValue (createdAt a))) r app
  else if String.eqb (currentSort app) "oldest" then
    sortInPlace
      (fun a b => minus (dateValue (createdAt a)) (dateValue (createdAt b))) r app
  else if String.eqb (currentSort app) "priority" then
    sortInPlace
      (fun a b => minus (priorityOrder (priority b)) (priorityOrder (priority a)))
      r app
  else (r, app).

(** The first two statements of [renderTasks()]: the array handed to
    [renderTaskList], and the state they leave. *)
Definition projection (app : State) : ArrayRef * State :=
  let filteredTasks := getFilteredTasks app in
  sortTasks filteredTasks app.

(** [renderTasks()] *)
Definition renderTasks (app : State) : State := snd (projection app).

(** [renderDashboard()]: [renderRecentTasks] reads a [slice] copy. *)
Definition renderDashboard (app : State) : State := app.

Definition render (app : State) : State :=
  if String.eqb (currentView app) "dashboard" then renderDashboard app
  else renderTasks app.

(** [addTask(text, priority = 'medium', dueDate = null, project = 'Inbox')];
    an argument left out is [None]. *)
Definition addTask (text : string) (priority : option Priority)
  (dueDate : option (option string)) (project : option string)
  (now : N) (iso : string) (app : State) : ReturnValue * State :=
  let (valid, app) := validateTask text app in
  if negb valid then (Boolean false, app)
  else
    let newTask :=
      mkTask (pretty now) (trim text) false
        (Some (default medium priority))
        (Some (default None dueDate))
        (Some (default "Inbox" project))
        iso in
    let app := withTasks (newTask :: tasks app) app in
    let app := saveTasks app in
    let app := render app in
    (Boolean true, showNotification "Task added successfully!" "success" app).

(** [toggleTask(id)] *)
Definition toggleTask (i : string) (app : State) : ReturnValue * State :=
  match findIndex (fun t => String.eqb (id t) i) (tasks app) with
  | Some k =>
      let app :=
        withTasks (alter (fun task => setCompleted (negb (completed task)) task)
                     k (tasks app)) app in
      let app := saveTasks app in
      (Undefined, render app)
  | None => (Undefined, app)
  end.

(** [deleteTask(id)] *)
Definition deleteTask (i : string) (app : State) : ReturnValue * State :=
  let app :=
    withTasks (List.filter (fun task => negb (String.eqb (id task) i)) (tasks app))
      app in
  let app := saveTasks app in
  let app := render app in
  (Undefined, showNotification "Task deleted" "info" app).

Inductive Operation : Type :=
| Add (text : string) (priority : option Priority)
    (dueDate : option (option string)) (project : option string)
    (now : N) (iso : string)
| Toggle (i : string)
| Delete (i : string)
| ShowView (viewName : string)
| RenderTasks.

Definition perform (app : State) (op : Operation) : State :=
  match op with
  | Add text p d j now iso => snd (addTask text p d j now iso app)
  | Toggle i => snd (toggleTask i app)
  | Delete i => snd (deleteTask i app)
  | ShowView v => showView v app
  | RenderTasks => renderTasks app
  end.

Definition run (ops : list Operation) (app : State) : State :=
  fold_left perform ops app.

Fixpoint idsFresh (ops : list Operation) (app : State) : Prop :=
  match ops with
  | [] => True
  | op :: rest =>
      match op with
      | Add text p d j now iso =>
          fst (addTask text p d j now iso app) = Boolean true ->
          pretty now ∉ ids (tasks app)
      | _ => True
      end
      /\ idsFresh rest (perform app op)
  end.
End Views.

Definition rejectedWith (e : ValidationError) (app : State)
  (outcome : ReturnValue * State) : Prop :=
  outcome = (Boolean false, showNotification (validationMessage e) "error" app).

(** *** Vocabulary for the order of a sorted view *)

(** The number [priorityOrder] gives a task, 0 without a priority. *)
Definition rank (t : Task) : Z := default 0%Z (priorityOrder (priority t)).

(** The time value of a task's [createdAt], 0 for an Invalid Date. *)
Definition createdTime (dateValue : string -> option Z) (t : Task) : Z :=
  default 0%Z (dateValue (createdAt t)).

Definition createdAtTime (dateValue : string -> option Z) (d : Z) (t : Task) : bool :=
  match dateValue (createdAt t) with
  | Some d' => (d' =? d)%Z
  | None => false
  end.

Definition hasPriority (t : Task) : Prop := priority t <> None.

Definition hasDate (dateValue : string -> option Z) (t : Task) : Prop :=
  dateValue (createdAt t) <> None.

Definition higherFirst (a b : Task) : Prop := (rank b <= rank a)%Z.

Definition newestFirst (dateValue : string -> option Z) (a b : Task) : Prop :=
  (createdTime dateValue b <= createdTime dateValue a)%Z.

Definition oldestFirst (dateValue : string -> option Z) (a b : Task) : Prop :=
  (createdTime dateValue a <= createdTime dateValue b)%Z.

End FlowTaskPro.

(** ** Sample states *)

Module Samples.
Import LocalStorage.

(** An origin with the customary five million code units of storage. *)
Definition emptyStorage : Storage := mkStorage ∅ 5000000.

(** A nearly full origin that still holds an earlier, empty save. *)
Definition fullStorage : Storage :=
  mkStorage {[ TaskManager.storageKey := "[]" ]} 20.

Definition buyMilk : Task :=
  mkTask "1700000000000" "Buy milk" false None None None "2023-11-14T22:13:20.000Z".

Definition callMum : Task :=
  mkTask "1700000000500" "Call mum" true None None None "2023-11-14T22:13:20.500Z".

Definition fresh : TaskManager.State :=
  TaskManager.mkState [] "all" emptyStorage [].

Definition oneTask : TaskManager.State :=
  TaskManager.mkState [buyMilk] "all" emptyStorage [].

Definition twoTasks : TaskManager.State :=
  TaskManager.mkState [callMum; buyMilk] "all" emptyStorage [].

Definition cramped : TaskManager.State :=
  TaskManager.mkState [buyMilk] "all" fullStorage [].

(** A hundred tasks, newest first. *)
Definition hundred : TaskManager.State :=
  TaskManager.mkState
    (map (fun n => mkTask (pretty (1700000000000 + N.of_nat n)%N)
                     ("Task " ++ pretty n) (Nat.even n) None None None
                     "2023-11-14T22:13:20.000Z")
       (rev (seq 0 100)))
    "all" emptyStorage [].

(** A text of exactly 100 characters, and the same with white space
    around it. *)
Definition hundredChars : string := string_of_list_ascii (repeat "a"%char 100).

Definition paddedHundred : string := "   " ++ hundredChars ++ "  ".

Definition report : Task :=
  mkTask "1700000001000" "Write report" false (Some low) (Some None)
    (Some "Inbox") "2023-11-14T22:13:21.000Z".

Definition release : Task :=
  mkTask "1700000002000" "Ship release" false (Some high)
    (Some (Some "2023-11-20")) (Some "Work") "2023-11-14T22:13:22.000Z".

Definition review : Task :=
  mkTask "1700000003000" "Review notes" true (Some medium) (Some None)
    (Some "Inbox") "2023-11-14T22:13:23.000Z".

(** FlowTask Pro on its tasks view, with the given filter and sort key. *)
Definition pro (filter sort : string) (ts : list Task) : FlowTaskPro.State :=
  FlowTaskPro.mkState ts "tasks" filter sort emptyStorage [].

End Samples.

(** ** The rest of src/script.js: what is shown, and the event handlers *)

Module Html.

(** [s.replace(/c/g, replacement)] for a pattern of one character. *)
Fixpoint replaceAll (c : ascii) (replacement : string) (s : string) : string :=
  match s with
  | EmptyString => EmptyString
  | String a r =>
      if Ascii.eqb a c then String.append replacement (replaceAll c replacement r)
      else String a (replaceAll c replacement r)
  end.

(** [escapeHtml(unsafe)], the same in script.js and in app-core.js: five
    replacements, one after the other. *)
Definition escapeHtml (unsafe : string) : string :=
  replaceAll "'" "&#039;"
    (replaceAll JSON.dquote "&quot;"
       (replaceAll ">" "&gt;"
          (replaceAll "<" "&lt;"
             (replaceAll "&" "&amp;" unsafe)))).

(** What one character of the text should become. *)
Definition entity (c : ascii) : string :=
  if Ascii.eqb c "&" then "&amp;"
  else if Ascii.eqb c "<" then "&lt;"
  else if Ascii.eqb c ">" then "&gt;"
  else if Ascii.eqb c JSON.dquote then "&quot;"
  else if Ascii.eqb c "'" then "&#039;"
  else String c EmptyString.

Fixpoint escapeEach (s : string) : string :=
  match s with
  | EmptyString => EmptyString
  | String c r => String.append (entity c) (escapeEach r)
  end.

(** The characters that open or close markup or an attribute value. *)
Definition isMarkup (c : ascii) : bool :=
  Ascii.eqb c "<" || Ascii.eqb c ">" || Ascii.eqb c JSON.dquote || Ascii.eqb c "'".

Definition isSpecial (c : ascii) : bool := Ascii.eqb c "&" || isMarkup c.

Fixpoint occurs (p : ascii -> bool) (s : string) : bool :=
  match s with
  | EmptyString => false
  | String c r => p c || occurs p r
  end.

End Html.

Module TaskManagerView.
Import JsString TaskManager.

(** What [render()] puts into the task list: the one empty-state item
    with its message, or one element per task, in order. *)
Inductive Rendered : Type :=
| EmptyState (message : string)
| TaskElements (items : list Task).

(** The message chosen in [createEmptyState()]. *)
Definition emptyStateMessage (filter : string) : string :=
  if String.eqb filter "completed" then "No completed tasks yet!"
  else if String.eqb filter "active" then "All tasks are completed!"
  else "Add your first task to get started!".

(** [render()] *)
Definition render (app : State) : Rendered :=
  let filteredTasks := getFilteredTasks app in
  if Nat.eqb (length filteredTasks) 0
  then EmptyState (emptyStateMessage (currentFilter app))
  else TaskElements filteredTasks.

(** [updateStats()]: the texts of the two counters. *)
Definition updateStats (app : State) : string * string :=
  let totalTasks := length (tasks app) in
  let completedTasks := length (List.filter (fun t => completed t) (tasks app)) in
  let activeTasks := totalTasks - completedTasks in
  (String.append (pretty activeTasks) " active",
   String.append (pretty completedTasks) " completed").

(** [handleAddTask()]: [input] is the value of the text field; the result
    carries the value the field is left with. *)
Definition handleAddTask (now : N) (iso : string) (input : string) (app : State)
  : string * State :=
  let text := input in
  match addTask text now iso app with
  | (Boolean true, app) => ("", app)
  | (_, app) => (input, app)
  end.

(** [saveEdit] of [enableEditMode(task, element)]: [currentText] is the
    text the element showed, [value] what the edit field holds. *)
Definition saveEdit (taskId currentText value : string) (app : State) : State :=
  let newText := trim value in
  if truthy newText && negb (String.eqb newText currentText)
  then snd (editTask taskId newText app)
  else app.

End TaskManagerView.

(** ** The page of src/script.js

    The [DOMContentLoaded] handler builds a [TaskManager] twice, and each
    constructor binds its own listeners to the same elements.  The
    listeners of an element run in the order they were added; the storage,
    the trace and the text field are the browser's and are shared. *)

Module Page.
Import JsString TaskManager TaskManagerView.

Record Instance : Type := mkInstance {
  its : list Task;
  filter : string
}.

Record Page : Type := mkPage {
  first : Instance;     (* made by the bare [new TaskManager()] *)
  second : Instance;    (* [window.taskManager] *)
  taskInput : string;
  storage : LocalStorage.Storage;
  effects : list Effect
}.

Definition enter (i : Instance) (ls : LocalStorage.Storage) (tr : list Effect) : State :=
  mkState (its i) (filter i) ls tr.

Definition leave (app : State) : Instance :=
  mkInstance (tasks app) (currentFilter app).

(** The handler's two constructor calls. *)
Definition load (ls : LocalStorage.Storage) : option Page :=
  a ← new ls;
  b ← new ls;
  Some (mkPage (leave a) (leave b) "" ls []).

(** The user types [text] into the field. *)
Definition typeText (text : string) (page : Page) : Page :=
  mkPage (first page) (second page) text (storage page) (effects page).

(** A click on the add button (or Enter in the field): the listener of
    the first manager, then that of the second. *)
Definition clickAdd (now1 : N) (iso1 : string) (now2 : N) (iso2 : string)
  (page : Page) : Page :=
  let (input1, app1) :=
    handleAddTask now1 iso1 (taskInput page)
      (enter (first page) (storage page) (effects page)) in
  let (input2, app2) :=
    handleAddTask now2 iso2 input1
      (enter (second page) (localStorage app1) (trace app1)) in
  mkPage (leave app1) (leave app2) input2 (localStorage app2) (trace app2).

(** A click on the Clear Completed button:
    [window.taskManager.clearCompleted()]. *)
Definition clickClear (page : Page) : Page :=
  let app2 :=
    snd (clearCompleted (enter (second page) (storage page) (effects page))) in
  mkPage (first page) (leave app2) (taskInput page) (localStorage app2) (trace app2).

End Page.

(** ** The rest of src/app-core.js and src/app-views.js *)

Module Theme.
Import JsString LocalStorage.

Definition storageKey : string := "flowtask-theme".

(** [loadTheme()] *)
Definition loadTheme (ls : Storage) : string :=
  match getItem ls storageKey with
  | Some theme => if truthy theme then theme else "light"
  | None => "light"
  end.

(** [saveTheme(theme)]; nothing catches what [setItem] throws. *)
Definition saveTheme (theme : string) (ls : Storage) : option Storage :=
  setItem ls storageKey theme.

(** [applyTheme(theme)]: the new value of [this.theme], assigned first,
    and the outcome of the write. *)
Definition applyTheme (theme : string) (ls : Storage) : string * option Storage :=
  (theme, saveTheme theme ls).

(** [toggleTheme()] with [this.theme = current]. *)
Definition toggleTheme (current : string) (ls : Storage) : string * option Storage :=
  let newTheme := if String.eqb current "light" then "dark" else "light" in
  applyTheme newTheme ls.

End Theme.

Module FlowTaskProView.
Import JsString FlowTaskPro.

(** The tasks [renderRecentTasks()] shows: [this.tasks.slice(0, 5)]. *)
Definition recentTasks (app : State) : list Task := firstn 5 (tasks app).

(** The counts of [updateStats()]: total, completed and pending.  The
    completion rate, a floating-point quotient, is left out. *)
Definition statCounts (app : State) : nat * nat * nat :=
  let totalTasks := length (tasks app) in
  let completedTasks := length (List.filter (fun t => completed t) (tasks app)) in
  let pendingTasks := totalTasks - completedTasks in
  (totalTasks, completedTasks, pendingTasks).

(** [handleAddTask()]: the values of the text field, the priority select
    and the date field; the result carries the values the text and date
    fields are left with. *)
Definition handleAddTask (dateValue : string -> option Z) (now : N) (iso : string)
  (input : string) (prioritySelect : Priority) (dueDateInput : string)
  (app : State) : string * string * State :=
  let text := input in
  let priority := prioritySelect in
  let dueDate := if truthy dueDateInput then Some dueDateInput else None in
  match addTask dateValue text (Some priority) (Some dueDate) None now iso app with
  | (Boolean true, app) => ("", "", app)
  | (_, app) => (input, dueDateInput, app)
  end.

End FlowTaskProView.

(** Whether memory and storage agree: what [loadTasks] would return is
    the collection in memory. *)
Definition inSync (app : TaskManager.State) : Prop :=
  TaskManager.loadTasks (TaskManager.localStorage app)
  = TaskJson.tasksValue (TaskManager.tasks app).

Definition isRejectedWrite (e : Effect) : bool :=
  match e with SetItem _ _ false => true | _ => false end.

(** The same for FlowTask Pro, but up to the order of the tasks: what
    [loadTasks] would return is an arrangement of the collection in
    memory, loaded without a notification. *)
Definition storedUpToOrder (app : FlowTaskPro.State) : Prop :=
  exists ts,
    (forall iso1 iso2 tomorrow,
        FlowTaskPro.loadTasks iso1 iso2 tomorrow (FlowTaskPro.localStorage app)
        = (TaskJson.tasksValue ts, []))
    /\ Permutation ts (FlowTaskPro.tasks app).

(** * Part II: properties *)

(** ** Trimming *)

Section TrimFacts.
Import JsString.

Lemma trimStart_head (s : string) (c : ascii) :
  head (trimStart s) = Some c -> isWhiteSpace c = false.
Proof.
  induction s as [|a s IH]; simpl; [discriminate|].
  destruct (isWhiteSpace a) eqn:Ha; [exact IH|].
  simpl. intros [= <-]. exact Ha.
Qed.

Lemma trimStart_fixed (s : string) :
  (forall c, head s = Some c -> isWhiteSpace c = false) -> trimStart s = s.
Proof.
  destruct s as [|a s]; simpl; [reflexivity|].
  intros H. rewrite (H a eq_refl). reflexivity.
Qed.

Lemma trimEnd_head (s : string) (c : ascii) :
  head (trimEnd s) = Some c -> head s = Some c.
Proof.
  destruct s as [|a s]; simpl; [discriminate|].
  destruct (trimEnd s); [destruct (isWhiteSpace a)|]; simpl; congruence.
Qed.

Lemma trimEnd_last (s : string) (c : ascii) :
  last (trimEnd s) = Some c -> isWhiteSpace c = false.
Proof.
  induction s as [|a s IH]; simpl; [discriminate|].
  destruct (trimEnd s) as [|b r] eqn:E.
  - destruct (isWhiteSpace a) eqn:Ha; simpl; [discriminate|].
    intros [= <-]. exact Ha.
  - exact IH.
Qed.

Lemma trimEnd_idempotent (s : string) : trimEnd (trimEnd s) = trimEnd s.
Proof.
  induction s as [|a s IH]; simpl; [reflexivity|].
  destruct (trimEnd s) as [|b r] eqn:E.
  - destruct (isWhiteSpace a) eqn:Ha; simpl; [reflexivity|].
    rewrite Ha. reflexivity.
  - change (trimEnd (String a (String b r)))
      with (match trimEnd (String b r) with
            | EmptyString =>
                if isWhiteSpace a then EmptyString else String a EmptyString
            | x => String a x
            end).
    rewrite IH. reflexivity.
Qed.

(** [trim] is idempotent: a trimmed text is its own trimmed form. *)
Lemma trim_idempotent (s : string) : trim (trim s) = trim s.
Proof.
  unfold trim.
  rewrite (trimStart_fixed (trimEnd (trimStart s))).
  - apply trimEnd_idempotent.
  - intros c Hc. apply trimEnd_head in Hc. eapply trimStart_head, Hc.
Qed.

Lemma trim_head (s : string) (c : ascii) :
  head (trim s) = Some c -> isWhiteSpace c = false.
Proof. intros H. apply trimEnd_head in H. eapply trimStart_head, H. Qed.

Lemma trim_last (s : string) (c : ascii) :
  last (trim s) = Some c -> isWhiteSpace c = false.
Proof. apply trimEnd_last. Qed.

Lemma trimStart_whitespace (l s : string) :
  whitespaceOnly l -> trimStart (l ++ s) = trimStart s.
Proof.
  unfold whitespaceOnly. induction l as [|a l IH]; simpl; [reflexivity|].
  intros H. inversion H as [|? ? Ha Hl]; subst. rewrite Ha. auto.
Qed.

Lemma trimStart_whitespaceOnly (r : string) : whitespaceOnly r -> trimStart r = "".
Proof.
  unfold whitespaceOnly. induction r as [|a r IH]; simpl; [reflexivity|].
  intros H. inversion H as [|? ? Ha Hr]; subst. rewrite Ha. auto.
Qed.

Lemma trimEnd_whitespaceOnly (r : string) : whitespaceOnly r -> trimEnd r = "".
Proof.
  unfold whitespaceOnly. induction r as [|a r IH]; simpl; [reflexivity|].
  intros H. inversion H as [|? ? Ha Hr]; subst. rewrite (IH Hr), Ha. reflexivity.
Qed.

Lemma trimEnd_whitespace (s r : string) :
  whitespaceOnly r -> trimEnd (s ++ r) = trimEnd s.
Proof.
  intros Hr. induction s as [|a s IH]; simpl.
  - apply trimEnd_whitespaceOnly, Hr.
  - rewrite IH. reflexivity.
Qed.

(** Whitespace around the input does not reach the trimmed text. *)
Lemma trim_surrounding (l s r : string) :
  whitespaceOnly l -> whitespaceOnly r -> trim (l ++ s ++ r) = trim s.
Proof.
  intros Hl Hr. unfold trim. rewrite (trimStart_whitespace l _ Hl).
  induction s as [|a s IH]; simpl.
  - change (String.append "" r) with r.
    rewrite (trimStart_whitespaceOnly r Hr). reflexivity.
  - destruct (isWhiteSpace a); [exact IH|].
    apply (trimEnd_whitespace (String a s) r Hr).
Qed.

Lemma truthy_false (s : string) : truthy s = false <-> s = "".
Proof. destruct s; simpl; split; congruence. Qed.

Lemma truthy_true (s : string) : truthy s = true <-> s <> "".
Proof. destruct s; simpl; split; congruence. Qed.

End TrimFacts.

(** ** [JSON.parse] inverts [JSON.stringify] *)

Section JsonFacts.
Import JSON.

Lemma value_induction (P : value -> Prop)
  (Hnull : P VNull)
  (Hbool : forall b, P (VBool b))
  (Hstring : forall s, P (VString s))
  (Harray : forall l, Forall P l -> P (VArray l))
  (Hobject : forall m, Forall (fun kv => P (snd kv)) m -> P (VObject m)) :
  forall v, P v.
Proof.
  fix IH 1. intros [| b | s | l | m].
  - exact Hnull.
  - apply Hbool.
  - apply Hstring.
  - apply Harray. revert l. fix IHl 1. intros [|x l].
    + constructor.
    + constructor; [apply IH | apply IHl].
  - apply Hobject. revert m. fix IHm 1. intros [|[k x] m].
    + constructor.
    + constructor; [apply IH | apply IHm].
Qed.

Lemma wellFormed_array (l : list value) :
  wellFormed (VArray l) <-> Forall wellFormed l.
Proof.
  induction l as [|x l IH].
  - split; [constructor | exact (fun _ => I)].
  - rewrite Forall_cons. rewrite <- IH. reflexivity.
Qed.

Lemma wellFormed_object (m : list (string * value)) :
  wellFormed (VObject m)
  <-> NoDup (map fst m) /\ Forall (fun kv => wellFormed (snd kv)) m.
Proof.
  simpl.
  match goal with
  | |- (_ /\ ?X) <-> _ =>
      assert (HX : X <-> Forall (fun kv => wellFormed (snd kv)) m)
  end.
  { induction m as [|[k x] m IH].
    - split; [constructor | exact (fun _ => I)].
    - rewrite Forall_cons. rewrite <- IH. reflexivity. }
  rewrite HX. reflexivity.
Qed.

(** *** String literals *)

Lemma chars_string_of_list (l : list ascii) : chars (string_of_list_ascii l) = l.
Proof. apply list_ascii_of_string_of_list_ascii. Qed.

Lemma parseChars_escapeChar (c : ascii) (r : list ascii) :
  parseChars (escapeChar c ++ r)
  = match parseChars r with
    | Some (str, rest) => Some (String c str, rest)
    | None => None
    end.
Proof.
  destruct c as [[] [] [] [] [] [] [] []]; reflexivity.
Qed.

Lemma parseChars_quoted (s : string) (rest : list ascii) :
  parseChars (flat_map escapeChar (chars s) ++ dquote :: rest) = Some (s, rest).
Proof.
  induction s as [|c s IH]; [reflexivity|].
  change (chars (String c s)) with (c :: chars s).
  cbn [flat_map]. rewrite <- app_assoc, parseChars_escapeChar, IH. reflexivity.
Qed.

Lemma quote_app (s : string) (rest : list ascii) :
  quote s ++ rest = dquote :: flat_map escapeChar (chars s) ++ dquote :: rest.
Proof. unfold quote. cbn [app]. rewrite <- app_assoc. reflexivity. Qed.

Lemma length_quote (s : string) : 2 <= length (quote s).
Proof. unfold quote. cbn [length]. rewrite length_app. cbn. lia. Qed.

(** *** Objects without repeated keys are rebuilt as they were *)

Lemma defineProperty_fresh k v (m : list (string * value)) :
  k ∉ map fst m -> defineProperty k v m = m ++ [(k, v)].
Proof.
  induction m as [|[k' v'] m IH]; [reflexivity|].
  cbn [map fst]. rewrite not_elem_of_cons. intros [Hne Hm]. cbn [defineProperty app].
  destruct (String.eqb_spec k' k) as [->|_]; [congruence|].
  rewrite IH by exact Hm. reflexivity.
Qed.

Lemma makeObject_acc (m acc : list (string * value)) :
  NoDup (map fst (acc ++ m)) ->
  fold_left (fun a kv => defineProperty (fst kv) (snd kv) a) m acc = acc ++ m.
Proof.
  revert acc. induction m as [|[k v] m IH]; intros acc Hnd; cbn [fold_left].
  - rewrite app_nil_r. reflexivity.
  - cbn [fst snd]. rewrite defineProperty_fresh.
    + rewrite IH; rewrite <- app_assoc; [reflexivity | exact Hnd].
    + rewrite map_app in Hnd. apply NoDup_app in Hnd as (_ & Hd & _).
      intros Hin. apply (Hd k Hin). cbn. left.
Qed.

Lemma makeObject_id (m : list (string * value)) :
  NoDup (map fst m) -> makeObject m = m.
Proof. intros H. apply (makeObject_acc m []). exact H. Qed.

(** *** Values *)

Lemma startChar_not_space (c : ascii) :
  startChar c = true ->
  isJsonWhiteSpace c = false /\ Ascii.eqb c "]" = false /\ Ascii.eqb c "}" = false.
Proof.
  destruct c as [[] [] [] [] [] [] [] []]; cbv; intuition congruence.
Qed.

Lemma print_startsValue (v : value) (rest : list ascii) :
  startsValue (print v ++ rest).
Proof.
  destruct v as [| [] | s | l | m]; eexists _, _; split;
    try reflexivity; reflexivity.
Qed.

Lemma length_print (v : value) : 1 <= length (print v).
Proof.
  destruct (print_startsValue v []) as (c & tl & E & _).
  rewrite app_nil_r in E. rewrite E. cbn. lia.
Qed.

(** After optional white space, a value that is not the closing bracket
    sends the parser into the non-empty branch. *)
Lemma skip_to_value {B : Type} (s : list ascii) (close : ascii)
  (closed : list ascii -> B) (open : B) (eof : B) :
  startsValue s -> close = "]"%char \/ close = "}"%char ->
  match skipWhiteSpace s with
  | c :: r => if Ascii.eqb c close then closed r else open
  | [] => eof
  end = open.
Proof.
  intros (c & tl & -> & Hc) Hclose.
  destruct (startChar_not_space c Hc) as (Hws & Hb & Hbr).
  cbn [skipWhiteSpace]. rewrite Hws.
  destruct Hclose as [-> | ->]; [rewrite Hb | rewrite Hbr]; reflexivity.
Qed.

Lemma parseValue_string (f : nat) (r : list ascii) :
  parseValue (S f) (dquote :: r)
  = match parseChars r with
    | Some (str, rest) => Some (VString str, rest)
    | None => None
    end.
Proof. reflexivity. Qed.

Lemma parseValue_array (f : nat) (r : list ascii) :
  parseValue (S f) ("["%char :: r)
  = match skipWhiteSpace r with
    | c' :: r' =>
        if Ascii.eqb c' "]" then Some (VArray [], r')
        else
          match parseElements f r with
          | Some (l, rest) => Some (VArray l, rest)
          | None => None
          end
    | [] => None
    end.
Proof. reflexivity. Qed.

Lemma parseValue_object (f : nat) (r : list ascii) :
  parseValue (S f) ("{"%char :: r)
  = match skipWhiteSpace r with
    | c' :: r' =>
        if Ascii.eqb c' "}" then Some (VObject [], r')
        else
          match parseMembers f r with
          | Some (m, rest) => Some (VObject (makeObject m), rest)
          | None => None
          end
    | [] => None
    end.
Proof. reflexivity. Qed.

Lemma parseElements_step (f : nat) (s : list ascii) :
  parseElements (S f) s
  = match parseValue f s with
    | Some (v, r) =>
        match skipWhiteSpace r with
        | c :: r' =>
            if Ascii.eqb c "," then
              match parseElements f r' with
              | Some (l, rest) => Some (v :: l, rest)
              | None => None
              end
            else if Ascii.eqb c "]" then Some ([v], r')
            else None
        | [] => None
        end
    | None => None
    end.
Proof. reflexivity. Qed.

Lemma parseMembers_step (f : nat) (k : string) (x : list ascii) :
  parseMembers (S f) (quote k ++ ":"%char :: x)
  = match parseValue f x with
    | Some (v, r3) =>
        match skipWhiteSpace r3 with
        | c3 :: r4 =>
            if Ascii.eqb c3 "," then
              match parseMembers f r4 with
              | Some (m, rest) => Some ((k, v) :: m, rest)
              | None => None
              end
            else if Ascii.eqb c3 "}" then Some ([(k, v)], r4)
            else None
        | [] => None
        end
    | None => None
    end.
Proof.
  rewrite quote_app. cbn [parseMembers skipWhiteSpace].
  change (isJsonWhiteSpace dquote) with false. cbv iota.
  change (Ascii.eqb dquote dquote) with true. cbv iota.
  rewrite parseChars_quoted. reflexivity.
Qed.

Lemma parseElements_print (l : list value) :
  l <> [] -> Forall reads l ->
  forall fuel rest,
    length (printElements l) + 1 < fuel ->
    parseElements fuel (printElements l ++ "]"%char :: rest) = Some (l, rest).
Proof.
  induction l as [|x l IH]; [congruence|].
  intros _ HF fuel rest Hlen. apply Forall_cons in HF as [Hx Hl].
  destruct fuel as [|f]; [lia|]. rewrite parseElements_step.
  destruct l as [|y l].
  - change (printElements [x]) with (print x) in *.
    rewrite Hx by lia. reflexivity.
  - change (printElements (x :: y :: l))
      with (print x ++ ","%char :: printElements (y :: l)) in *.
    rewrite length_app in Hlen. cbn [length] in Hlen.
    pose proof (length_print x).
    rewrite <- app_assoc. rewrite Hx by lia.
    cbn [app skipWhiteSpace]. change (isJsonWhiteSpace ",") with false. cbv iota.
    change (Ascii.eqb "," ",") with true. cbv iota.
    rewrite IH; [reflexivity | congruence | exact Hl | lia].
Qed.

Lemma parseMembers_print (m : list (string * value)) :
  m <> [] -> Forall (fun kv => reads (snd kv)) m ->
  forall fuel rest,
    length (printMembers m) + 1 < fuel ->
    parseMembers fuel (printMembers m ++ "}"%char :: rest) = Some (m, rest).
Proof.
  induction m as [|[k x] m IH]; [congruence|].
  intros _ HF fuel rest Hlen. apply Forall_cons in HF as [Hx Hm]. cbn [snd] in Hx.
  destruct fuel as [|f]; [lia|].
  pose proof (length_quote k). pose proof (length_print x).
  destruct m as [|[k' y] m].
  - change (printMembers [(k, x)]) with (quote k ++ ":"%char :: print x) in *.
    rewrite length_app in Hlen. cbn [length] in Hlen.
    rewrite <- app_assoc. cbn [app]. rewrite parseMembers_step.
    rewrite Hx by lia. reflexivity.
  - change (printMembers ((k, x) :: (k', y) :: m))
      with (quote k ++ ":"%char :: print x ++ ","%char :: printMembers ((k', y) :: m))
      in *.
    rewrite !length_app in Hlen. cbn [length] in Hlen. rewrite length_app in Hlen.
    cbn [length] in Hlen.
    rewrite <- app_assoc. cbn [app]. rewrite <- app_assoc. cbn [app].
    rewrite parseMembers_step.
    rewrite Hx by lia.
    cbn [skipWhiteSpace]. change (isJsonWhiteSpace ",") with false. cbv iota.
    change (Ascii.eqb "," ",") with true. cbv iota.
    rewrite IH; [reflexivity | congruence | exact Hm | lia].
Qed.

Lemma printMembers_startsValue (m : list (string * value)) (rest : list ascii) :
  m <> [] -> startsValue (printMembers m ++ rest).
Proof.
  destruct m as [|[k x] m]; [congruence|]. intros _.
  exists dquote. destruct m as [|[k' y] m]; eexists; split; try reflexivity;
    cbn [printMembers]; rewrite <- app_assoc; rewrite quote_app; reflexivity.
Qed.

Lemma printElements_startsValue (l : list value) (rest : list ascii) :
  l <> [] -> startsValue (printElements l ++ rest).
Proof.
  destruct l as [|x l]; [congruence|]. intros _.
  destruct l as [|y l].
  - apply print_startsValue.
  - change (printElements (x :: y :: l))
      with (print x ++ ","%char :: printElements (y :: l)).
    rewrite <- app_assoc. apply print_startsValue.
Qed.

Lemma Forall_modus {A : Type} (P Q : A -> Prop) (l : list A) :
  Forall (fun x => P x -> Q x) l -> Forall P l -> Forall Q l.
Proof.
  induction 1 as [|x l Hx _ IH]; intros H; [constructor|].
  apply Forall_cons in H as [Hp Hl]. constructor; auto.
Qed.

(** Every well-formed value is read back from its own text, whatever
    follows it. *)
Lemma parseValue_print (v : value) : wellFormed v -> reads v.
Proof.
  induction v as [| b | s | l IH | m IH] using value_induction;
    intros Hwf fuel rest Hlen; (destruct fuel as [|f]; [lia|]).
  - reflexivity.
  - destruct b; reflexivity.
  - change (print (VString s)) with (quote s).
    rewrite quote_app, parseValue_string, parseChars_quoted. reflexivity.
  - change (print (VArray l)) with ("["%char :: printElements l ++ ["]"%char]) in *.
    cbn [length] in Hlen. rewrite length_app in Hlen. cbn [length] in Hlen.
    cbn [app]. rewrite <- app_assoc. cbn [app]. rewrite parseValue_array.
    destruct l as [|x l]; [reflexivity|].
    rewrite skip_to_value;
      [| apply printElements_startsValue; congruence | left; reflexivity].
    apply wellFormed_array in Hwf.
    rewrite parseElements_print; [reflexivity | congruence | | lia].
    exact (Forall_modus _ _ _ IH Hwf).
  - change (print (VObject m)) with ("{"%char :: printMembers m ++ ["}"%char]) in *.
    cbn [length] in Hlen. rewrite length_app in Hlen. cbn [length] in Hlen.
    cbn [app]. rewrite <- app_assoc. cbn [app]. rewrite parseValue_object.
    destruct m as [|kx m]; [reflexivity|].
    rewrite skip_to_value;
      [| apply printMembers_startsValue; congruence | right; reflexivity].
    apply wellFormed_object in Hwf as [Hnd Hwf].
    rewrite parseMembers_print; [| congruence | | lia].
    + rewrite makeObject_id by exact Hnd. reflexivity.
    + exact (Forall_modus _ _ _ IH Hwf).
Qed.

(** [JSON.parse(JSON.stringify(v))] is [v]. *)
Lemma parse_stringify (v : value) : wellFormed v -> parse (stringify v) = Some v.
Proof.
  intros Hwf. unfold parse, stringify. rewrite chars_string_of_list.
  pose proof (parseValue_print v Hwf (S (length (print v))) []) as H.
  rewrite app_nil_r in H. rewrite H by lia. reflexivity.
Qed.

(** The text of a value is never the empty string, so it is truthy. *)
Lemma stringify_truthy (v : value) : JsString.truthy (stringify v) = true.
Proof.
  unfold stringify.
  destruct (print_startsValue v []) as (c & tl & E & _).
  rewrite app_nil_r in E. rewrite E. reflexivity.
Qed.

End JsonFacts.

(** ** Tasks survive the passage through JSON *)

Section TaskJsonFacts.
Import JSON TaskJson.

Lemma taskObject_wellFormed (t : Task) : wellFormed (taskObject t).
Proof.
  destruct t as [i tx c [p|] [[d|]|] [j|] a];
    apply wellFormed_object;
    (split; [compute_done | repeat first [exact I | constructor]]).
Qed.

Lemma tasksValue_wellFormed (ts : list Task) : wellFormed (tasksValue ts).
Proof.
  apply wellFormed_array. induction ts as [|t ts IH]; constructor;
    [apply taskObject_wellFormed | exact IH].
Qed.

Lemma readTask_taskObject (t : Task) : readTask (taskObject t) = Some t.
Proof.
  destruct t as [i tx c [[]|] [[d|]|] [j|] a]; reflexivity.
Qed.

(** Every field of every task, and the order of the tasks, can be read
    off the array value. *)
Lemma readTasks_tasksValue (ts : list Task) : readTasks (tasksValue ts) = Some ts.
Proof.
  unfold readTasks, tasksValue.
  induction ts as [|t ts IH]; [reflexivity|].
  cbn [map mapM]. rewrite readTask_taskObject, IH. reflexivity.
Qed.

Lemma tasksValue_inj (ts ts' : list Task) : tasksValue ts = tasksValue ts' -> ts = ts'.
Proof.
  intros H. apply (f_equal readTasks) in H.
  rewrite !readTasks_tasksValue in H. congruence.
Qed.

Lemma parse_stringify_tasks (ts : list Task) :
  parse (stringify (tasksValue ts)) = Some (tasksValue ts).
Proof. apply parse_stringify, tasksValue_wellFormed. Qed.

End TaskJsonFacts.

(** ** Storage *)

Section StorageFacts.
Import LocalStorage.

Lemma getItem_setItem (ls ls' : Storage) (key value : string) :
  setItem ls key value = Some ls' -> getItem ls' key = Some value.
Proof.
  unfold setItem, getItem. destruct (accepts ls key value); [|discriminate].
  intros [= <-]. cbn. apply lookup_insert_eq.
Qed.

Lemma setItem_accepts (ls : Storage) (key value : string) :
  accepts ls key value = true ->
  setItem ls key value = Some (mkStorage (<[key := value]> (items ls)) (quota ls)).
Proof. unfold setItem. intros ->. reflexivity. Qed.

Lemma setItem_rejects (ls : Storage) (key value : string) :
  accepts ls key value = false -> setItem ls key value = None.
Proof. unfold setItem. intros ->. reflexivity. Qed.

End StorageFacts.

(** ** Persistence: saving, then loading *)

Section Persistence.
Import JSON TaskJson LocalStorage.

Lemma TaskManager_saveTasks_accepted (app : TaskManager.State) :
  let payload := stringify (tasksValue (TaskManager.tasks app)) in
  accepts (TaskManager.localStorage app) TaskManager.storageKey payload = true ->
  getItem (TaskManager.localStorage (TaskManager.saveTasks app))
    TaskManager.storageKey = Some payload
  /\ TaskManager.tasks (TaskManager.saveTasks app) = TaskManager.tasks app.
Proof.
  intros payload Hok. unfold TaskManager.saveTasks. fold payload.
  rewrite (setItem_accepts _ _ _ Hok). cbn. split; [apply lookup_insert_eq | reflexivity].
Qed.

(** A rejected write leaves the stored entries as they were and the
    collection in memory as it is. *)
Lemma TaskManager_saveTasks_rejected (app : TaskManager.State) :
  let payload := stringify (tasksValue (TaskManager.tasks app)) in
  accepts (TaskManager.localStorage app) TaskManager.storageKey payload = false ->
  TaskManager.saveTasks app
  = TaskManager.mkState (TaskManager.tasks app) (TaskManager.currentFilter app)
      (TaskManager.localStorage app)
      (ShowNotification "Error saving tasks" "error"
         :: SetItem TaskManager.storageKey payload false :: TaskManager.trace app).
Proof.
  intros payload Hno. unfold TaskManager.saveTasks. fold payload.
  rewrite (setItem_rejects _ _ _ Hno). reflexivity.
Qed.

Lemma FlowTaskPro_saveTasks_accepted (app : FlowTaskPro.State) :
  let payload := stringify (tasksValue (FlowTaskPro.tasks app)) in
  accepts (FlowTaskPro.localStorage app) FlowTaskPro.storageKey payload = true ->
  getItem (FlowTaskPro.localStorage (FlowTaskPro.saveTasks app))
    FlowTaskPro.storageKey = Some payload
  /\ FlowTaskPro.tasks (FlowTaskPro.saveTasks app) = FlowTaskPro.tasks app.
Proof.
  intros payload Hok. unfold FlowTaskPro.saveTasks. fold payload.
  rewrite (setItem_accepts _ _ _ Hok). cbn. split; [apply lookup_insert_eq | reflexivity].
Qed.

(** C1, as amended.  Whenever [localStorage] accepts the write, saving a
    collection and then loading returns that collection: the value loaded
    is the array of the very same task objects, so the tasks come back in
    the same order and with every field ([id], [text], [completed],
    [priority], [dueDate], [project], [createdAt]) as it was.  This holds
    for [TaskManager] and for [FlowTaskPro], and for collections of any
    size. *)
Theorem C1_save_then_load :
  (forall app : TaskManager.State,
      accepts (TaskManager.localStorage app) TaskManager.storageKey
        (stringify (tasksValue (TaskManager.tasks app))) = true ->
      let loaded :=
        TaskManager.loadTasks (TaskManager.localStorage (TaskManager.saveTasks app)) in
      loaded = tasksValue (TaskManager.tasks app)
      /\ readTasks loaded = Some (TaskManager.tasks app))
  /\ (forall (app : FlowTaskPro.State) (iso1 iso2 tomorrow : string),
      accepts (FlowTaskPro.localStorage app) FlowTaskPro.storageKey
        (stringify (tasksValue (FlowTaskPro.tasks app))) = true ->
      let loaded :=
        FlowTaskPro.loadTasks iso1 iso2 tomorrow
          (FlowTaskPro.localStorage (FlowTaskPro.saveTasks app)) in
      loaded = (tasksValue (FlowTaskPro.tasks app), [])
      /\ readTasks (fst loaded) = Some (FlowTaskPro.tasks app)).
Proof.
  split.
  - intros app Hok loaded.
    destruct (TaskManager_saveTasks_accepted app Hok) as [Hget _].
    assert (E : loaded = tasksValue (TaskManager.tasks app)).
    { unfold loaded, TaskManager.loadTasks.
      rewrite Hget, stringify_truthy, parse_stringify_tasks. reflexivity. }
    rewrite E. split; [reflexivity | apply readTasks_tasksValue].
  - intros app iso1 iso2 tomorrow Hok loaded.
    destruct (FlowTaskPro_saveTasks_accepted app Hok) as [Hget _].
    assert (E : loaded = (tasksValue (FlowTaskPro.tasks app), [])).
    { unfold loaded, FlowTaskPro.loadTasks.
      rewrite Hget, stringify_truthy, parse_stringify_tasks. reflexivity. }
    rewrite E. split; [reflexivity | apply readTasks_tasksValue].
Qed.

Lemma C1_save_then_load_witness :
  readTasks
    (TaskManager.loadTasks
       (TaskManager.localStorage (TaskManager.saveTasks Samples.twoTasks)))
  = Some [Samples.callMum; Samples.buyMilk]
  /\ readTasks
       (fst (FlowTaskPro.loadTasks "" "" ""
               (FlowTaskPro.localStorage
                  (FlowTaskPro.saveTasks
                     (Samples.pro "all" "newest" [Samples.release; Samples.report])))))
     = Some [Samples.release; Samples.report].
Proof.
  split.
  - apply (proj1 C1_save_then_load Samples.twoTasks). vm_compute. reflexivity.
  - apply (proj2 C1_save_then_load
             (Samples.pro "all" "newest" [Samples.release; Samples.report])
             "" "" "").
    vm_compute. reflexivity.
Defined.

(** C1 as stated fails when the write is rejected: with the origin's
    quota used up, [saveTasks] reports the error and a later [loadTasks]
    returns what was stored before, here the empty collection, not the
    one-task collection that was saved. *)
Lemma C1_counterexample :
  let loaded :=
    TaskManager.loadTasks
      (TaskManager.localStorage (TaskManager.saveTasks Samples.cramped)) in
  TaskManager.tasks Samples.cramped = [Samples.buyMilk]
  /\ loaded = VArray []
  /\ loaded <> tasksValue (TaskManager.tasks Samples.cramped)
  /\ TaskManager.trace (TaskManager.saveTasks Samples.cramped)
     = [ShowNotification "Error saving tasks" "error";
        SetItem TaskManager.storageKey
          (stringify (tasksValue [Samples.buyMilk])) false].
Proof. vm_compute. repeat split. discriminate. Qed.

(** The round trip on collections of 0, 1 and 100 tasks, by evaluation. *)
Example roundtrip_0_1_100 :
  Forall
    (fun app =>
       readTasks
         (TaskManager.loadTasks
            (TaskManager.localStorage (TaskManager.saveTasks app)))
       = Some (TaskManager.tasks app))
    [Samples.fresh; Samples.oneTask; Samples.hundred]
  /\ length (TaskManager.tasks Samples.hundred) = 100.
Proof. split; [repeat constructor; vm_compute; reflexivity | reflexivity]. Qed.

End Persistence.

(** ** Validation *)

Section Validation.
Import JsString.

Lemma length_zero_empty (s : string) : String.length s = 0 <-> s = "".
Proof. destruct s; cbn; split; (congruence || lia). Qed.

(** The three ways [validateTask] of script.js can go. *)
Lemma TaskManager_validateTask_cases (text : string) (app : TaskManager.State) :
  (trim text = ""
   /\ TaskManager.validateTask text app
      = (false, TaskManager.showNotification (validationMessage Empty) "error" app))
  \/ (100 < String.length (trim text)
      /\ TaskManager.validateTask text app
         = (false, TaskManager.showNotification (validationMessage TooLong) "error" app))
  \/ (1 <= String.length (trim text) <= 100
      /\ TaskManager.validateTask text app = (true, app)).
Proof.
  unfold TaskManager.validateTask.
  destruct (trim text) as [|c r] eqn:E; [left; split; reflexivity|].
  right. cbn [truthy negb].
  destruct (Nat.ltb_spec 100 (String.length (String c r))) as [H|H].
  - left. split; [exact H | reflexivity].
  - right. split; [cbn in *; lia | reflexivity].
Qed.

Lemma FlowTaskPro_validateTask_cases (text : string) (app : FlowTaskPro.State) :
  (trim text = ""
   /\ FlowTaskPro.validateTask text app
      = (false, FlowTaskPro.showNotification (validationMessage Empty) "error" app))
  \/ (trim text <> "" /\ FlowTaskPro.validateTask text app = (true, app)).
Proof.
  unfold FlowTaskPro.validateTask.
  destruct (trim text) as [|c r] eqn:E; [left; split; reflexivity|].
  right. split; [discriminate | reflexivity].
Qed.

Lemma cons_neq_self {A : Type} (x : A) (l : list A) : x :: l <> l.
Proof. intros H. apply (f_equal (@length A)) in H. cbn in H. lia. Qed.

(** C3.  An input whose trimmed form is empty, such as the empty string
    and three spaces, makes [addTask] fail with the Empty error, in
    FlowTask and in FlowTask Pro; in FlowTask, whose [validateTask]
    has the 100-character bound, a trimmed text longer than that makes
    it fail with the TooLong error.  A call that fails this way shows
    the error's message and changes nothing else: the collection, the
    stored data and the filter are as before. *)
Theorem C3_invalid_text_is_rejected :
  trim "" = "" /\ trim "   " = ""
  /\ (forall text now iso app,
         trim text = "" ->
         TaskManager.rejectedWith Empty app (TaskManager.addTask text now iso app))
  /\ (forall text now iso app,
         100 < String.length (trim text) ->
         TaskManager.rejectedWith TooLong app (TaskManager.addTask text now iso app))
  /\ (forall dateValue text p d j now iso app,
         trim text = "" ->
         FlowTaskPro.rejectedWith Empty app
           (FlowTaskPro.addTask dateValue text p d j now iso app))
  /\ (forall e app outcome,
         TaskManager.rejectedWith e app outcome ->
         fst outcome = Boolean false
         /\ TaskManager.tasks (snd outcome) = TaskManager.tasks app
         /\ TaskManager.localStorage (snd outcome) = TaskManager.localStorage app
         /\ TaskManager.currentFilter (snd outcome) = TaskManager.currentFilter app
         /\ TaskManager.trace (snd outcome)
            = ShowNotification (validationMessage e) "error" :: TaskManager.trace app)
  /\ (forall e app outcome,
         FlowTaskPro.rejectedWith e app outcome ->
         fst outcome = Boolean false
         /\ FlowTaskPro.tasks (snd outcome) = FlowTaskPro.tasks app
         /\ FlowTaskPro.localStorage (snd outcome) = FlowTaskPro.localStorage app
         /\ FlowTaskPro.trace (snd outcome)
            = ShowNotification (validationMessage e) "error" :: FlowTaskPro.trace app).
Proof.
  split; [reflexivity|]. split; [reflexivity|].
  split; [|split; [|split; [|split]]].
  - intros text now iso app Hempty. unfold TaskManager.rejectedWith, TaskManager.addTask.
    destruct (TaskManager_validateTask_cases text app)
      as [[_ ->] | [[Hlen _] | [Hlen _]]]; [reflexivity | |];
      rewrite Hempty in Hlen; cbn in Hlen; lia.
  - intros text now iso app Hlong. unfold TaskManager.rejectedWith, TaskManager.addTask.
    destruct (TaskManager_validateTask_cases text app)
      as [[Hempty _] | [[_ ->] | [Hlen _]]]; [| reflexivity | lia].
    rewrite Hempty in Hlong. cbn in Hlong. lia.
  - intros dateValue text p d j now iso app Hempty.
    unfold FlowTaskPro.rejectedWith, FlowTaskPro.addTask.
    destruct (FlowTaskPro_validateTask_cases text app) as [[_ ->] | [Hne _]];
      [reflexivity | congruence].
  - intros e app outcome ->. repeat split.
  - intros e app outcome ->. repeat split.
Qed.

Lemma C3_invalid_text_is_rejected_witness :
  TaskManager.rejectedWith Empty Samples.oneTask
    (TaskManager.addTask "   " 1700000009000 "2023-11-14T22:13:29.000Z" Samples.oneTask)
  /\ TaskManager.tasks
       (snd (TaskManager.addTask "   " 1700000009000 "2023-11-14T22:13:29.000Z"
               Samples.oneTask))
     = [Samples.buyMilk].
Proof.
  destruct C3_invalid_text_is_rejected as (_ & _ & Hempty & _ & _ & Hsame & _).
  assert (H := Hempty "   " 1700000009000%N "2023-11-14T22:13:29.000Z"
                 Samples.oneTask eq_refl).
  split; [exact H|].
  exact (proj1 (proj2 (Hsame Empty Samples.oneTask _ H))).
Defined.

Lemma findIndex_Some (p : Task -> bool) (l : list Task) (k : nat) :
  findIndex p l = Some k -> exists t, l !! k = Some t /\ p t = true.
Proof.
  revert k. induction l as [|t l IH]; intros k; cbn [findIndex]; [discriminate|].
  destruct (p t) eqn:Hp.
  - intros [= <-]. exists t. split; [reflexivity | exact Hp].
  - destruct (findIndex p l) as [k'|]; [|discriminate].
    intros [= <-]. destruct (IH k' eq_refl) as (t' & Hl & Ht). exists t'. auto.
Qed.

Lemma findIndex_id_present (i : string) (l : list Task) :
  i ∈ ids l -> is_Some (findIndex (fun t => String.eqb (id t) i) l).
Proof.
  unfold ids. induction l as [|t l IH]; cbn [map findIndex].
  - intros H. inversion H.
  - rewrite elem_of_cons. intros [-> | H].
    + rewrite String.eqb_refl. eexists; reflexivity.
    + destruct (String.eqb (id t) i); [eexists; reflexivity|].
      destruct (IH H) as [k ->]. eexists; reflexivity.
Qed.

Lemma TaskManager_addTask_valid text now iso app :
  1 <= String.length (trim text) <= 100 ->
  TaskManager.addTask text now iso app
  = (Boolean true,
     TaskManager.showNotification "Task added successfully!" "success"
       (TaskManager.saveTasks
          (TaskManager.withTasks
             (mkTask (pretty now) (trim text) false None None None iso
                :: TaskManager.tasks app) app))).
Proof.
  intros Hlen. unfold TaskManager.addTask.
  destruct (TaskManager_validateTask_cases text app)
    as [[Hempty _] | [[Hlong _] | [_ ->]]]; [| lia | reflexivity].
  rewrite Hempty in Hlen. cbn in Hlen. lia.
Qed.

Lemma TaskManager_editTask_valid i text app k :
  1 <= String.length (trim text) <= 100 ->
  findIndex (fun t => String.eqb (id t) i) (TaskManager.tasks app) = Some k ->
  TaskManager.editTask i text app
  = (Boolean true,
     TaskManager.showNotification "Task updated!" "success"
       (TaskManager.saveTasks
          (TaskManager.withTasks
             (alter (setText (trim text)) k (TaskManager.tasks app)) app))).
Proof.
  intros Hlen Hk. unfold TaskManager.editTask.
  destruct (TaskManager_validateTask_cases text app)
    as [[Hempty _] | [[Hlong _] | [_ ->]]]; [| lia |].
  - rewrite Hempty in Hlen. cbn in Hlen. lia.
  - cbn [negb]. rewrite Hk. reflexivity.
Qed.

Lemma TaskManager_addTask_tooLong_iff text now iso app :
  TaskManager.rejectedWith TooLong app (TaskManager.addTask text now iso app)
  <-> 101 <= String.length (trim text).
Proof.
  unfold TaskManager.rejectedWith. split.
  - destruct (TaskManager_validateTask_cases text app)
      as [[Hempty Hv] | [[Hlong _] | [Hlen _]]]; [| lia |].
    + unfold TaskManager.addTask. rewrite Hv. cbn. intros [=].
    + rewrite (TaskManager_addTask_valid _ _ _ _ Hlen). intros [=].
  - intros Hlong. unfold TaskManager.addTask.
    destruct (TaskManager_validateTask_cases text app)
      as [[Hempty _] | [[_ ->] | [Hlen _]]]; [| reflexivity | lia].
    rewrite Hempty in Hlong. cbn in Hlong. lia.
Qed.

Lemma TaskManager_editTask_tooLong_iff i text app :
  TaskManager.rejectedWith TooLong app (TaskManager.editTask i text app)
  <-> 101 <= String.length (trim text).
Proof.
  unfold TaskManager.rejectedWith. split.
  - destruct (TaskManager_validateTask_cases text app)
      as [[Hempty Hv] | [[Hlong _] | [Hlen Hv]]]; [| lia |].
    + unfold TaskManager.editTask. rewrite Hv. cbn. intros [=].
    + unfold TaskManager.editTask. rewrite Hv. cbn [negb].
      destruct (findIndex _ _); [intros [=]|].
      intros [= H]. destruct app as [ts f ls tr]. cbn in H.
      unfold TaskManager.showNotification, TaskManager.emit in H. cbn in H.
      injection H as H. symmetry in H. exfalso. exact (cons_neq_self _ _ H).
  - intros Hlong. unfold TaskManager.editTask.
    destruct (TaskManager_validateTask_cases text app)
      as [[Hempty _] | [[_ ->] | [Hlen _]]]; [| reflexivity | lia].
    rewrite Hempty in Hlong. cbn in Hlong. lia.
Qed.

(** C10.  In FlowTask, validation measures the trimmed text and compares
    strictly with 100: a text is accepted exactly when its trimmed
    length is between 1 and 100, so a trimmed length of exactly 100 is
    accepted by [addTask], and by [editTask] for a task that exists;
    [addTask] and [editTask] fail with the TooLong error exactly when the
    trimmed length is 101 or more; and white space around the input,
    however much, changes neither the trimmed text nor the verdict. *)
Theorem C10_bound_applies_to_trimmed_text (text : string) (app : TaskManager.State) :
  (fst (TaskManager.validateTask text app) = true
   <-> 1 <= String.length (trim text) <= 100)
  /\ (String.length (trim text) = 100 ->
      forall now iso, fst (TaskManager.addTask text now iso app) = Boolean true)
  /\ (String.length (trim text) = 100 ->
      forall i, i ∈ ids (TaskManager.tasks app) ->
                fst (TaskManager.editTask i text app) = Boolean true)
  /\ (forall now iso,
         TaskManager.rejectedWith TooLong app (TaskManager.addTask text now iso app)
         <-> 101 <= String.length (trim text))
  /\ (forall i,
         TaskManager.rejectedWith TooLong app (TaskManager.editTask i text app)
         <-> 101 <= String.length (trim text))
  /\ (forall l r,
         whitespaceOnly l -> whitespaceOnly r ->
         trim (l ++ text ++ r) = trim text
         /\ TaskManager.validateTask (l ++ text ++ r) app
            = TaskManager.validateTask text app).
Proof.
  split; [|split; [|split; [|split; [|split]]]].
  - destruct (TaskManager_validateTask_cases text app)
      as [[Hempty ->] | [[Hlong ->] | [Hlen ->]]]; cbn [fst].
    + rewrite Hempty. cbn. split; [discriminate | lia].
    + split; [discriminate | lia].
    + split; [intros _; exact Hlen | reflexivity].
  - intros Hlen now iso. rewrite TaskManager_addTask_valid by lia. reflexivity.
  - intros Hlen i Hi. destruct (findIndex_id_present i _ Hi) as [k Hk].
    rewrite (TaskManager_editTask_valid i text app k) by (lia || exact Hk).
    reflexivity.
  - intros now iso. apply TaskManager_addTask_tooLong_iff.
  - intros i. apply TaskManager_editTask_tooLong_iff.
  - intros l r Hl Hr. pose proof (trim_surrounding l text r Hl Hr) as E.
    split; [exact E|]. unfold TaskManager.validateTask. rewrite E. reflexivity.
Qed.

End Validation.

(** ** [Array.prototype.filter] *)

Section FilterFacts.

Lemma filter_partition {A : Type} (p : A -> bool) (l : list A) :
  Permutation (List.filter (fun x => negb (p x)) l ++ List.filter p l) l.
Proof.
  induction l as [|x l IH]; cbn [List.filter]; [reflexivity|].
  destruct (p x); cbn [negb app].
  - rewrite <- Permutation_middle. constructor. exact IH.
  - constructor. exact IH.
Qed.

Lemma elem_of_List_filter {A : Type} (p : A -> bool) (l : list A) (x : A) :
  x ∈ List.filter p l <-> x ∈ l /\ p x = true.
Proof. rewrite !list_elem_of_In. rewrite filter_In. reflexivity. Qed.

End FilterFacts.

(** ** [Array.prototype.sort] with a comparator that subtracts keys *)

Section SortFacts.
Import JsArray.
Context {A : Type} (comparefn : A -> A -> option Z).

Lemma insert_permutation (x : A) (l : list A) :
  Permutation (insert comparefn x l) (x :: l).
Proof.
  induction l as [|y l IH]; cbn [insert]; [reflexivity|].
  destruct (0 <? sortCompare comparefn x y)%Z; [|reflexivity].
  rewrite IH. apply perm_swap.
Qed.

Lemma sort_permutation (l : list A) : Permutation (sort comparefn l) l.
Proof.
  induction l as [|x l IH]; cbn [sort]; [reflexivity|].
  rewrite insert_permutation, IH. reflexivity.
Qed.

Lemma sort_length (l : list A) : length (sort comparefn l) = length l.
Proof. apply Permutation_length, sort_permutation. Qed.

(** From here on the comparator is [key a - key b] on the elements that
    have a key. *)
Context (key : A -> Z) (keyed : A -> Prop).
Hypothesis comparefn_keys :
  forall a b, keyed a -> keyed b -> comparefn a b = Some (key a - key b)%Z.

Lemma insert_sorted (x : A) (l : list A) :
  keyed x -> Forall keyed l ->
  StronglySorted (ascendingBy key) l ->
  StronglySorted (ascendingBy key) (insert comparefn x l).
Proof.
  intros Hx. induction l as [|y l IH]; intros Hl Hs; cbn [insert].
  - repeat constructor.
  - apply Forall_cons in Hl as [Hy Hl].
    apply StronglySorted_inv in Hs as [Hs Hle].
    unfold sortCompare. rewrite (comparefn_keys x y Hx Hy).
    destruct (Z.ltb_spec 0 (key x - key y)) as [Hgt | Hnot].
    + constructor; [apply IH; assumption|].
      rewrite insert_permutation. constructor; [unfold ascendingBy; lia | exact Hle].
    + constructor; [constructor; assumption|].
      constructor; [unfold ascendingBy; lia|].
      eapply Forall_impl; [exact Hle|]. unfold ascendingBy. intros z Hz. cbn in *. lia.
Qed.

Lemma sort_keyed (l : list A) : Forall keyed l -> Forall keyed (sort comparefn l).
Proof. intros H. rewrite sort_permutation. exact H. Qed.

(** The result is in ascending order of the keys. *)
Lemma sort_sorted (l : list A) :
  Forall keyed l -> StronglySorted (ascendingBy key) (sort comparefn l).
Proof.
  induction l as [|x l IH]; intros Hl; cbn [sort]; [constructor|].
  apply Forall_cons in Hl as [Hx Hl].
  apply insert_sorted; [exact Hx | apply sort_keyed, Hl | apply IH, Hl].
Qed.

(** Stability: the elements of one key keep the order they came in.
    [select] picks out elements that all have the same key. *)
Context (select : A -> bool).
Hypothesis select_one_key :
  forall a b, keyed a -> keyed b -> select a = true -> select b = true -> key a = key b.

Lemma insert_select (x : A) (l : list A) :
  keyed x -> Forall keyed l ->
  List.filter select (insert comparefn x l) = List.filter select (x :: l).
Proof.
  intros Hx. induction l as [|y l IH]; intros Hl; cbn [insert]; [reflexivity|].
  apply Forall_cons in Hl as [Hy Hl].
  unfold sortCompare. rewrite (comparefn_keys x y Hx Hy).
  destruct (Z.ltb_spec 0 (key x - key y)) as [Hgt | Hnot]; [|reflexivity].
  cbn [List.filter] in *. rewrite (IH Hl).
  destruct (select x) eqn:Sx, (select y) eqn:Sy; try reflexivity.
  pose proof (select_one_key x y Hx Hy Sx Sy). lia.
Qed.

Lemma sort_stable (l : list A) :
  Forall keyed l -> List.filter select (sort comparefn l) = List.filter select l.
Proof.
  induction l as [|x l IH]; intros Hl; cbn [sort]; [reflexivity|].
  apply Forall_cons in Hl as [Hx Hl].
  rewrite insert_select by (exact Hx || apply sort_keyed, Hl).
  cbn [List.filter]. rewrite (IH Hl). reflexivity.
Qed.

End SortFacts.

(** The order of the keys and stability leave no choice: two arrangements
    that are both in ascending order of the keys and list the elements of
    every key in the same order are the same list.  So the result of a
    stable sort by keys does not depend on the algorithm. *)
Lemma sorted_stable_unique {A : Type} (key : A -> Z) (l1 l2 : list A) :
  StronglySorted (JsArray.ascendingBy key) l1 ->
  StronglySorted (JsArray.ascendingBy key) l2 ->
  (forall k, List.filter (fun a => (key a =? k)%Z) l1
             = List.filter (fun a => (key a =? k)%Z) l2) ->
  l1 = l2.
Proof.
  intros H1. revert l2. induction H1 as [|x l1 Hs1 IH Hx]; intros l2 H2 Hsame.
  - destruct l2 as [|y l2]; [reflexivity|].
    specialize (Hsame (key y)). cbn in Hsame. rewrite Z.eqb_refl in Hsame.
    discriminate.
  - pose proof (Hsame (key x)) as Hk. cbn [List.filter] in Hk.
    rewrite Z.eqb_refl in Hk.
    destruct l2 as [|y l2]; [discriminate|].
    apply StronglySorted_inv in H2 as [Hs2 Hy].
    assert (Hxy : x = y).
    { cbn [List.filter] in Hk. destruct (Z.eqb_spec (key y) (key x)) as [E | Hne].
      - congruence.
      - exfalso.
        assert (Hxin : x ∈ l2).
        { apply (elem_of_List_filter (fun a => (key a =? key x)%Z)).
          rewrite <- Hk. left. }
        assert (Hyin : y ∈ l1).
        { pose proof (Hsame (key y)) as Hk'. cbn [List.filter] in Hk'.
          rewrite Z.eqb_refl in Hk'.
          destruct (Z.eqb_spec (key x) (key y)) as [E' | _]; [congruence|].
          apply (elem_of_List_filter (fun a => (key a =? key y)%Z)).
          rewrite Hk'. left. }
        rewrite Forall_forall in Hx, Hy.
        pose proof (Hx y Hyin) as Hle1. pose proof (Hy x Hxin) as Hle2.
        unfold JsArray.ascendingBy in *. lia. }
    subst y. f_equal. apply IH; [exact Hs2|].
    intros k. specialize (Hsame k). cbn [List.filter] in Hsame.
    destruct (key x =? k)%Z; congruence.
Qed.

(** Whatever stable algorithm the engine runs, on a comparator that
    subtracts keys it returns what the insertion sort returns. *)
Lemma sort_determined {A : Type} (comparefn : A -> A -> option Z)
  (key : A -> Z) (keyed : A -> Prop) (l out : list A) :
  (forall a b, keyed a -> keyed b -> comparefn a b = Some (key a - key b)%Z) ->
  Forall keyed l ->
  StronglySorted (JsArray.ascendingBy key) out ->
  (forall k, List.filter (fun a => (key a =? k)%Z) out
             = List.filter (fun a => (key a =? k)%Z) l) ->
  out = JsArray.sort comparefn l.
Proof.
  intros Hcmp Hl Hsorted Hstable.
  apply (sorted_stable_unique key); [exact Hsorted | |].
  - exact (sort_sorted comparefn key keyed Hcmp l Hl).
  - intros k. rewrite Hstable. symmetry.
    apply (sort_stable comparefn key keyed Hcmp); [|exact Hl].
    intros a b _ _ Ha Hb. apply Z.eqb_eq in Ha, Hb. congruence.
Qed.

(** ** The views of FlowTask Pro: filtering and sorting *)

Section Views.
Import FlowTaskPro.
Variable dateValue : string -> option Z.

Lemma StronglySorted_weaken {A : Type} (R R' : A -> A -> Prop) (l : list A) :
  (forall a b, R a b -> R' a b) -> StronglySorted R l -> StronglySorted R' l.
Proof.
  intros HR. induction 1 as [|x l Hs IH Hx]; constructor; [exact IH|].
  eapply Forall_impl; [exact Hx | auto].
Qed.

Lemma StronglySorted_lookup {A : Type} (R : A -> A -> Prop) (l : list A) i j a b :
  StronglySorted R l -> l !! i = Some a -> l !! j = Some b -> i < j -> R a b.
Proof.
  intros Hs. revert i j. induction Hs as [|x l Hs IH Hx]; intros i j Hi Hj Hlt.
  - discriminate.
  - destruct j as [|j]; [lia|]. cbn in Hj. destruct i as [|i].
    + cbn in Hi. injection Hi as ->.
      rewrite Forall_forall in Hx. apply Hx. eapply list_elem_of_lookup_2, Hj.
    + cbn in Hi. apply (IH i j Hi Hj). lia.
Qed.

(** [sort] hands back the array it was given, reordered. *)
Lemma sortInPlace_contents comparefn (r : ArrayRef) (app : State) :
  contents (snd (sortInPlace comparefn r app)) (fst (sortInPlace comparefn r app))
  = JsArray.sort comparefn (contents app r).
Proof. destruct r; reflexivity. Qed.

Lemma rank_of_priority (a : Task) :
  hasPriority a -> priorityOrder (priority a) = Some (rank a).
Proof. unfold hasPriority, rank. destruct (priority a) as [[]|]; cbn; congruence. Qed.

Lemma priorityIs_same_rank (p : Priority) (a b : Task) :
  priorityIs p a = true -> priorityIs p b = true -> rank a = rank b.
Proof.
  unfold priorityIs, rank.
  destruct (priority a) as [[]|], (priority b) as [[]|], p;
    cbn; congruence.
Qed.

Lemma createdTime_of_date (a : Task) :
  hasDate dateValue a -> dateValue (createdAt a) = Some (createdTime dateValue a).
Proof.
  unfold hasDate, createdTime. destruct (dateValue (createdAt a)); cbn; congruence.
Qed.

Lemma createdAtTime_same_time (d : Z) (a b : Task) :
  createdAtTime dateValue d a = true -> createdAtTime dateValue d b = true ->
  createdTime dateValue a = createdTime dateValue b.
Proof.
  unfold createdAtTime, createdTime.
  destruct (dateValue (createdAt a)), (dateValue (createdAt b)); cbn;
    try discriminate.
  intros Ha Hb. apply Z.eqb_eq in Ha, Hb. congruence.
Qed.

Lemma sort_by_priority (l : list Task) :
  let sorted :=
    JsArray.sort
      (fun a b => minus (priorityOrder (priority b)) (priorityOrder (priority a))) l in
  Forall hasPriority l ->
  Permutation sorted l
  /\ StronglySorted higherFirst sorted
  /\ (forall p, List.filter (priorityIs p) sorted = List.filter (priorityIs p) l).
Proof.
  intros sorted Hl.
  assert (Hkeys : forall a b, hasPriority a -> hasPriority b ->
            minus (priorityOrder (priority b)) (priorityOrder (priority a))
            = Some ((- rank a) - (- rank b))%Z).
  { intros a b Ha Hb. rewrite (rank_of_priority a Ha), (rank_of_priority b Hb).
    cbn. f_equal. lia. }
  split; [apply sort_permutation|]. split.
  - eapply StronglySorted_weaken;
      [| exact (sort_sorted _ (fun t => (- rank t)%Z) hasPriority Hkeys l Hl)].
    unfold JsArray.ascendingBy, higherFirst. intros a b. lia.
  - intros p.
    apply (sort_stable _ (fun t => (- rank t)%Z) hasPriority Hkeys); [|exact Hl].
    intros a b _ _ Ha Hb. rewrite (priorityIs_same_rank p a b Ha Hb). reflexivity.
Qed.

Lemma sort_by_newest (l : list Task) :
  let sorted :=
    JsArray.sort
      (fun a b => minus (dateValue (createdAt b)) (dateValue (createdAt a))) l in
  Forall (hasDate dateValue) l ->
  Permutation sorted l
  /\ StronglySorted (newestFirst dateValue) sorted
  /\ (forall d, List.filter (createdAtTime dateValue d) sorted
                = List.filter (createdAtTime dateValue d) l).
Proof.
  intros sorted Hl.
  assert (Hkeys : forall a b, hasDate dateValue a -> hasDate dateValue b ->
            minus (dateValue (createdAt b)) (dateValue (createdAt a))
            = Some ((- createdTime dateValue a) - (- createdTime dateValue b))%Z).
  { intros a b Ha Hb. rewrite (createdTime_of_date a Ha), (createdTime_of_date b Hb).
    cbn. f_equal. lia. }
  split; [apply sort_permutation|]. split.
  - eapply StronglySorted_weaken;
      [| exact (sort_sorted _ (fun t => (- createdTime dateValue t)%Z)
                  (hasDate dateValue) Hkeys l Hl)].
    unfold JsArray.ascendingBy, newestFirst. intros a b. lia.
  - intros d.
    apply (sort_stable _ (fun t => (- createdTime dateValue t)%Z)
             (hasDate dateValue) Hkeys); [|exact Hl].
    intros a b _ _ Ha Hb. rewrite (createdAtTime_same_time d a b Ha Hb). reflexivity.
Qed.

Lemma sort_by_oldest (l : list Task) :
  let sorted :=
    JsArray.sort
      (fun a b => minus (dateValue (createdAt a)) (dateValue (createdAt b))) l in
  Forall (hasDate dateValue) l ->
  Permutation sorted l
  /\ StronglySorted (oldestFirst dateValue) sorted
  /\ (forall d, List.filter (createdAtTime dateValue d) sorted
                = List.filter (createdAtTime dateValue d) l).
Proof.
  intros sorted Hl.
  assert (Hkeys : forall a b, hasDate dateValue a -> hasDate dateValue b ->
            minus (dateValue (createdAt a)) (dateValue (createdAt b))
            = Some (createdTime dateValue a - createdTime dateValue b)%Z).
  { intros a b Ha Hb. rewrite (createdTime_of_date a Ha), (createdTime_of_date b Hb).
    reflexivity. }
  split; [apply sort_permutation|]. split.
  - exact (sort_sorted _ (createdTime dateValue) (hasDate dateValue) Hkeys l Hl).
  - intros d.
    apply (sort_stable _ (createdTime dateValue) (hasDate dateValue) Hkeys);
      [|exact Hl].
    intros a b _ _. apply createdAtTime_same_time.
Qed.

(** C7.  [sortTasks] with key 'priority' orders by priority, high before
    medium before low, and keeps the tasks of one priority in the order
    they came in; with 'newest' and 'oldest' it orders by [createdAt],
    descending and ascending, again keeping ties in their input order;
    with any other key it returns the array as it is.  The tasks sorted
    by priority carry a priority, those sorted by date a valid date, as
    every task made by [addTask] does. *)
Theorem C7_sortTasks_orders (r : ArrayRef) (app : State) :
  let input := contents app r in
  let output :=
    contents (snd (sortTasks dateValue r app)) (fst (sortTasks dateValue r app)) in
  (currentSort app = "priority" -> Forall hasPriority input ->
   Permutation output input
   /\ StronglySorted higherFirst output
   /\ (forall i j a b, output !! i = Some a -> output !! j = Some b ->
                       (rank b < rank a)%Z -> i < j)
   /\ (forall p, List.filter (priorityIs p) output = List.filter (priorityIs p) input))
  /\ (currentSort app = "newest" -> Forall (hasDate dateValue) input ->
      Permutation output input
      /\ StronglySorted (newestFirst dateValue) output
      /\ (forall d, List.filter (createdAtTime dateValue d) output
                    = List.filter (createdAtTime dateValue d) input))
  /\ (currentSort app = "oldest" -> Forall (hasDate dateValue) input ->
      Permutation output input
      /\ StronglySorted (oldestFirst dateValue) output
      /\ (forall d, List.filter (createdAtTime dateValue d) output
                    = List.filter (createdAtTime dateValue d) input))
  /\ (currentSort app <> "newest" -> currentSort app <> "oldest" ->
      currentSort app <> "priority" ->
      sortTasks dateValue r app = (r, app) /\ output = input).
Proof.
  intros input output. unfold output, input, sortTasks. clear input output.
  split; [|split; [|split]].
  - intros -> Hl. cbn [String.eqb Ascii.eqb Bool.eqb].
    rewrite sortInPlace_contents.
    destruct (sort_by_priority _ Hl) as (Hperm & Hsorted & Hstable).
    split; [exact Hperm|]. split; [exact Hsorted|]. split; [|exact Hstable].
    intros i j a b Hi Hj Hrank.
    destruct (Nat.lt_ge_cases i j) as [Hlt | Hge]; [exact Hlt|]. exfalso.
    destruct (Nat.eq_dec i j) as [-> | Hne].
    + rewrite Hi in Hj. injection Hj as ->. lia.
    + pose proof (StronglySorted_lookup _ _ j i b a Hsorted Hj Hi) as H.
      unfold higherFirst in H. lia.
  - intros -> Hl. cbn [String.eqb Ascii.eqb Bool.eqb].
    rewrite sortInPlace_contents.
    exact (sort_by_newest _ Hl).
  - intros -> Hl. cbn [String.eqb Ascii.eqb Bool.eqb].
    rewrite sortInPlace_contents.
    exact (sort_by_oldest _ Hl).
  - intros Hn Ho Hp.
    destruct (String.eqb_spec (currentSort app) "newest"); [congruence|].
    destruct (String.eqb_spec (currentSort app) "oldest"); [congruence|].
    destruct (String.eqb_spec (currentSort app) "priority"); [congruence|].
    split; reflexivity.
Qed.

(** With one of the three filters the view is an array of its own, and
    sorting it leaves the state as it is. *)
Lemma projection_filtered_is_fresh (app : State) :
  currentFilter app = "active" \/ currentFilter app = "completed"
  \/ currentFilter app = "high" ->
  snd (projection dateValue app) = app
  /\ exists l, fst (projection dateValue app) = FreshArray l.
Proof.
  intros H. unfold projection.
  assert (Hf : exists l, getFilteredTasks app = FreshArray l).
  { unfold getFilteredTasks. destruct H as [-> | [-> | ->]]; eexists; reflexivity. }
  destruct Hf as [l ->]. unfold sortTasks, sortInPlace.
  repeat match goal with |- context [if ?b then _ else _] => destruct b end;
    split; try reflexivity; eexists; reflexivity.
Qed.

(** Without a filter the view is the array of the store itself. *)
Lemma projection_unfiltered_is_store (app : State) :
  currentFilter app <> "active" -> currentFilter app <> "completed" ->
  currentFilter app <> "high" ->
  fst (projection dateValue app) = TasksArray.
Proof.
  intros Ha Hc Hh. unfold projection, getFilteredTasks.
  destruct (String.eqb_spec (currentFilter app) "active"); [congruence|].
  destruct (String.eqb_spec (currentFilter app) "completed"); [congruence|].
  destruct (String.eqb_spec (currentFilter app) "high"); [congruence|].
  unfold sortTasks, sortInPlace.
  repeat match goal with |- context [if ?b then _ else _] => destruct b end;
    reflexivity.
Qed.

End Views.

Lemma C7_sortTasks_orders_witness :
  let app := Samples.pro "all" "priority"
               [Samples.report; Samples.release; Samples.review] in
  FlowTaskPro.tasks (FlowTaskPro.renderTasks JsDate.timeValue app)
  = [Samples.release; Samples.review; Samples.report]
  /\ StronglySorted FlowTaskPro.higherFirst
       (FlowTaskPro.tasks (FlowTaskPro.renderTasks JsDate.timeValue app)).
Proof.
  intros app. split; [reflexivity|].
  apply (proj1 (C7_sortTasks_orders JsDate.timeValue
                  (FlowTaskPro.getFilteredTasks app) app) eq_refl).
  repeat constructor; discriminate.
Defined.

(** C4.  The claim fails on the code: with no filter chosen
    [getFilteredTasks] returns [this.tasks] itself, and [sortTasks] then
    sorts that array in place.  Rendering the unfiltered list sorted by
    priority reorders the store's own collection; so does the start-up
    configuration ('all', 'newest') on a collection that is not already
    newest first. *)
Theorem C4_renderTasks_sorts_the_store_in_place :
  let byPriority := Samples.pro "all" "priority" [Samples.report; Samples.release] in
  let byDefault := Samples.pro "all" "newest" [Samples.report; Samples.release] in
  fst (FlowTaskPro.projection JsDate.timeValue byPriority) = FlowTaskPro.TasksArray
  /\ FlowTaskPro.tasks byPriority = [Samples.report; Samples.release]
  /\ FlowTaskPro.tasks (FlowTaskPro.renderTasks JsDate.timeValue byPriority)
     = [Samples.release; Samples.report]
  /\ FlowTaskPro.tasks (FlowTaskPro.renderTasks JsDate.timeValue byPriority)
     <> FlowTaskPro.tasks byPriority
  /\ FlowTaskPro.tasks (FlowTaskPro.renderTasks JsDate.timeValue byDefault)
     = [Samples.release; Samples.report].
Proof. vm_compute. repeat split. discriminate. Qed.

(** ** Filter modes *)

Section Filters.

Lemma priorityIs_high (t : Task) : priorityIs high t = true <-> priority t = Some high.
Proof. unfold priorityIs. destruct (priority t) as [[]|]; split; congruence. Qed.

(** C6, as amended.  The filter is chosen by [currentFilter]: 'active'
    gives exactly the tasks not completed and 'completed' exactly the
    completed ones, in both applications; FlowTask Pro alone has a filter
    by priority, under the key 'high', which gives exactly the tasks of
    priority [high]; every other key, 'all' and 'highPriority' among them
    (and 'high' in FlowTask), gives the collection itself.  The active
    and the completed tasks of a collection have no task in common and
    together are the collection. *)
Theorem C6_filter_modes :
  (forall app : TaskManager.State,
      (TaskManager.currentFilter app = "active" ->
       TaskManager.getFilteredTasks app
       = List.filter (fun t => negb (completed t)) (TaskManager.tasks app))
      /\ (TaskManager.currentFilter app = "completed" ->
          TaskManager.getFilteredTasks app
          = List.filter completed (TaskManager.tasks app))
      /\ (TaskManager.currentFilter app <> "active" ->
          TaskManager.currentFilter app <> "completed" ->
          TaskManager.getFilteredTasks app = TaskManager.tasks app))
  /\ (forall app : FlowTaskPro.State,
      (FlowTaskPro.currentFilter app = "active" ->
       FlowTaskPro.getFilteredTasks app
       = FlowTaskPro.FreshArray
           (List.filter (fun t => negb (completed t)) (FlowTaskPro.tasks app)))
      /\ (FlowTaskPro.currentFilter app = "completed" ->
          FlowTaskPro.getFilteredTasks app
          = FlowTaskPro.FreshArray (List.filter completed (FlowTaskPro.tasks app)))
      /\ (FlowTaskPro.currentFilter app = "high" ->
          FlowTaskPro.getFilteredTasks app
          = FlowTaskPro.FreshArray
              (List.filter (priorityIs high) (FlowTaskPro.tasks app)))
      /\ (FlowTaskPro.currentFilter app <> "active" ->
          FlowTaskPro.currentFilter app <> "completed" ->
          FlowTaskPro.currentFilter app <> "high" ->
          FlowTaskPro.getFilteredTasks app = FlowTaskPro.TasksArray
          /\ FlowTaskPro.contents app (FlowTaskPro.getFilteredTasks app)
             = FlowTaskPro.tasks app))
  /\ (forall (ts : list Task) (t : Task),
      (t ∈ List.filter (fun t => negb (completed t)) ts
       <-> t ∈ ts /\ completed t = false)
      /\ (t ∈ List.filter completed ts <-> t ∈ ts /\ completed t = true)
      /\ (t ∈ List.filter (priorityIs high) ts <-> t ∈ ts /\ priority t = Some high))
  /\ (forall ts : list Task,
      let active := List.filter (fun t => negb (completed t)) ts in
      let done := List.filter completed ts in
      (forall t, ~ (t ∈ active /\ t ∈ done))
      /\ (forall t, t ∈ ts <-> t ∈ active \/ t ∈ done)
      /\ Permutation (active ++ done) ts
      /\ length active + length done = length ts).
Proof.
  split; [|split; [|split]].
  - intros app. unfold TaskManager.getFilteredTasks. split; [|split].
    + intros ->. reflexivity.
    + intros ->. reflexivity.
    + intros Ha Hc.
      destruct (String.eqb_spec (TaskManager.currentFilter app) "active");
        [congruence|].
      destruct (String.eqb_spec (TaskManager.currentFilter app) "completed");
        [congruence|].
      reflexivity.
  - intros app. unfold FlowTaskPro.getFilteredTasks. split; [|split; [|split]].
    + intros ->. reflexivity.
    + intros ->. reflexivity.
    + intros ->. reflexivity.
    + intros Ha Hc Hh.
      destruct (String.eqb_spec (FlowTaskPro.currentFilter app) "active");
        [congruence|].
      destruct (String.eqb_spec (FlowTaskPro.currentFilter app) "completed");
        [congruence|].
      destruct (String.eqb_spec (FlowTaskPro.currentFilter app) "high");
        [congruence|].
      split; reflexivity.
  - intros ts t. rewrite !elem_of_List_filter. rewrite priorityIs_high.
    rewrite negb_true_iff. repeat split; tauto.
  - intros ts active done. unfold active, done. split; [|split; [|split]].
    + intros t. rewrite !elem_of_List_filter. rewrite negb_true_iff.
      intros [[_ H1] [_ H2]]. congruence.
    + intros t. rewrite !elem_of_List_filter. rewrite negb_true_iff.
      destruct (completed t); intuition congruence.
    + apply (filter_partition completed).
    + rewrite <- length_app. apply Permutation_length, (filter_partition completed).
Qed.

Lemma C6_filter_modes_witness :
  TaskManager.getFilteredTasks (TaskManager.setFilter "active" Samples.twoTasks)
  = [Samples.buyMilk]
  /\ FlowTaskPro.getFilteredTasks
       (Samples.pro "high" "newest" [Samples.report; Samples.release])
     = FlowTaskPro.FreshArray [Samples.release].
Proof.
  destruct C6_filter_modes as (Hsimple & Hpro & _).
  split.
  - apply (proj1 (Hsimple (TaskManager.setFilter "active" Samples.twoTasks))).
    reflexivity.
  - apply (proj1 (proj2 (proj2
             (Hpro (Samples.pro "high" "newest" [Samples.report; Samples.release]))))).
    reflexivity.
Defined.

(** C6 as stated fails for the mode it calls 'highPriority': the code
    knows no such key, so the filter falls to the default and returns the
    whole collection, low-priority tasks included.  FlowTask has no
    filter by priority under any key. *)
Lemma C6_counterexample :
  let app := Samples.pro "highPriority" "newest" [Samples.report; Samples.release] in
  FlowTaskPro.contents app (FlowTaskPro.getFilteredTasks app)
  = [Samples.report; Samples.release]
  /\ priority Samples.report = Some low
  /\ FlowTaskPro.contents app (FlowTaskPro.getFilteredTasks app)
     <> List.filter (priorityIs high) (FlowTaskPro.tasks app)
  /\ TaskManager.getFilteredTasks (TaskManager.setFilter "high" Samples.twoTasks)
     = [Samples.callMum; Samples.buyMilk].
Proof. vm_compute. repeat split. discriminate. Qed.

End Filters.

(** ** The store of FlowTask, operation by operation *)

Section TaskManagerStore.
Import JsString TaskManager.

Lemma tasks_saveTasks (app : State) : tasks (saveTasks app) = tasks app.
Proof. unfold saveTasks. destruct (LocalStorage.setItem _ _ _); reflexivity. Qed.

Lemma validateTask_state (text : string) (app : State) :
  tasks (snd (validateTask text app)) = tasks app
  /\ localStorage (snd (validateTask text app)) = localStorage app.
Proof.
  destruct (TaskManager_validateTask_cases text app) as [[_ ->] | [[_ ->] | [_ ->]]];
    split; reflexivity.
Qed.

(** What [addTask] does to the collection. *)
Lemma addTask_tasks (text : string) (now : N) (iso : string) (app : State) :
  (fst (addTask text now iso app) = Boolean true
   /\ 1 <= String.length (trim text) <= 100
   /\ tasks (snd (addTask text now iso app))
      = mkTask (pretty now) (trim text) false None None None iso :: tasks app)
  \/ (fst (addTask text now iso app) = Boolean false
      /\ tasks (snd (addTask text now iso app)) = tasks app).
Proof.
  destruct (TaskManager_validateTask_cases text app)
    as [[Hempty Hv] | [[Hlong Hv] | [Hlen Hv]]].
  - right. unfold addTask. rewrite Hv. split; reflexivity.
  - right. unfold addTask. rewrite Hv. split; reflexivity.
  - left. rewrite (TaskManager_addTask_valid _ _ _ _ Hlen). cbn [fst snd].
    split; [reflexivity|]. split; [exact Hlen|].
    unfold showNotification, emit. cbn [tasks]. rewrite tasks_saveTasks. reflexivity.
Qed.

Lemma toggleTask_tasks (i : string) (app : State) :
  tasks (snd (toggleTask i app))
  = match findIndex (fun t => String.eqb (id t) i) (tasks app) with
    | Some k => alter (fun task => setCompleted (negb (completed task)) task) k (tasks app)
    | None => tasks app
    end.
Proof.
  unfold toggleTask. destruct (findIndex _ _); [|reflexivity].
  cbn [snd]. rewrite tasks_saveTasks. reflexivity.
Qed.

Lemma editTask_tasks (i newText : string) (app : State) :
  (exists k, fst (editTask i newText app) = Boolean true
             /\ 1 <= String.length (trim newText) <= 100
             /\ findIndex (fun t => String.eqb (id t) i) (tasks app) = Some k
             /\ tasks (snd (editTask i newText app))
                = alter (setText (trim newText)) k (tasks app))
  \/ (fst (editTask i newText app) = Boolean false
      /\ tasks (snd (editTask i newText app)) = tasks app).
Proof.
  destruct (TaskManager_validateTask_cases newText app)
    as [[Hempty Hv] | [[Hlong Hv] | [Hlen Hv]]].
  - right. unfold editTask. rewrite Hv. split; reflexivity.
  - right. unfold editTask. rewrite Hv. split; reflexivity.
  - destruct (findIndex (fun t => String.eqb (id t) i) (tasks app)) as [k|] eqn:Hk.
    + left. exists k. rewrite (TaskManager_editTask_valid _ _ _ k Hlen Hk). cbn [fst snd].
      split; [reflexivity|]. split; [exact Hlen|]. split; [reflexivity|].
      unfold showNotification, emit. cbn [tasks]. rewrite tasks_saveTasks. reflexivity.
    + right. unfold editTask. rewrite Hv. cbn [negb]. rewrite Hk. split; reflexivity.
Qed.

Lemma deleteTask_tasks (i : string) (app : State) :
  tasks (snd (deleteTask i app))
  = List.filter (fun task => negb (String.eqb (id task) i)) (tasks app).
Proof.
  unfold deleteTask, showNotification, emit. cbn [snd tasks].
  rewrite tasks_saveTasks. reflexivity.
Qed.

Lemma clearCompleted_tasks (app : State) :
  tasks (snd (clearCompleted app))
  = List.filter (fun task => negb (completed task)) (tasks app).
Proof.
  unfold clearCompleted, showNotification, emit. cbn [snd tasks].
  rewrite tasks_saveTasks. reflexivity.
Qed.

End TaskManagerStore.

(** ** Facts about lists of tasks *)

Section TaskLists.

Lemma ids_alter (f : Task -> Task) (k : nat) (l : list Task) :
  (forall t, id (f t) = id t) -> ids (alter f k l) = ids l.
Proof.
  intros Hf. revert k. induction l as [|t l IH]; intros [|k]; cbn; try reflexivity.
  - rewrite Hf. reflexivity.
  - f_equal. apply IH.
Qed.

Lemma sublist_List_filter {A : Type} (p : A -> bool) (l : list A) :
  sublist (List.filter p l) l.
Proof.
  induction l as [|x l IH]; cbn [List.filter]; [constructor|].
  destruct (p x); [apply sublist_skip | apply sublist_cons]; exact IH.
Qed.

Lemma Forall_List_filter {A : Type} (P : A -> Prop) (p : A -> bool) (l : list A) :
  Forall P l -> Forall P (List.filter p l).
Proof.
  rewrite !Forall_forall. intros H x Hx. apply H.
  eapply elem_of_sublist; [exact Hx | apply sublist_List_filter].
Qed.

Lemma NoDup_ids_filter (p : Task -> bool) (l : list Task) :
  NoDup (ids l) -> NoDup (ids (List.filter p l)).
Proof.
  intros H. eapply sublist_NoDup; [exact H|].
  unfold ids. apply (fmap_sublist id), sublist_List_filter.
Qed.

Lemma NoDup_ids_permutation (l l' : list Task) :
  Permutation l' l -> NoDup (ids l) -> NoDup (ids l').
Proof. intros Hp H. unfold ids in *. rewrite Hp. exact H. Qed.

(** The text [addTask] and [editTask] store, once validated. *)
Lemma trimmedText_trim (s : string) :
  JsString.trim s <> "" -> JsString.trimmedText (JsString.trim s).
Proof.
  intros Hne. split; [exact Hne|]. split; [apply trim_idempotent|].
  split; [apply trim_head | apply trim_last].
Qed.

Lemma nonempty_length (s : string) : 1 <= String.length s -> s <> "".
Proof. destruct s; cbn; [lia | discriminate]. Qed.

Lemma textsTrimmed_alter (f : Task -> Task) (k : nat) (l : list Task) :
  (forall t, JsString.trimmedText (text t) -> JsString.trimmedText (text (f t))) ->
  textsTrimmed l -> textsTrimmed (alter f k l).
Proof. intros Hf H. apply Forall_alter; [exact H | intros t _; apply Hf]. Qed.

End TaskLists.

(** ** Invariants of the FlowTask store *)

Section TaskManagerInvariants.
Import JsString TaskManager.

Lemma perform_textsTrimmed (app : State) (op : Operation) :
  textsTrimmed (tasks app) -> textsTrimmed (tasks (perform app op)).
Proof.
  intros H. destruct op as [input now iso | i | i newText | i | | f]; cbn [perform].
  - destruct (addTask_tasks input now iso app) as [(_ & Hlen & ->) | [_ ->]];
      [|exact H].
    constructor; [|exact H]. cbn [text].
    apply trimmedText_trim, nonempty_length. lia.
  - rewrite toggleTask_tasks. destruct (findIndex _ _); [|exact H].
    apply textsTrimmed_alter; [|exact H]. intros t Ht. exact Ht.
  - destruct (editTask_tasks i newText app) as [(k & _ & Hlen & _ & ->) | [_ ->]];
      [|exact H].
    apply textsTrimmed_alter; [|exact H]. intros t _. cbn [text setText].
    apply trimmedText_trim, nonempty_length. lia.
  - rewrite deleteTask_tasks. apply Forall_List_filter, H.
  - rewrite clearCompleted_tasks. apply Forall_List_filter, H.
  - exact H.
Qed.

Lemma run_textsTrimmed (ops : list Operation) (app : State) :
  textsTrimmed (tasks app) -> textsTrimmed (tasks (run ops app)).
Proof.
  revert app. induction ops as [|op ops IH]; intros app H; [exact H|].
  apply IH, perform_textsTrimmed, H.
Qed.

Lemma perform_ids_NoDup (app : State) (op : Operation) :
  NoDup (ids (tasks app)) -> idsFresh [op] app -> NoDup (ids (tasks (perform app op))).
Proof.
  intros H [Hfresh _].
  destruct op as [text now iso | i | i newText | i | | f]; cbn [perform].
  - destruct (addTask_tasks text now iso app) as [(Hok & _ & ->) | [_ ->]];
      [|exact H].
    cbn [ids map id]. apply NoDup_cons. split; [exact (Hfresh Hok) | exact H].
  - rewrite toggleTask_tasks. destruct (findIndex _ _); [|exact H].
    rewrite ids_alter; [exact H | reflexivity].
  - destruct (editTask_tasks i newText app) as [(k & _ & _ & _ & ->) | [_ ->]];
      [|exact H].
    rewrite ids_alter; [exact H | reflexivity].
  - rewrite deleteTask_tasks. apply NoDup_ids_filter, H.
  - rewrite clearCompleted_tasks. apply NoDup_ids_filter, H.
  - exact H.
Qed.

Lemma run_ids_NoDup (ops : list Operation) (app : State) :
  NoDup (ids (tasks app)) -> idsFresh ops app -> NoDup (ids (tasks (run ops app))).
Proof.
  revert app. induction ops as [|op ops IH]; intros app H Hfresh; [exact H|].
  destruct Hfresh as [Hop Hrest].
  apply IH; [|exact Hrest]. apply perform_ids_NoDup; [exact H|].
  split; [exact Hop | exact I].
Qed.

(** *** Across reloads *)

Lemma saveTasks_storedTrimmed (app : State) :
  storedTrimmed (localStorage app) -> textsTrimmed (tasks app) ->
  storedTrimmed (localStorage (saveTasks app)).
Proof.
  intros Hstored Htasks. unfold saveTasks.
  destruct (LocalStorage.setItem _ _ _) as [ls|] eqn:Hset; [|exact Hstored].
  apply getItem_setItem in Hset. cbn [localStorage emit].
  intros stored Hget. rewrite Hset in Hget. injection Hget as <-.
  exists (tasks app). split; [reflexivity | exact Htasks].
Qed.

Lemma localStorage_showNotification (m ty : string) (app : State) :
  localStorage (showNotification m ty app) = localStorage app.
Proof. reflexivity. Qed.

Lemma perform_storedTrimmed (app : State) (op : Operation) :
  textsTrimmed (tasks app) -> storedTrimmed (localStorage app) ->
  storedTrimmed (localStorage (perform app op)).
Proof.
  intros Htasks Hstored.
  pose proof (perform_textsTrimmed app op Htasks) as Hafter.
  destruct op as [input now iso | i | i newText | i | | f]; cbn [perform] in *.
  - destruct (TaskManager_validateTask_cases input app)
      as [[_ Hv] | [[_ Hv] | [Hlen _]]].
    + unfold addTask. rewrite Hv. exact Hstored.
    + unfold addTask. rewrite Hv. exact Hstored.
    + rewrite (TaskManager_addTask_valid _ _ _ _ Hlen) in *. cbn [snd] in *.
      rewrite localStorage_showNotification.
      apply saveTasks_storedTrimmed; [exact Hstored|].
      unfold showNotification, emit in Hafter. cbn [tasks] in Hafter.
      rewrite tasks_saveTasks in Hafter. exact Hafter.
  - unfold toggleTask in *. destruct (findIndex _ _); [|exact Hstored].
    cbn [snd] in *. apply saveTasks_storedTrimmed; [exact Hstored|].
    rewrite tasks_saveTasks in Hafter. exact Hafter.
  - destruct (TaskManager_validateTask_cases newText app)
      as [[_ Hv] | [[_ Hv] | [Hlen Hv]]].
    + unfold editTask. rewrite Hv. exact Hstored.
    + unfold editTask. rewrite Hv. exact Hstored.
    + destruct (findIndex (fun t => String.eqb (id t) i) (tasks app)) as [k|] eqn:Hk.
      * rewrite (TaskManager_editTask_valid _ _ _ k Hlen Hk) in *. cbn [snd] in *.
        rewrite localStorage_showNotification.
        apply saveTasks_storedTrimmed; [exact Hstored|].
        unfold showNotification, emit in Hafter. cbn [tasks] in Hafter.
        rewrite tasks_saveTasks in Hafter. exact Hafter.
      * unfold editTask. rewrite Hv. cbn [negb]. rewrite Hk. exact Hstored.
  - unfold deleteTask in *. cbn [snd] in *. rewrite localStorage_showNotification.
    apply saveTasks_storedTrimmed; [exact Hstored|].
    unfold showNotification, emit in Hafter. cbn [tasks] in Hafter.
    rewrite tasks_saveTasks in Hafter. exact Hafter.
  - unfold clearCompleted in *. cbn [snd] in *. rewrite localStorage_showNotification.
    apply saveTasks_storedTrimmed; [exact Hstored|].
    unfold showNotification, emit in Hafter. cbn [tasks] in Hafter.
    rewrite tasks_saveTasks in Hafter. exact Hafter.
  - exact Hstored.
Qed.

(** A new [TaskManager] built on what an earlier one stored holds the
    collection that was stored. *)
Lemma new_storedTrimmed (ls : LocalStorage.Storage) (app : State) :
  storedTrimmed ls -> new ls = Some app ->
  textsTrimmed (tasks app) /\ localStorage app = ls.
Proof.
  intros Hstored. unfold new, loadTasks.
  destruct (LocalStorage.getItem ls storageKey) as [stored|] eqn:Hget.
  - destruct (Hstored stored Hget) as (ts & -> & Hts).
    rewrite stringify_truthy, parse_stringify_tasks, readTasks_tasksValue.
    cbn. intros [= <-]. split; [exact Hts | reflexivity].
  - cbn. intros [= <-]. split; [constructor | reflexivity].
Qed.

Lemma reachable_textsTrimmed (app : State) :
  reachable app -> textsTrimmed (tasks app) /\ storedTrimmed (localStorage app).
Proof.
  induction 1 as [ls app Hnone Hnew | app op _ [Ht Hs] | app app' _ [Ht Hs] Hnew].
  - assert (Hs : storedTrimmed ls).
    { intros stored Hget. rewrite Hnone in Hget. discriminate. }
    destruct (new_storedTrimmed ls app Hs Hnew) as [Ht ->]. split; assumption.
  - split; [apply perform_textsTrimmed, Ht | apply perform_storedTrimmed; assumption].
  - destruct (new_storedTrimmed _ app' Hs Hnew) as [Ht' ->]. split; assumption.
Qed.

(** C8.  In FlowTask the collection is kept in insertion order, newest
    first: a successful [addTask] puts the new task in front of the
    tasks there were, which follow as they stood; [toggleTask] and
    [editTask] change one task where it stands, and only its [completed]
    flag or its text; [deleteTask] and [clearCompleted] take tasks out and
    leave the others in the order they had. *)
Theorem C8_newest_first_order_kept (app : State) :
  (forall text now iso,
      fst (addTask text now iso app) = Boolean true ->
      tasks (snd (addTask text now iso app))
      = mkTask (pretty now) (trim text) false None None None iso :: tasks app)
  /\ (forall text now iso,
      fst (addTask text now iso app) <> Boolean true ->
      tasks (snd (addTask text now iso app)) = tasks app)
  /\ (forall i,
      Forall2
        (fun old new => new = old \/ new = setCompleted (negb (completed old)) old)
        (tasks app) (tasks (snd (toggleTask i app))))
  /\ (forall i newText,
      Forall2 (fun old new => new = old \/ new = setText (trim newText) old)
        (tasks app) (tasks (snd (editTask i newText app))))
  /\ (forall i,
      tasks (snd (deleteTask i app))
      = List.filter (fun t => negb (String.eqb (id t) i)) (tasks app)
      /\ sublist (tasks (snd (deleteTask i app))) (tasks app))
  /\ (tasks (snd (clearCompleted app))
      = List.filter (fun t => negb (completed t)) (tasks app)
      /\ sublist (tasks (snd (clearCompleted app))) (tasks app)).
Proof.
  assert (Hsame : forall (R : Task -> Task -> Prop) (l : list Task),
             (forall t, R t t) -> Forall2 R l l).
  { intros R l HR. induction l; constructor; auto. }
  split; [|split; [|split; [|split; [|split]]]].
  - intros text now iso Hok.
    destruct (addTask_tasks text now iso app) as [(_ & _ & ->) | [Hno _]];
      [reflexivity | congruence].
  - intros text now iso Hno.
    destruct (addTask_tasks text now iso app) as [(Hok & _) | [_ ->]];
      [congruence | reflexivity].
  - intros i. rewrite toggleTask_tasks. destruct (findIndex _ _) as [k|].
    + apply Forall2_alter_r; [apply Hsame; auto|].
      intros old new _ _ [-> | ->]; [right; reflexivity | left].
      destruct old; cbn. rewrite negb_involutive. reflexivity.
    + apply Hsame. auto.
  - intros i newText.
    destruct (editTask_tasks i newText app) as [(k & _ & _ & _ & ->) | [_ ->]].
    + apply Forall2_alter_r; [apply Hsame; auto|].
      intros old new _ _ [-> | ->]; right; reflexivity.
    + apply Hsame. auto.
  - intros i. rewrite deleteTask_tasks. split; [reflexivity | apply sublist_List_filter].
  - rewrite clearCompleted_tasks. split; [reflexivity | apply sublist_List_filter].
Qed.

End TaskManagerInvariants.

(** ** The store of FlowTask Pro *)

Section FlowTaskProStore.
Import JsString FlowTaskPro.
Variable dateValue : string -> option Z.

Lemma pro_tasks_saveTasks (app : State) : tasks (saveTasks app) = tasks app.
Proof. unfold saveTasks. destruct (LocalStorage.setItem _ _ _); reflexivity. Qed.

Lemma sortInPlace_permutation comparefn (r : ArrayRef) (app : State) :
  Permutation (tasks (snd (sortInPlace comparefn r app))) (tasks app).
Proof. destruct r; cbn; [apply sort_permutation | reflexivity]. Qed.

(** Rendering may reorder the collection, and does nothing else to it. *)
Lemma renderTasks_permutation (app : State) :
  Permutation (tasks (renderTasks dateValue app)) (tasks app).
Proof.
  unfold renderTasks, projection, sortTasks.
  repeat match goal with |- context [if ?b then _ else _] => destruct b end;
    try apply sortInPlace_permutation; reflexivity.
Qed.

Lemma render_permutation (app : State) :
  Permutation (tasks (render dateValue app)) (tasks app).
Proof.
  unfold render. destruct (String.eqb _ _); [reflexivity | apply renderTasks_permutation].
Qed.

Lemma pro_addTask_tasks text p d j now iso (app : State) :
  (fst (addTask dateValue text p d j now iso app) = Boolean true
   /\ trim text <> ""
   /\ Permutation (tasks (snd (addTask dateValue text p d j now iso app)))
        (mkTask (pretty now) (trim text) false (Some (default medium p))
           (Some (default None d)) (Some (default "Inbox" j)) iso :: tasks app))
  \/ (fst (addTask dateValue text p d j now iso app) = Boolean false
      /\ tasks (snd (addTask dateValue text p d j now iso app)) = tasks app).
Proof.
  unfold addTask.
  destruct (FlowTaskPro_validateTask_cases text app) as [[_ ->] | [Hne ->]].
  - right. split; reflexivity.
  - left. cbn [negb fst snd]. split; [reflexivity|]. split; [exact Hne|].
    unfold showNotification, emit. cbn [tasks].
    rewrite render_permutation, pro_tasks_saveTasks. reflexivity.
Qed.

Lemma pro_toggleTask_tasks (i : string) (app : State) :
  Permutation (tasks (snd (toggleTask dateValue i app)))
    match findIndex (fun t => String.eqb (id t) i) (tasks app) with
    | Some k => alter (fun task => setCompleted (negb (completed task)) task) k (tasks app)
    | None => tasks app
    end.
Proof.
  unfold toggleTask. destruct (findIndex _ _); [|reflexivity].
  cbn [snd]. rewrite render_permutation, pro_tasks_saveTasks. reflexivity.
Qed.

Lemma pro_deleteTask_tasks (i : string) (app : State) :
  Permutation (tasks (snd (deleteTask dateValue i app)))
    (List.filter (fun task => negb (String.eqb (id task) i)) (tasks app)).
Proof.
  unfold deleteTask, showNotification, emit. cbn [snd tasks].
  rewrite render_permutation, pro_tasks_saveTasks. reflexivity.
Qed.

Lemma pro_perform_textsTrimmed (app : State) (op : Operation) :
  textsTrimmed (tasks app) -> textsTrimmed (tasks (perform dateValue app op)).
Proof.
  intros H. unfold textsTrimmed in *.
  destruct op as [input p d j now iso | i | i | v |]; cbn [perform].
  - destruct (pro_addTask_tasks input p d j now iso app) as [(_ & Hne & Hp) | [_ ->]];
      [|exact H].
    rewrite Hp. constructor; [|exact H]. cbn [text].
    apply trimmedText_trim, Hne.
  - rewrite pro_toggleTask_tasks. destruct (findIndex _ _); [|exact H].
    apply textsTrimmed_alter; [|exact H]. intros t Ht. exact Ht.
  - rewrite pro_deleteTask_tasks. apply Forall_List_filter, H.
  - exact H.
  - rewrite renderTasks_permutation. exact H.
Qed.

Lemma pro_run_textsTrimmed (ops : list Operation) (app : State) :
  textsTrimmed (tasks app) -> textsTrimmed (tasks (run dateValue ops app)).
Proof.
  revert app. induction ops as [|op ops IH]; intros app H; [exact H|].
  apply IH, pro_perform_textsTrimmed, H.
Qed.

Lemma pro_perform_ids_NoDup (app : State) (op : Operation) :
  NoDup (ids (tasks app)) -> idsFresh dateValue [op] app ->
  NoDup (ids (tasks (perform dateValue app op))).
Proof.
  intros H [Hfresh _].
  destruct op as [text p d j now iso | i | i | v |]; cbn [perform].
  - destruct (pro_addTask_tasks text p d j now iso app) as [(Hok & _ & Hp) | [_ ->]];
      [|exact H].
    apply (NoDup_ids_permutation _ _ Hp).
    cbn [ids map id]. apply NoDup_cons. split; [exact (Hfresh Hok) | exact H].
  - apply (NoDup_ids_permutation _ _ (pro_toggleTask_tasks i app)).
    destruct (findIndex _ _); [|exact H].
    rewrite ids_alter; [exact H | reflexivity].
  - apply (NoDup_ids_permutation _ _ (pro_deleteTask_tasks i app)).
    apply NoDup_ids_filter, H.
  - exact H.
  - apply (NoDup_ids_permutation _ _ (renderTasks_permutation app)), H.
Qed.

Lemma pro_run_ids_NoDup (ops : list Operation) (app : State) :
  NoDup (ids (tasks app)) -> idsFresh dateValue ops app ->
  NoDup (ids (tasks (run dateValue ops app))).
Proof.
  revert app. induction ops as [|op ops IH]; intros app H Hfresh; [exact H|].
  destruct Hfresh as [Hop Hrest].
  apply IH; [|exact Hrest]. apply pro_perform_ids_NoDup; [exact H|].
  split; [exact Hop | exact I].
Qed.

End FlowTaskProStore.

(** ** The claims about the store *)

Lemma C8_newest_first_order_kept_witness :
  TaskManager.tasks
    (snd (TaskManager.addTask "  Buy milk " 1700000000000 "2023-11-14T22:13:20.000Z"
            Samples.fresh))
  = [Samples.buyMilk].
Proof.
  apply (proj1 (C8_newest_first_order_kept Samples.fresh)
           "  Buy milk " 1700000000000%N "2023-11-14T22:13:20.000Z").
  vm_compute. reflexivity.
Defined.

Lemma C10_bound_applies_to_trimmed_text_witness :
  String.length (JsString.trim Samples.paddedHundred) = 100
  /\ fst (TaskManager.addTask Samples.paddedHundred 1700000000000
            "2023-11-14T22:13:20.000Z" Samples.fresh) = Boolean true.
Proof.
  split; [reflexivity|].
  apply (proj1 (proj2 (C10_bound_applies_to_trimmed_text Samples.paddedHundred
                         Samples.fresh))).
  reflexivity.
Defined.

(** C9.  In every state FlowTask reaches from a first run, by its
    operations and by reloading the page on what it stored, every task's
    text is its own trimmed form, is not empty, and neither starts nor ends
    with white space.  More generally, started from a collection whose
    texts are such (the empty collection, and the two welcome tasks of
    FlowTask Pro), every sequence of operations of either application
    leaves such a collection: [addTask] and [editTask] store the trimmed
    text of an input that passed validation, and nothing else writes a
    text. *)
Theorem C9_texts_stay_trimmed :
  (forall app, TaskManager.reachable app -> textsTrimmed (TaskManager.tasks app))
  /\ (forall ops app,
      textsTrimmed (TaskManager.tasks app) ->
      textsTrimmed (TaskManager.tasks (TaskManager.run ops app)))
  /\ (forall dateValue ops app,
      textsTrimmed (FlowTaskPro.tasks app) ->
      textsTrimmed (FlowTaskPro.tasks (FlowTaskPro.run dateValue ops app)))
  /\ textsTrimmed []
  /\ (forall iso1 iso2 tomorrow ts,
      TaskJson.readTasks (FlowTaskPro.welcomeTasks iso1 iso2 tomorrow) = Some ts ->
      textsTrimmed ts).
Proof.
  split; [intros app H; apply (reachable_textsTrimmed app H)|].
  split; [exact run_textsTrimmed|]. split; [exact pro_run_textsTrimmed|].
  split; [constructor|].
  intros iso1 iso2 tomorrow ts [= <-].
  repeat constructor; cbn; try discriminate;
    intros c [= <-]; reflexivity.
Qed.

Lemma C9_texts_stay_trimmed_witness :
  textsTrimmed
    (TaskManager.tasks
       (TaskManager.run
          [TaskManager.Add "  Buy milk " 1700000000000 "2023-11-14T22:13:20.000Z";
           TaskManager.Edit "1700000000000" " Buy oat milk  ";
           TaskManager.Toggle "1700000000000"]
          Samples.fresh)).
Proof.
  apply (proj1 (proj2 C9_texts_stay_trimmed)). constructor.
Defined.

(** C2, as amended.  Pairwise distinct ids stay pairwise distinct under
    every sequence of operations in which each successful add is made at a
    clock reading whose decimal form is not already an id of the
    collection; toggle, edit, delete and clearCompleted never break
    distinctness.  The id of a new task is the clock reading
    [Date.now()], in decimal, and nothing checks it against the ids in
    use. *)
Theorem C2_ids_stay_distinct :
  (forall ops app,
      NoDup (ids (TaskManager.tasks app)) -> TaskManager.idsFresh ops app ->
      NoDup (ids (TaskManager.tasks (TaskManager.run ops app))))
  /\ (forall dateValue ops app,
      NoDup (ids (FlowTaskPro.tasks app)) -> FlowTaskPro.idsFresh dateValue ops app ->
      NoDup (ids (FlowTaskPro.tasks (FlowTaskPro.run dateValue ops app))))
  /\ (forall text now iso app,
      fst (TaskManager.addTask text now iso app) = Boolean true ->
      ids (TaskManager.tasks (snd (TaskManager.addTask text now iso app)))
      = pretty now :: ids (TaskManager.tasks app))
  /\ (forall dateValue text p d j now iso app,
      fst (FlowTaskPro.addTask dateValue text p d j now iso app) = Boolean true ->
      Permutation
        (ids (FlowTaskPro.tasks
                (snd (FlowTaskPro.addTask dateValue text p d j now iso app))))
        (pretty now :: ids (FlowTaskPro.tasks app))).
Proof.
  split; [exact run_ids_NoDup|]. split; [exact pro_run_ids_NoDup|]. split.
  - intros text now iso app Hok.
    destruct (addTask_tasks text now iso app) as [(_ & _ & ->) | [Hno _]];
      [reflexivity | congruence].
  - intros dateValue text p d j now iso app Hok.
    destruct (pro_addTask_tasks dateValue text p d j now iso app)
      as [(_ & _ & Hp) | [Hno _]]; [|congruence].
    unfold ids. rewrite Hp. reflexivity.
Qed.

Lemma C2_ids_stay_distinct_witness :
  NoDup
    (ids (TaskManager.tasks
            (TaskManager.run
               [TaskManager.Add "Call mum" 1700000000500 "2023-11-14T22:13:20.500Z";
                TaskManager.Toggle "1700000000500";
                TaskManager.ClearCompleted]
               Samples.oneTask))).
Proof.
  apply (proj1 C2_ids_stay_distinct).
  - vm_compute. apply NoDup_singleton.
  - split; [|repeat split]. intros _. vm_compute. intros H.
    apply list_elem_of_singleton in H. discriminate.
Defined.

(** C2 as stated fails: two adds within one millisecond read the same
    clock value and the second task gets the id of the first. *)
Lemma C2_counterexample :
  let ops :=
    [TaskManager.Add "Buy milk" 1700000000000 "2023-11-14T22:13:20.000Z";
     TaskManager.Add "Call mum" 1700000000000 "2023-11-14T22:13:20.000Z"] in
  NoDup (ids (TaskManager.tasks Samples.fresh))
  /\ ids (TaskManager.tasks (TaskManager.run ops Samples.fresh))
     = ["1700000000000"; "1700000000000"]
  /\ ~ NoDup (ids (TaskManager.tasks (TaskManager.run ops Samples.fresh))).
Proof.
  intros ops. split; [constructor|]. split; [vm_compute; reflexivity|].
  replace (ids (TaskManager.tasks (TaskManager.run ops Samples.fresh)))
    with ["1700000000000"; "1700000000000"] by (vm_compute; reflexivity).
  intros H. apply NoDup_cons in H as [Hin _]. apply Hin. left.
Qed.

(** C5, as amended.  [clearCompleted] removes exactly the completed tasks
    and keeps the others in their order; it writes to [localStorage]
    exactly once, the collection that remains; it returns no value, the
    number of tasks removed being reported only in the notification
    'Cleared N completed tasks'. *)
Theorem C5_clearCompleted (app : TaskManager.State) :
  let outcome := TaskManager.clearCompleted app in
  let remaining := TaskManager.tasks (snd outcome) in
  let removed := length (List.filter completed (TaskManager.tasks app)) in
  let payload := JSON.stringify (TaskJson.tasksValue remaining) in
  fst outcome = Undefined
  /\ remaining = List.filter (fun t => negb (completed t)) (TaskManager.tasks app)
  /\ (forall t, t ∈ remaining <-> t ∈ TaskManager.tasks app /\ completed t = false)
  /\ length (TaskManager.tasks app) = length remaining + removed
  /\ exists written,
      TaskManager.trace (snd outcome)
      = ShowNotification ("Cleared " ++ pretty removed ++ " completed tasks") "info"
          :: written ++ TaskManager.trace app
      /\ (written = [SetItem TaskManager.storageKey payload true]
          \/ written = [ShowNotification "Error saving tasks" "error";
                        SetItem TaskManager.storageKey payload false])
      /\ length (List.filter isSetItem written) = 1.
Proof.
  intros outcome remaining removed payload.
  assert (Hrem : remaining
                 = List.filter (fun t => negb (completed t)) (TaskManager.tasks app)).
  { apply clearCompleted_tasks. }
  split; [reflexivity|]. split; [exact Hrem|]. split; [|split].
  - intros t. rewrite Hrem, elem_of_List_filter, negb_true_iff. reflexivity.
  - rewrite Hrem. unfold removed.
    rewrite <- (Permutation_length (filter_partition completed (TaskManager.tasks app))).
    apply length_app.
  - unfold payload. rewrite Hrem. unfold outcome, TaskManager.clearCompleted.
    cbn [snd]. unfold TaskManager.saveTasks. cbn [TaskManager.tasks TaskManager.withTasks].
    destruct (LocalStorage.setItem _ _ _) as [ls|].
    + eexists. split; [|split; [left; reflexivity | reflexivity]]. reflexivity.
    + eexists. split; [|split; [right; reflexivity | reflexivity]]. reflexivity.
Qed.

(** C5 as stated fails on the return value: [clearCompleted] has no
    [return], so a call that removes one task evaluates to [undefined],
    not to 1. *)
Lemma C5_counterexample :
  let outcome := TaskManager.clearCompleted Samples.twoTasks in
  length (TaskManager.tasks Samples.twoTasks)
  - length (TaskManager.tasks (snd outcome)) = 1
  /\ fst outcome = Undefined
  /\ fst outcome <> Number 1.
Proof. vm_compute. repeat split. discriminate. Qed.

(** * Part III: further properties of the code *)

(** ** FlowTask: looking tasks up by id *)

Section TaskManagerLookup.
Import JsString TaskManager.

Lemma findIndex_absent (i : string) (l : list Task) :
  i ∉ ids l -> findIndex (fun t => String.eqb (id t) i) l = None.
Proof.
  unfold ids. induction l as [|t l IH]; cbn [map findIndex]; [reflexivity|].
  rewrite not_elem_of_cons. intros [Hne Hl].
  destruct (String.eqb_spec (id t) i) as [E | _]; [congruence|].
  rewrite (IH Hl). reflexivity.
Qed.

Lemma findIndex_alter (i : string) (f : Task -> Task) (k : nat) (l : list Task) :
  (forall t, id (f t) = id t) ->
  findIndex (fun t => String.eqb (id t) i) (alter f k l)
  = findIndex (fun t => String.eqb (id t) i) l.
Proof.
  intros Hf. revert k. induction l as [|t l IH]; intros [|k]; cbn; try reflexivity.
  - rewrite Hf. reflexivity.
  - rewrite IH. reflexivity.
Qed.

Lemma toggle_toggle (t : Task) :
  setCompleted (negb (completed (setCompleted (negb (completed t)) t)))
    (setCompleted (negb (completed t)) t) = t.
Proof. destruct t. cbn. rewrite negb_involutive. reflexivity. Qed.

Lemma filter_keeps_all {A : Type} (p : A -> bool) (l : list A) :
  Forall (fun x => p x = true) l -> List.filter p l = l.
Proof.
  induction 1 as [|x l Hx _ IH]; cbn [List.filter]; [reflexivity|].
  rewrite Hx, IH. reflexivity.
Qed.

Lemma filter_by_absent_id (i : string) (l : list Task) :
  i ∉ ids l -> List.filter (fun task => negb (String.eqb (id task) i)) l = l.
Proof.
  intros H. apply filter_keeps_all. rewrite Forall_forall. intros t Ht.
  destruct (String.eqb_spec (id t) i) as [E | _]; [|reflexivity].
  exfalso. apply H. unfold ids. rewrite <- E. apply list_elem_of_fmap_2, Ht.
Qed.

(** X1.  [toggleTask] is an involution on the collection: toggling the
    same id twice gives back every task as it was, whether or not the id
    exists and whether or not other tasks share it. *)
Theorem X1_toggle_twice_restores (i : string) (app : State) :
  tasks (snd (toggleTask i (snd (toggleTask i app)))) = tasks app.
Proof.
  rewrite !toggleTask_tasks.
  destruct (findIndex (fun t => String.eqb (id t) i) (tasks app)) as [k|] eqn:Hk.
  - rewrite findIndex_alter by reflexivity. rewrite Hk.
    rewrite list_alter_alter_eq. apply list_alter_id. intros t. apply toggle_toggle.
  - rewrite Hk. reflexivity.
Qed.

(** X2.  An id that no task has: [toggleTask] does nothing at all and
    [editTask], given a valid text, returns [false] and does nothing:
    no write, no notification.  [deleteTask] leaves the collection as it
    is, yet writes it to storage and reports 'Task deleted' all the same. *)
Theorem X2_absent_id (i : string) (app : State) :
  i ∉ ids (tasks app) ->
  toggleTask i app = (Undefined, app)
  /\ (forall newText,
         1 <= String.length (trim newText) <= 100 ->
         editTask i newText app = (Boolean false, app))
  /\ tasks (snd (deleteTask i app)) = tasks app
  /\ exists written,
      trace (snd (deleteTask i app))
      = ShowNotification "Task deleted" "info" :: written ++ trace app
      /\ length (List.filter isSetItem written) = 1.
Proof.
  intros Habs. pose proof (findIndex_absent i _ Habs) as Hnone.
  split; [|split; [|split]].
  - unfold toggleTask. rewrite Hnone. reflexivity.
  - intros newText Hlen. unfold editTask.
    destruct (TaskManager_validateTask_cases newText app)
      as [[Hempty _] | [[Hlong _] | [_ ->]]]; [| lia |].
    + rewrite Hempty in Hlen. cbn in Hlen. lia.
    + cbn [negb]. rewrite Hnone. reflexivity.
  - rewrite deleteTask_tasks. apply filter_by_absent_id, Habs.
  - unfold deleteTask, saveTasks. cbn [snd tasks withTasks].
    destruct (LocalStorage.setItem _ _ _).
    + eexists [SetItem _ _ true]. split; reflexivity.
    + eexists [ShowNotification _ _; SetItem _ _ false]. split; reflexivity.
Qed.

Lemma X2_absent_id_witness :
  toggleTask "42" Samples.twoTasks = (Undefined, Samples.twoTasks)
  /\ tasks (snd (deleteTask "42" Samples.twoTasks)) = [Samples.callMum; Samples.buyMilk].
Proof.
  assert (H : "42" ∉ ids (tasks Samples.twoTasks)).
  { vm_compute. intros H. repeat (apply elem_of_cons in H as [H | H]; [discriminate|]).
    inversion H. }
  destruct (X2_absent_id "42" Samples.twoTasks H) as (Ht & _ & Hd & _).
  split; [exact Ht | exact Hd].
Defined.

(** X3.  [deleteTask] removes every task that has the id and no other:
    afterwards the id is not in the collection, the tasks left are exactly
    those with another id, and deleting the same id again changes nothing
    in the collection. *)
Theorem X3_delete_removes_the_id (i : string) (app : State) :
  let after := tasks (snd (deleteTask i app)) in
  (i ∉ ids after)
  /\ (forall t, t ∈ after <-> t ∈ tasks app /\ id t <> i)
  /\ tasks (snd (deleteTask i (snd (deleteTask i app)))) = after.
Proof.
  intros after. unfold after. clear after.
  assert (Hin : forall t, t ∈ tasks (snd (deleteTask i app))
                          <-> t ∈ tasks app /\ id t <> i).
  { intros t. rewrite deleteTask_tasks, elem_of_List_filter, negb_true_iff.
    destruct (String.eqb_spec (id t) i); intuition congruence. }
  assert (Habs : i ∉ ids (tasks (snd (deleteTask i app)))).
  { unfold ids. intros H. apply list_elem_of_fmap in H as (t & Hid & Ht).
    apply Hin in Ht as [_ Hne]. congruence. }
  split; [exact Habs|]. split; [exact Hin|].
  rewrite (deleteTask_tasks i (snd (deleteTask i app))).
  apply filter_by_absent_id, Habs.
Qed.

(** X4.  Editing and looking up: after a successful [editTask], the task
    found under the id is the one found before, with the trimmed new text
    and every other field as it was, and every other position of the
    collection is unchanged. *)
Theorem X4_edit_then_lookup (i newText : string) (app : State) :
  fst (editTask i newText app) = Boolean true ->
  exists k old,
    findIndex (fun t => String.eqb (id t) i) (tasks app) = Some k
    /\ tasks app !! k = Some old
    /\ findIndex (fun t => String.eqb (id t) i) (tasks (snd (editTask i newText app)))
       = Some k
    /\ tasks (snd (editTask i newText app)) !! k = Some (setText (trim newText) old)
    /\ forall j, j <> k ->
                 tasks (snd (editTask i newText app)) !! j = tasks app !! j.
Proof.
  intros Hok.
  destruct (editTask_tasks i newText app) as [(k & _ & _ & Hk & ->) | [Hno _]];
    [|congruence].
  destruct (findIndex_Some _ _ _ Hk) as (old & Hold & _).
  exists k, old. split; [exact Hk|]. split; [exact Hold|]. split; [|split].
  - rewrite findIndex_alter by reflexivity. exact Hk.
  - rewrite list_lookup_alter_eq, Hold. reflexivity.
  - intros j Hj. apply list_lookup_alter_ne. congruence.
Qed.

Lemma X4_edit_then_lookup_witness :
  exists k old,
    findIndex (fun t => String.eqb (id t) "1700000000000") (tasks Samples.twoTasks)
    = Some k
    /\ tasks (snd (editTask "1700000000000" " Buy oat milk " Samples.twoTasks)) !! k
       = Some (setText "Buy oat milk" old).
Proof.
  destruct (X4_edit_then_lookup "1700000000000" " Buy oat milk " Samples.twoTasks
              eq_refl) as (k & old & Hk & _ & _ & Hnew & _).
  exists k, old. split; [exact Hk | exact Hnew].
Defined.

End TaskManagerLookup.

(** ** FlowTask: operations one after the other *)

Section TaskManagerSequences.
Import JsString TaskManager.

Lemma addTask_success_tasks (text : string) (now : N) (iso : string) (app : State) :
  fst (addTask text now iso app) = Boolean true ->
  tasks (snd (addTask text now iso app))
  = mkTask (pretty now) (trim text) false None None None iso :: tasks app.
Proof.
  intros Hok.
  destruct (addTask_tasks text now iso app) as [(_ & _ & ->) | [Hno _]];
    [reflexivity | congruence].
Qed.

Lemma add_then_toggle_tasks (text : string) (now : N) (iso : string) (app : State) :
  fst (addTask text now iso app) = Boolean true ->
  tasks (snd (toggleTask (pretty now) (snd (addTask text now iso app))))
  = mkTask (pretty now) (trim text) true None None None iso :: tasks app.
Proof.
  intros Hok. rewrite toggleTask_tasks, (addTask_success_tasks _ _ _ _ Hok).
  cbn [findIndex id]. rewrite String.eqb_refl. reflexivity.
Qed.

(** X5.  A task just added is the one its id finds, even when older tasks
    carry the same id: toggling by that id completes the new task and
    touches no other, whereas deleting by it takes out the new task and
    every older task of that id, and so gives back the collection as it
    was before the add exactly when the id was new. *)
Theorem X5_add_then_use_the_id (text : string) (now : N) (iso : string) (app : State) :
  fst (addTask text now iso app) = Boolean true ->
  let added := snd (addTask text now iso app) in
  findIndex (fun t => String.eqb (id t) (pretty now)) (tasks added) = Some 0
  /\ tasks (snd (toggleTask (pretty now) added))
     = mkTask (pretty now) (trim text) true None None None iso :: tasks app
  /\ tasks (snd (deleteTask (pretty now) added))
     = List.filter (fun t => negb (String.eqb (id t) (pretty now))) (tasks app)
  /\ (tasks (snd (deleteTask (pretty now) added)) = tasks app
      <-> pretty now ∉ ids (tasks app)).
Proof.
  intros Hok added.
  pose proof (addTask_success_tasks text now iso app Hok) as Hadded.
  fold added in Hadded.
  assert (Hdel : tasks (snd (deleteTask (pretty now) added))
                 = List.filter (fun t => negb (String.eqb (id t) (pretty now)))
                     (tasks app)).
  { rewrite deleteTask_tasks, Hadded. cbn [List.filter id].
    rewrite String.eqb_refl. reflexivity. }
  split; [|split; [|split]].
  - rewrite Hadded. cbn [findIndex id]. rewrite String.eqb_refl. reflexivity.
  - apply add_then_toggle_tasks, Hok.
  - exact Hdel.
  - rewrite Hdel. split.
    + intros Heq Hin. unfold ids in Hin.
      apply list_elem_of_fmap in Hin as (t & Hid & Ht).
      rewrite <- Heq in Ht. apply elem_of_List_filter in Ht as [_ Hne].
      rewrite <- Hid, String.eqb_refl in Hne. discriminate.
    + apply filter_by_absent_id.
Qed.

Lemma X5_add_then_use_the_id_witness :
  tasks (snd (toggleTask "1700000000500"
                (snd (addTask "Call mum" 1700000000500 "2023-11-14T22:13:20.500Z"
                        Samples.oneTask))))
  = [Samples.callMum; Samples.buyMilk].
Proof.
  apply (proj1 (proj2 (X5_add_then_use_the_id "Call mum" 1700000000500%N
                         "2023-11-14T22:13:20.500Z" Samples.oneTask eq_refl))).
Defined.

Lemma filter_filter_same {A : Type} (p : A -> bool) (l : list A) :
  List.filter p (List.filter p l) = List.filter p l.
Proof.
  apply filter_keeps_all. rewrite Forall_forall. intros x Hx.
  apply elem_of_List_filter in Hx as [_ Hp]. exact Hp.
Qed.

(** X6.  Add, complete, clear: adding a task, toggling it by its id and
    calling [clearCompleted] leaves exactly the tasks that were there
    before and were not completed; started from the empty collection it
    ends with the empty collection. *)
Theorem X6_add_toggle_clear (text : string) (now : N) (iso : string) (app : State) :
  fst (addTask text now iso app) = Boolean true ->
  tasks (snd (clearCompleted
                (snd (toggleTask (pretty now) (snd (addTask text now iso app))))))
  = List.filter (fun t => negb (completed t)) (tasks app).
Proof.
  intros Hok. rewrite clearCompleted_tasks, (add_then_toggle_tasks _ _ _ _ Hok).
  reflexivity.
Qed.

Lemma X6_add_toggle_clear_witness :
  tasks (snd (clearCompleted
                (snd (toggleTask "1700000000000"
                        (snd (addTask "Buy milk" 1700000000000
                                "2023-11-14T22:13:20.000Z" Samples.fresh))))))
  = [].
Proof.
  apply (X6_add_toggle_clear "Buy milk" 1700000000000%N "2023-11-14T22:13:20.000Z"
           Samples.fresh eq_refl).
Defined.

(** X7.  After [clearCompleted] no task of the collection is completed;
    a second call removes nothing, and says so: its notification reads
    'Cleared 0 completed tasks'. *)
Theorem X7_clearCompleted_twice (app : State) :
  let once := snd (clearCompleted app) in
  let twice := snd (clearCompleted once) in
  Forall (fun t => completed t = false) (tasks once)
  /\ tasks twice = tasks once
  /\ hd_error (trace twice)
     = Some (ShowNotification "Cleared 0 completed tasks" "info").
Proof.
  intros once twice.
  assert (Hnone : Forall (fun t => completed t = false) (tasks once)).
  { unfold once. rewrite clearCompleted_tasks, Forall_forall. intros t Ht.
    apply elem_of_List_filter in Ht as [_ Hc]. apply negb_true_iff, Hc. }
  split; [exact Hnone|]. split.
  - unfold twice. rewrite clearCompleted_tasks. apply filter_keeps_all.
    eapply Forall_impl; [exact Hnone|]. intros t ->. reflexivity.
  - unfold twice, clearCompleted, showNotification, emit. cbn [snd trace hd_error].
    replace (List.filter (fun t => completed t) (tasks once)) with (@nil Task);
      [reflexivity|].
    symmetry. clear -Hnone. induction Hnone as [|t l Ht _ IH]; [reflexivity|].
    cbn [List.filter]. rewrite Ht. exact IH.
Qed.

End TaskManagerSequences.

(** ** FlowTask: memory and storage *)

Section TaskManagerStorage.
Import JsString TaskManager LocalStorage.

(** The two ways [saveTasks] can go. *)
Lemma saveTasks_cases (app : State) :
  let payload := JSON.stringify (TaskJson.tasksValue (tasks app)) in
  (getItem (localStorage (saveTasks app)) storageKey = Some payload
   /\ (forall k, k <> storageKey ->
                 getItem (localStorage (saveTasks app)) k = getItem (localStorage app) k)
   /\ trace (saveTasks app) = SetItem storageKey payload true :: trace app)
  \/ (localStorage (saveTasks app) = localStorage app
      /\ trace (saveTasks app)
         = ShowNotification "Error saving tasks" "error"
             :: SetItem storageKey payload false :: trace app).
Proof.
  intros payload. unfold saveTasks. fold payload.
  destruct (setItem (localStorage app) storageKey payload) as [ls|] eqn:Hset.
  - left. pose proof (getItem_setItem _ _ _ _ Hset) as Hget.
    unfold setItem in Hset. destruct (accepts _ _ _); [|discriminate].
    injection Hset as <-. cbn [localStorage emit trace].
    split; [exact Hget|]. split; [|reflexivity].
    intros k Hk. unfold getItem. cbn [items]. apply lookup_insert_ne. congruence.
  - right. split; reflexivity.
Qed.

(** Every operation either writes nothing and leaves the collection
    alone, or ends in one [saveTasks] of the collection it leaves. *)
Lemma perform_shape (app : State) (op : Operation) :
  (tasks (perform app op) = tasks app
   /\ localStorage (perform app op) = localStorage app)
  \/ exists mid pre,
      tasks mid = tasks (perform app op)
      /\ localStorage mid = localStorage app
      /\ trace mid = trace app
      /\ localStorage (perform app op) = localStorage (saveTasks mid)
      /\ trace (perform app op) = pre ++ trace (saveTasks mid).
Proof.
  assert (Hsaved : forall ts pre after,
             tasks after = tasks (saveTasks (withTasks ts app)) ->
             localStorage after = localStorage (saveTasks (withTasks ts app)) ->
             trace after = pre ++ trace (saveTasks (withTasks ts app)) ->
             exists mid pre',
               tasks mid = tasks after
               /\ localStorage mid = localStorage app
               /\ trace mid = trace app
               /\ localStorage after = localStorage (saveTasks mid)
               /\ trace after = pre' ++ trace (saveTasks mid)).
  { intros ts pre after Ht Hl Htr. exists (withTasks ts app), pre.
    rewrite Ht, tasks_saveTasks. repeat split; assumption. }
  destruct op as [input now iso | i | i newText | i | | f]; cbn [perform].
  - destruct (TaskManager_validateTask_cases input app)
      as [[_ Hv] | [[_ Hv] | [Hlen _]]].
    + left. unfold addTask. rewrite Hv. split; reflexivity.
    + left. unfold addTask. rewrite Hv. split; reflexivity.
    + right. rewrite (TaskManager_addTask_valid _ _ _ _ Hlen). cbn [snd].
      eapply (Hsaved _ [_]); reflexivity.
  - unfold toggleTask. destruct (findIndex _ _) as [k|].
    + right. cbn [snd]. eapply (Hsaved _ []); reflexivity.
    + left. split; reflexivity.
  - destruct (TaskManager_validateTask_cases newText app)
      as [[_ Hv] | [[_ Hv] | [Hlen Hv]]].
    + left. unfold editTask. rewrite Hv. split; reflexivity.
    + left. unfold editTask. rewrite Hv. split; reflexivity.
    + destruct (findIndex (fun t => String.eqb (id t) i) (tasks app)) as [k|] eqn:Hk.
      * right. rewrite (TaskManager_editTask_valid _ _ _ k Hlen Hk). cbn [snd].
        eapply (Hsaved _ [_]); reflexivity.
      * left. unfold editTask. rewrite Hv. cbn [negb]. rewrite Hk. split; reflexivity.
  - right. unfold deleteTask. cbn [snd]. eapply (Hsaved _ [_]); reflexivity.
  - right. unfold clearCompleted. cbn [snd]. eapply (Hsaved _ [_]); reflexivity.
  - left. split; reflexivity.
Qed.

Lemma perform_keeps_inSync (app : State) (op : Operation) (new : list Effect) :
  inSync app ->
  trace (perform app op) = new ++ trace app ->
  Forall (fun e => isRejectedWrite e = false) new ->
  inSync (perform app op).
Proof.
  unfold inSync. intros Hsync Hnew Hok.
  destruct (perform_shape app op) as [[Ht Hs] | (mid & pre & Ht & Hs & Htr & Hls & Htrace)].
  - rewrite Ht, Hs. exact Hsync.
  - destruct (saveTasks_cases mid) as [(Hget & _ & _) | [_ Hrej]].
    + rewrite Hls, <- Ht. unfold loadTasks. rewrite Hget.
      rewrite stringify_truthy, parse_stringify_tasks. reflexivity.
    + exfalso. rewrite Htrace, Hrej, Htr in Hnew.
      change (pre ++ ?a :: ?b :: trace app) with (pre ++ [a; b] ++ trace app) in Hnew.
      rewrite app_assoc in Hnew. apply app_inv_tail in Hnew. subst new.
      apply Forall_app in Hok as [_ Hok].
      apply Forall_cons in Hok as [_ Hok]. apply Forall_cons in Hok as [Hbad _].
      discriminate.
Qed.

(** X8.  Memory and storage stay in step: if what is stored is the
    collection in memory, it still is after any operation, unless the
    operation's write was rejected.  A write that is accepted stores
    the whole collection the operation leaves. *)
Theorem X8_storage_follows_memory (app : State) (op : Operation) (new : list Effect) :
  inSync app ->
  trace (perform app op) = new ++ trace app ->
  Forall (fun e => isRejectedWrite e = false) new ->
  inSync (perform app op).
Proof. exact (perform_keeps_inSync app op new). Qed.

Lemma X8_storage_follows_memory_witness :
  inSync (perform Samples.fresh
            (Add "Buy milk" 1700000000000 "2023-11-14T22:13:20.000Z")).
Proof.
  apply (X8_storage_follows_memory Samples.fresh
           (Add "Buy milk" 1700000000000%N "2023-11-14T22:13:20.000Z")
           [ShowNotification "Task added successfully!" "success";
            SetItem storageKey
              (JSON.stringify (TaskJson.tasksValue [Samples.buyMilk])) true]).
  - reflexivity.
  - vm_compute. reflexivity.
  - repeat constructor.
Defined.

(** X9.  The collection an operation leaves depends on the collection it
    found and on nothing else: not on what is stored, not on whether the
    write goes through, not on the filter.  In particular a rejected
    write rolls nothing back. *)
Theorem X9_collection_ignores_storage (app app' : State) (op : Operation) :
  tasks app = tasks app' -> tasks (perform app op) = tasks (perform app' op).
Proof.
  intros Heq. destruct op as [input now iso | i | i newText | i | | f]; cbn [perform].
  - destruct (TaskManager_validateTask_cases input app)
      as [[He Hv] | [[Hl Hv] | [Hlen _]]].
    + destruct (TaskManager_validateTask_cases input app')
        as [[_ Hv'] | [[Hl' _] | [Hlen' _]]].
      * unfold addTask. rewrite Hv, Hv'. exact Heq.
      * rewrite He in Hl'. cbn in Hl'. lia.
      * rewrite He in Hlen'. cbn in Hlen'. lia.
    + destruct (TaskManager_validateTask_cases input app')
        as [[He' _] | [[_ Hv'] | [Hlen' _]]].
      * rewrite He' in Hl. cbn in Hl. lia.
      * unfold addTask. rewrite Hv, Hv'. exact Heq.
      * lia.
    + rewrite !TaskManager_addTask_valid by exact Hlen. cbn [snd].
      unfold showNotification, emit. cbn [tasks]. rewrite !tasks_saveTasks.
      cbn [tasks withTasks]. rewrite Heq. reflexivity.
  - rewrite !toggleTask_tasks, Heq. reflexivity.
  - destruct (TaskManager_validateTask_cases newText app)
      as [[He Hv] | [[Hl Hv] | [Hlen Hv]]].
    + destruct (TaskManager_validateTask_cases newText app')
        as [[_ Hv'] | [[Hl' _] | [Hlen' _]]].
      * unfold editTask. rewrite Hv, Hv'. exact Heq.
      * rewrite He in Hl'. cbn in Hl'. lia.
      * rewrite He in Hlen'. cbn in Hlen'. lia.
    + destruct (TaskManager_validateTask_cases newText app')
        as [[He' _] | [[_ Hv'] | [Hlen' _]]].
      * rewrite He' in Hl. cbn in Hl. lia.
      * unfold editTask. rewrite Hv, Hv'. exact Heq.
      * lia.
    + destruct (TaskManager_validateTask_cases newText app')
        as [[He' _] | [[Hl' _] | [_ Hv']]].
      * rewrite He' in Hlen. cbn in Hlen. lia.
      * lia.
      * unfold editTask. rewrite Hv, Hv'. cbn [negb]. rewrite <- Heq.
        destruct (findIndex _ _) as [k|]; [|exact Heq].
        cbn [snd]. unfold showNotification, emit. cbn [tasks].
        rewrite !tasks_saveTasks. cbn [tasks withTasks]. rewrite Heq. reflexivity.
  - rewrite !deleteTask_tasks, Heq. reflexivity.
  - rewrite !clearCompleted_tasks, Heq. reflexivity.
  - exact Heq.
Qed.

Lemma X9_collection_ignores_storage_witness :
  tasks (perform Samples.cramped ClearCompleted)
  = tasks (perform Samples.oneTask ClearCompleted).
Proof.
  apply (X9_collection_ignores_storage Samples.cramped Samples.oneTask ClearCompleted).
  reflexivity.
Defined.

End TaskManagerStorage.

(** ** [escapeHtml] *)

Section EscapeHtml.
Import Html.

Lemma append_cons (a : ascii) (s t : string) :
  String.append (String a s) t = String a (String.append s t).
Proof. reflexivity. Qed.

Lemma append_empty_l (t : string) : String.append EmptyString t = t.
Proof. reflexivity. Qed.

Lemma replaceAll_cons (c a : ascii) (replacement r : string) :
  replaceAll c replacement (String a r)
  = if Ascii.eqb a c then String.append replacement (replaceAll c replacement r)
    else String a (replaceAll c replacement r).
Proof. reflexivity. Qed.

Lemma escapeHtml_escapeEach (s : string) : escapeHtml s = escapeEach s.
Proof.
  induction s as [|c s IH]; [reflexivity|].
  cbn [escapeEach]. rewrite <- IH. unfold escapeHtml, entity.
  rewrite (replaceAll_cons "&" c).
  destruct (Ascii.eqb_spec c "&") as [-> | Hamp]; [reflexivity|].
  rewrite (replaceAll_cons "<" c).
  destruct (Ascii.eqb_spec c "<") as [-> | Hlt]; [reflexivity|].
  rewrite (replaceAll_cons ">" c).
  destruct (Ascii.eqb_spec c ">") as [-> | Hgt]; [reflexivity|].
  rewrite (replaceAll_cons JSON.dquote c).
  destruct (Ascii.eqb_spec c JSON.dquote) as [-> | Hq]; [reflexivity|].
  rewrite (replaceAll_cons "'" c).
  destruct (Ascii.eqb_spec c "'") as [-> | Hap]; reflexivity.
Qed.

Lemma occurs_append (p : ascii -> bool) (s t : string) :
  occurs p (String.append s t) = occurs p s || occurs p t.
Proof.
  induction s as [|a s IH]; [reflexivity|].
  rewrite append_cons. cbn [occurs]. rewrite IH. apply orb_assoc.
Qed.

Lemma entity_no_markup (c : ascii) : occurs isMarkup (entity c) = false.
Proof.
  unfold entity.
  destruct (Ascii.eqb_spec c "&"); [reflexivity|].
  destruct (Ascii.eqb c "<") eqn:Hlt; [reflexivity|].
  destruct (Ascii.eqb c ">") eqn:Hgt; [reflexivity|].
  destruct (Ascii.eqb c JSON.dquote) eqn:Hq; [reflexivity|].
  destruct (Ascii.eqb c "'") eqn:Hap; [reflexivity|].
  cbn [occurs]. unfold isMarkup. rewrite Hlt, Hgt, Hq, Hap. reflexivity.
Qed.

Lemma entity_plain (c : ascii) : isSpecial c = false -> entity c = String c EmptyString.
Proof.
  unfold isSpecial, isMarkup, entity.
  destruct (Ascii.eqb c "&"); [discriminate|].
  destruct (Ascii.eqb c "<"); [discriminate|].
  destruct (Ascii.eqb c ">"); [discriminate|].
  destruct (Ascii.eqb c JSON.dquote); [discriminate|].
  destruct (Ascii.eqb c "'"); [discriminate|]. reflexivity.
Qed.

Lemma entity_special_longer (c : ascii) :
  isSpecial c = true -> 4 <= String.length (entity c).
Proof.
  unfold isSpecial, isMarkup, entity.
  destruct (Ascii.eqb c "&"); [cbn; lia|].
  destruct (Ascii.eqb c "<"); [cbn; lia|].
  destruct (Ascii.eqb c ">"); [cbn; lia|].
  destruct (Ascii.eqb c JSON.dquote); [cbn; lia|].
  destruct (Ascii.eqb c "'"); [cbn; lia|]. discriminate.
Qed.

Lemma length_append (s t : string) :
  String.length (String.append s t) = String.length s + String.length t.
Proof.
  induction s as [|a s IH]; [reflexivity|].
  rewrite append_cons. cbn [String.length]. rewrite IH. reflexivity.
Qed.

Lemma length_escapeEach (s : string) : String.length s <= String.length (escapeEach s).
Proof.
  induction s as [|c s IH]; [reflexivity|].
  cbn [escapeEach]. rewrite length_append. cbn [String.length].
  assert (1 <= String.length (entity c)).
  { destruct (isSpecial c) eqn:E.
    - pose proof (entity_special_longer c E). lia.
    - rewrite (entity_plain c E). cbn. lia. }
  lia.
Qed.

Lemma escapeEach_no_markup (s : string) : occurs isMarkup (escapeEach s) = false.
Proof.
  induction s as [|c s IH]; [reflexivity|].
  cbn [escapeEach]. rewrite occurs_append, entity_no_markup, IH. reflexivity.
Qed.

Lemma escapeEach_plain (s : string) : occurs isSpecial s = false -> escapeEach s = s.
Proof.
  induction s as [|c s IH]; [reflexivity|].
  cbn [occurs escapeEach]. intros H. apply orb_false_iff in H as [Hc Hs].
  rewrite (entity_plain c Hc), (IH Hs). reflexivity.
Qed.

Lemma escapeEach_special_grows (s : string) :
  occurs isSpecial s = true -> String.length s < String.length (escapeEach s).
Proof.
  induction s as [|c s IH]; [discriminate|].
  cbn [occurs escapeEach]. rewrite length_append. cbn [String.length].
  pose proof (length_escapeEach s) as Hs.
  destruct (isSpecial c) eqn:Hc.
  - intros _. pose proof (entity_special_longer c Hc). lia.
  - cbn [orb]. intros H. rewrite (entity_plain c Hc). cbn [String.length].
    specialize (IH H). lia.
Qed.

(** X10.  The five replacements of [escapeHtml], made one after the
    other, come to replacing each character of the text once: the
    ampersand of an entity written by one replacement is never escaped
    again by a later one. *)
Theorem X10_escapeHtml_escapes_each_character_once (s : string) :
  escapeHtml s = escapeEach s.
Proof. apply escapeHtml_escapeEach. Qed.

(** X11.  What [escapeHtml] returns holds none of the characters that
    open or close a tag or an attribute value ([<], [>], the double and
    the single quote), whatever the text; and it returns the text itself
    exactly when the text has none of them and no ampersand. *)
Theorem X11_escapeHtml_leaves_no_markup (s : string) :
  occurs isMarkup (escapeHtml s) = false
  /\ (escapeHtml s = s <-> occurs isSpecial s = false).
Proof.
  rewrite escapeHtml_escapeEach. split; [apply escapeEach_no_markup|]. split.
  - intros Heq. destruct (occurs isSpecial s) eqn:E; [|reflexivity].
    pose proof (escapeEach_special_grows s E) as Hlt. rewrite Heq in Hlt. lia.
  - apply escapeEach_plain.
Qed.

Lemma entity_head (c : ascii) :
  exists r, entity c = String (if isSpecial c then "&"%char else c) r
            /\ (isSpecial c = false -> r = EmptyString).
Proof.
  unfold isSpecial, isMarkup, entity.
  destruct (Ascii.eqb c "&"); [eexists; split; [reflexivity | discriminate]|].
  destruct (Ascii.eqb c "<"); [eexists; split; [reflexivity | discriminate]|].
  destruct (Ascii.eqb c ">"); [eexists; split; [reflexivity | discriminate]|].
  destruct (Ascii.eqb c JSON.dquote); [eexists; split; [reflexivity | discriminate]|].
  destruct (Ascii.eqb c "'"); eexists; split; try reflexivity; discriminate.
Qed.

(** One step of reading an escaped text back: the entities end with a
    semicolon at different places or differ before it, so the first
    character of the text is determined. *)
Lemma entity_append_inj (a b : ascii) (x y : string) :
  String.append (entity a) x = String.append (entity b) y -> a = b /\ x = y.
Proof.
  unfold entity.
  destruct (Ascii.eqb_spec a "&") as [-> | Ha1];
    [| destruct (Ascii.eqb_spec a "<") as [-> | Ha2];
       [| destruct (Ascii.eqb_spec a ">") as [-> | Ha3];
          [| destruct (Ascii.eqb_spec a JSON.dquote) as [-> | Ha4];
             [| destruct (Ascii.eqb_spec a "'") as [-> | Ha5]]]]];
    (destruct (Ascii.eqb_spec b "&") as [-> | Hb1];
     [| destruct (Ascii.eqb_spec b "<") as [-> | Hb2];
        [| destruct (Ascii.eqb_spec b ">") as [-> | Hb3];
           [| destruct (Ascii.eqb_spec b JSON.dquote) as [-> | Hb4];
              [| destruct (Ascii.eqb_spec b "'") as [-> | Hb5]]]]]);
    intros H; repeat rewrite append_cons in H; repeat rewrite append_empty_l in H;
    try discriminate H;
    try (injection H; intros; subst; split; reflexivity);
    try (injection H; intros; subst; congruence).
Qed.

(** X12.  [escapeHtml] loses nothing: two different texts never escape
    to the same markup. *)
Theorem X12_escapeHtml_injective (s t : string) :
  escapeHtml s = escapeHtml t -> s = t.
Proof.
  rewrite !escapeHtml_escapeEach. revert t.
  induction s as [|a s IH]; intros [|b t]; cbn [escapeEach].
  - reflexivity.
  - destruct (entity_head b) as (r & -> & _). discriminate.
  - destruct (entity_head a) as (r & -> & _). discriminate.
  - intros H. apply entity_append_inj in H as [-> H]. f_equal. apply IH, H.
Qed.

Lemma X12_escapeHtml_injective_witness :
  String.append "a<b" "" = "a<b".
Proof.
  apply (X12_escapeHtml_injective (String.append "a<b" "") "a<b"). reflexivity.
Defined.

End EscapeHtml.

(** ** The theme, and what the storage keys keep apart *)

Section ThemeAndKeys.
Import JsString LocalStorage.

Lemma setItem_other_key (ls ls' : Storage) (key value k : string) :
  setItem ls key value = Some ls' -> k <> key -> getItem ls' k = getItem ls k.
Proof.
  unfold setItem, getItem. destruct (accepts ls key value); [|discriminate].
  intros [= <-] Hk. cbn [items]. apply lookup_insert_ne. congruence.
Qed.

(** X13.  The theme round trip: [loadTheme] never returns the empty
    string; after a [saveTheme] that is accepted it returns the theme
    saved, unless that was the empty string, which reads back as 'light';
    and after a [toggleTheme] that is accepted it returns the theme just
    applied. *)
Theorem X13_theme_round_trip :
  (forall ls, Theme.loadTheme ls <> "")
  /\ (forall theme ls ls',
         Theme.saveTheme theme ls = Some ls' ->
         Theme.loadTheme ls' = if truthy theme then theme else "light")
  /\ (forall current ls ls' applied,
         Theme.toggleTheme current ls = (applied, Some ls') ->
         Theme.loadTheme ls' = applied).
Proof.
  assert (Hsave : forall theme ls ls',
             Theme.saveTheme theme ls = Some ls' ->
             Theme.loadTheme ls' = if truthy theme then theme else "light").
  { intros theme ls ls' H. unfold Theme.saveTheme in H.
    apply getItem_setItem in H. unfold Theme.loadTheme. rewrite H. reflexivity. }
  split; [|split; [exact Hsave|]].
  - intros ls. unfold Theme.loadTheme.
    destruct (getItem ls Theme.storageKey) as [[|c r]|]; discriminate.
  - intros current ls ls' applied. unfold Theme.toggleTheme, Theme.applyTheme.
    intros [= <- H]. rewrite (Hsave _ _ _ H).
    destruct (String.eqb current "light"); reflexivity.
Qed.

Lemma X13_theme_round_trip_witness :
  Theme.loadTheme
    (mkStorage (<[Theme.storageKey := "dark"]> (items Samples.emptyStorage)) 5000000)
  = "dark".
Proof.
  apply (proj1 (proj2 X13_theme_round_trip) "dark" Samples.emptyStorage).
  vm_compute. reflexivity.
Defined.

(** X14.  [toggleTheme] switches 'light' to 'dark' and every other theme,
    'dark' or not, to 'light'; so two toggles give back the theme
    exactly when it was 'light' or 'dark'. *)
Theorem X14_toggleTheme (current : string) (ls ls' : Storage) :
  let once := fst (Theme.toggleTheme current ls) in
  let twice := fst (Theme.toggleTheme once ls') in
  (once = "dark" <-> current = "light")
  /\ (once = "light" <-> current <> "light")
  /\ (twice = current <-> current = "light" \/ current = "dark").
Proof.
  cbn. destruct (String.eqb_spec current "light") as [-> | Hne].
  - cbn. split; [split; reflexivity|].
    split; [split; [discriminate | intros H; destruct (H eq_refl)]|].
    split; [left; reflexivity | reflexivity].
  - cbn. split; [split; [discriminate | intros H; destruct (Hne H)]|].
    split; [split; [intros _; exact Hne | reflexivity]|].
    split; [intros <-; right; reflexivity|].
    intros [H | H]; [destruct (Hne H) | symmetry; exact H].
Qed.

Lemma pro_saveTasks_other_keys (app : FlowTaskPro.State) (k : string) :
  k <> FlowTaskPro.storageKey ->
  getItem (FlowTaskPro.localStorage (FlowTaskPro.saveTasks app)) k
  = getItem (FlowTaskPro.localStorage app) k.
Proof.
  intros Hk. unfold FlowTaskPro.saveTasks.
  destruct (setItem _ _ _) as [ls|] eqn:Hset; [|reflexivity].
  cbn. apply (setItem_other_key _ _ _ _ _ Hset Hk).
Qed.

Lemma pro_renderTasks_localStorage dateValue (app : FlowTaskPro.State) :
  FlowTaskPro.localStorage (FlowTaskPro.renderTasks dateValue app)
  = FlowTaskPro.localStorage app.
Proof.
  unfold FlowTaskPro.renderTasks, FlowTaskPro.projection, FlowTaskPro.sortTasks,
    FlowTaskPro.sortInPlace.
  repeat match goal with
         | |- context [if ?b then _ else _] => destruct b
         | |- context [match ?r with FlowTaskPro.TasksArray => _ | _ => _ end] =>
             destruct r
         end; reflexivity.
Qed.

Lemma pro_render_localStorage dateValue (app : FlowTaskPro.State) :
  FlowTaskPro.localStorage (FlowTaskPro.render dateValue app)
  = FlowTaskPro.localStorage app.
Proof.
  unfold FlowTaskPro.render, FlowTaskPro.renderDashboard.
  destruct (String.eqb _ _); [reflexivity | apply pro_renderTasks_localStorage].
Qed.

Lemma pro_perform_other_keys dateValue (app : FlowTaskPro.State)
  (op : FlowTaskPro.Operation) (k : string) :
  k <> FlowTaskPro.storageKey ->
  getItem (FlowTaskPro.localStorage (FlowTaskPro.perform dateValue app op)) k
  = getItem (FlowTaskPro.localStorage app) k.
Proof.
  intros Hk. destruct op as [input p d j now iso | i | i | v |];
    cbn [FlowTaskPro.perform].
  - unfold FlowTaskPro.addTask.
    destruct (FlowTaskPro_validateTask_cases input app) as [[_ ->] | [_ ->]];
      [reflexivity|].
    cbn [negb snd]. unfold FlowTaskPro.showNotification, FlowTaskPro.emit.
    cbn [FlowTaskPro.localStorage]. rewrite pro_render_localStorage.
    rewrite pro_saveTasks_other_keys by exact Hk. reflexivity.
  - unfold FlowTaskPro.toggleTask. destruct (findIndex _ _); [|reflexivity].
    cbn [snd]. rewrite pro_render_localStorage.
    rewrite pro_saveTasks_other_keys by exact Hk. reflexivity.
  - unfold FlowTaskPro.deleteTask. cbn [snd].
    unfold FlowTaskPro.showNotification, FlowTaskPro.emit.
    cbn [FlowTaskPro.localStorage]. rewrite pro_render_localStorage.
    rewrite pro_saveTasks_other_keys by exact Hk. reflexivity.
  - reflexivity.
  - rewrite pro_renderTasks_localStorage. reflexivity.
Qed.

Lemma perform_other_keys (app : TaskManager.State) (op : TaskManager.Operation)
  (k : string) :
  k <> TaskManager.storageKey ->
  getItem (TaskManager.localStorage (TaskManager.perform app op)) k
  = getItem (TaskManager.localStorage app) k.
Proof.
  intros Hk.
  destruct (perform_shape app op) as [[_ ->] | (mid & pre & _ & Hs & _ & -> & _)];
    [reflexivity|].
  destruct (saveTasks_cases mid) as [(_ & Hother & _) | [-> _]].
  - rewrite (Hother k Hk), Hs. reflexivity.
  - rewrite Hs. reflexivity.
Qed.

(** X15.  Each part of the applications keeps to its own storage key: no
    operation of FlowTask changes what FlowTask Pro loads or the theme, no
    operation of FlowTask Pro changes what FlowTask loads or the theme, and
    saving the theme changes what neither of them loads. *)
Theorem X15_storage_keys_are_kept_apart :
  (forall app op iso1 iso2 tomorrow,
      FlowTaskPro.loadTasks iso1 iso2 tomorrow
        (TaskManager.localStorage (TaskManager.perform app op))
      = FlowTaskPro.loadTasks iso1 iso2 tomorrow (TaskManager.localStorage app)
      /\ Theme.loadTheme (TaskManager.localStorage (TaskManager.perform app op))
         = Theme.loadTheme (TaskManager.localStorage app))
  /\ (forall dateValue app op,
      TaskManager.loadTasks
        (FlowTaskPro.localStorage (FlowTaskPro.perform dateValue app op))
      = TaskManager.loadTasks (FlowTaskPro.localStorage app)
      /\ Theme.loadTheme
           (FlowTaskPro.localStorage (FlowTaskPro.perform dateValue app op))
         = Theme.loadTheme (FlowTaskPro.localStorage app))
  /\ (forall theme ls ls' iso1 iso2 tomorrow,
      Theme.saveTheme theme ls = Some ls' ->
      TaskManager.loadTasks ls' = TaskManager.loadTasks ls
      /\ FlowTaskPro.loadTasks iso1 iso2 tomorrow ls'
         = FlowTaskPro.loadTasks iso1 iso2 tomorrow ls).
Proof.
  split; [|split].
  - intros app op iso1 iso2 tomorrow.
    unfold FlowTaskPro.loadTasks, Theme.loadTheme.
    rewrite !perform_other_keys by discriminate. split; reflexivity.
  - intros dateValue app op. unfold TaskManager.loadTasks, Theme.loadTheme.
    rewrite !pro_perform_other_keys by discriminate. split; reflexivity.
  - intros theme ls ls' iso1 iso2 tomorrow Hsave.
    unfold TaskManager.loadTasks, FlowTaskPro.loadTasks.
    rewrite !(setItem_other_key _ _ _ _ _ Hsave) by discriminate.
    split; reflexivity.
Qed.

Lemma X15_storage_keys_are_kept_apart_witness :
  TaskManager.loadTasks
    (mkStorage (<[Theme.storageKey := "dark"]> (items Samples.fullStorage)) 50)
  = JSON.VArray [].
Proof.
  apply (proj1 (proj2 (proj2 X15_storage_keys_are_kept_apart) "dark"
                  (mkStorage (items Samples.fullStorage) 50) _ "" "" "" eq_refl)).
Defined.

End ThemeAndKeys.

(** ** What FlowTask shows *)

Section TaskManagerShows.
Import JsString TaskManager TaskManagerView.

Lemma List_filter_nil {A : Type} (p : A -> bool) (l : list A) :
  List.filter p l = [] <-> Forall (fun x => p x = false) l.
Proof.
  induction l as [|x l IH]; cbn [List.filter]; [split; constructor|].
  destruct (p x) eqn:Hp.
  - split; [discriminate|]. intros H. inversion H; congruence.
  - rewrite IH. split; [intros H; constructor; assumption|].
    intros H. inversion H; assumption.
Qed.

Lemma render_cases (app : State) :
  (getFilteredTasks app = []
   /\ render app = EmptyState (emptyStateMessage (currentFilter app)))
  \/ (getFilteredTasks app <> []
      /\ render app = TaskElements (getFilteredTasks app)).
Proof.
  unfold render. destruct (getFilteredTasks app) as [|t l].
  - left. split; reflexivity.
  - right. split; [discriminate | reflexivity].
Qed.

Lemma length_filter_negb {A : Type} (p : A -> bool) (l : list A) :
  length (List.filter (fun x => negb (p x)) l) = length l - length (List.filter p l).
Proof.
  pose proof (Permutation_length (filter_partition p l)) as H.
  rewrite length_app in H. lia.
Qed.

(** X16.  The message of the empty state tells the truth about the
    collection: under the filter 'completed' it is shown exactly when no
    task is completed, under 'active' exactly when every task is completed
    (an empty collection included), and under any other filter exactly
    when there is no task at all; otherwise [render] shows the filtered
    tasks, of which there is at least one. *)
Theorem X16_empty_state_message (app : State) :
  (render app = EmptyState "No completed tasks yet!"
   <-> currentFilter app = "completed"
       /\ Forall (fun t => completed t = false) (tasks app))
  /\ (render app = EmptyState "All tasks are completed!"
      <-> currentFilter app = "active"
          /\ Forall (fun t => completed t = true) (tasks app))
  /\ (render app = EmptyState "Add your first task to get started!"
      <-> currentFilter app <> "completed" /\ currentFilter app <> "active"
          /\ tasks app = [])
  /\ (forall shown, render app = TaskElements shown ->
                    shown = getFilteredTasks app /\ shown <> []).
Proof.
  assert (Hneg : forall l : list Task,
             List.filter (fun task => negb (completed task)) l = []
             <-> Forall (fun t => completed t = true) l).
  { intros l. rewrite List_filter_nil. apply Forall_iff. intros t.
    destruct (completed t); cbn; split; congruence. }
  destruct (render_cases app) as [[Hnil ->] | [Hsome ->]].
  - unfold getFilteredTasks in Hnil. unfold emptyStateMessage.
    destruct (String.eqb_spec (currentFilter app) "active") as [Ha | Ha].
    + rewrite Ha. cbn [String.eqb Ascii.eqb Bool.eqb].
      apply Hneg in Hnil.
      split; [split; [discriminate | intros [? _]; discriminate]|].
      split; [split; [intros _; split; [reflexivity | exact Hnil] | reflexivity]|].
      split; [split; [discriminate | intros (_ & H & _); destruct (H eq_refl)]|].
      discriminate.
    + destruct (String.eqb_spec (currentFilter app) "completed") as [Hc | Hc].
      * apply List_filter_nil in Hnil.
        split; [split; [intros _; split; [exact Hc | exact Hnil] | reflexivity]|].
        split; [split; [discriminate | intros [H _]; destruct (Ha H)]|].
        split; [split; [discriminate | intros (H & _); destruct (H Hc)]|].
        discriminate.
      * split; [split; [discriminate | intros [H _]; destruct (Hc H)]|].
        split; [split; [discriminate | intros [H _]; destruct (Ha H)]|].
        split; [split; [intros _; repeat split; assumption | reflexivity]|].
        discriminate.
  - assert (Hfilter : forall m, TaskElements (getFilteredTasks app) = EmptyState m
                                <-> False) by (intros m; split; [discriminate | tauto]).
    unfold getFilteredTasks in Hsome.
    destruct (String.eqb_spec (currentFilter app) "active") as [Ha | Ha];
      [|destruct (String.eqb_spec (currentFilter app) "completed") as [Hc | Hc]].
    + rewrite !Hfilter. rewrite <- Hneg.
      split; [split; [tauto | intros [H _]; rewrite Ha in H; discriminate]|].
      split; [split; [tauto | intros [_ H]; exact (Hsome H)]|].
      split; [split; [tauto | intros (_ & H & _); exact (H Ha)]|].
      intros shown [= <-]. split; [reflexivity|].
      unfold getFilteredTasks. rewrite Ha. exact Hsome.
    + rewrite !Hfilter. rewrite <- List_filter_nil.
      split; [split; [tauto | intros [_ H]; exact (Hsome H)]|].
      split; [split; [tauto | intros [H _]; exact (Ha H)]|].
      split; [split; [tauto | intros (H & _); exact (H Hc)]|].
      intros shown [= <-]. split; [reflexivity|].
      unfold getFilteredTasks.
      destruct (String.eqb_spec (currentFilter app) "active") as [? | _];
        [contradiction|].
      rewrite Hc. exact Hsome.
    + rewrite !Hfilter.
      split; [split; [tauto | intros [H _]; exact (Hc H)]|].
      split; [split; [tauto | intros [H _]; exact (Ha H)]|].
      split; [split; [tauto | intros (_ & _ & H); exact (Hsome H)]|].
      intros shown [= <-]. split; [reflexivity|].
      unfold getFilteredTasks.
      destruct (String.eqb_spec (currentFilter app) "active") as [? | _];
        [contradiction|].
      destruct (String.eqb_spec (currentFilter app) "completed") as [? | _];
        [contradiction|].
      exact Hsome.
Qed.

Lemma X16_empty_state_message_witness :
  tasks Samples.twoTasks = getFilteredTasks Samples.twoTasks
  /\ tasks Samples.twoTasks <> [].
Proof.
  apply (proj2 (proj2 (proj2 (X16_empty_state_message Samples.twoTasks)))).
  reflexivity.
Defined.

(** X17.  The two counters of [updateStats] are the sizes of the views the
    filters 'active' and 'completed' show, whatever filter is selected;
    together they count every task once. *)
Theorem X17_counters_match_the_filtered_views (app : State) :
  let active := length (getFilteredTasks (setFilter "active" app)) in
  let done := length (getFilteredTasks (setFilter "completed" app)) in
  updateStats app
  = (String.append (pretty active) " active",
     String.append (pretty done) " completed")
  /\ active + done = length (tasks app)
  /\ forall f, updateStats (setFilter f app) = updateStats app.
Proof.
  cbn. unfold updateStats. rewrite length_filter_negb.
  split; [reflexivity|]. split; [|reflexivity].
  pose proof (Permutation_length (filter_partition (fun t => completed t) (tasks app))) as H.
  rewrite length_app, length_filter_negb in H. exact H.
Qed.

Lemma editTask_trimmed (i newText : string) (app : State) :
  editTask i (trim newText) app = editTask i newText app.
Proof. unfold editTask, validateTask. rewrite !trim_idempotent. reflexivity. Qed.

(** X18.  Finishing an edit in place: when the field holds only white
    space, or its trimmed content is the text shown before, nothing
    happens at all; otherwise the outcome is that of [editTask] on the
    content of the field.  So an edit in place never ends in the
    notification that a task cannot be empty, and never empties a text. *)
Theorem X18_saveEdit (taskId currentText value : string) (app : State) :
  let after := saveEdit taskId currentText value app in
  (trim value = "" \/ trim value = currentText -> after = app)
  /\ (trim value <> "" -> trim value <> currentText ->
      after = snd (editTask taskId value app))
  /\ after <> showNotification (validationMessage Empty) "error" app.
Proof.
  cbn zeta. unfold saveEdit.
  assert (Hsame : app <> showNotification (validationMessage Empty) "error" app).
  { intros H. apply (f_equal trace) in H. cbn in H.
    symmetry in H. exact (cons_neq_self _ _ H). }
  rewrite editTask_trimmed.
  destruct (trim value) as [|c r] eqn:Htrim.
  - cbn [truthy andb]. split; [reflexivity|]. split; [congruence | exact Hsame].
  - cbn [truthy andb]. destruct (String.eqb_spec (String c r) currentText) as [He | He].
    + cbn [negb]. split; [reflexivity|]. split; [congruence | exact Hsame].
    + cbn [negb]. split; [intros [? | ?]; congruence|]. split; [reflexivity|].
      unfold editTask.
      destruct (TaskManager_validateTask_cases value app)
        as [[Hempty _] | [[_ ->] | [_ ->]]]; [congruence | |].
      * cbn. intros H. apply (f_equal trace) in H. cbn in H. congruence.
      * cbn [negb]. destruct (findIndex _ _); [|exact Hsame].
        cbn [snd]. intros H. apply (f_equal trace) in H. cbn in H. congruence.
Qed.

Lemma X18_saveEdit_witness :
  saveEdit "1700000000000" "Buy milk" "  Buy oat milk " Samples.oneTask
  = snd (editTask "1700000000000" "  Buy oat milk " Samples.oneTask).
Proof.
  apply (proj1 (proj2 (X18_saveEdit "1700000000000" "Buy milk" "  Buy oat milk "
                         Samples.oneTask)));
    vm_compute; discriminate.
Defined.

End TaskManagerShows.

(** ** The two managers of the page *)

Section TwoManagers.
Import JsString TaskManager TaskManagerView Page.

Lemma addTask_empty_field (now : N) (iso : string) (app : State) :
  addTask "" now iso app
  = (Boolean false, showNotification (validationMessage Empty) "error" app).
Proof. reflexivity. Qed.

Lemma load_same_collection (ls : LocalStorage.Storage) (page : Page) :
  load ls = Some page ->
  its (second page) = its (first page)
  /\ taskInput page = "" /\ storage page = ls /\ effects page = [].
Proof.
  unfold load. destruct (new ls) as [a|]; [|discriminate].
  cbn. intros [= <-]. repeat split; reflexivity.
Qed.

Lemma clickAdd_valid (now1 : N) (iso1 : string) (now2 : N) (iso2 : string)
  (page : Page) :
  1 <= String.length (trim (taskInput page)) <= 100 ->
  let saved :=
    saveTasks
      (withTasks
         (mkTask (pretty now1) (trim (taskInput page)) false None None None iso1
            :: its (first page))
         (enter (first page) (storage page) (effects page))) in
  clickAdd now1 iso1 now2 iso2 page
  = mkPage
      (mkInstance
         (mkTask (pretty now1) (trim (taskInput page)) false None None None iso1
            :: its (first page))
         (filter (first page)))
      (mkInstance (its (second page)) (filter (second page)))
      ""
      (localStorage saved)
      (ShowNotification "Task cannot be empty" "error"
         :: ShowNotification "Task added successfully!" "success" :: trace saved).
Proof.
  intros Hlen saved. unfold clickAdd, handleAddTask.
  rewrite (TaskManager_addTask_valid _ now1 iso1 _ Hlen). fold saved.
  rewrite addTask_empty_field. unfold leave, showNotification, emit, enter.
  cbn [tasks currentFilter localStorage trace validationMessage].
  rewrite tasks_saveTasks. f_equal. f_equal.
  unfold saved, saveTasks. destruct (LocalStorage.setItem _ _ _); reflexivity.
Qed.

(** X19.  The page builds two managers, and both listen to the add
    button.  Adding a valid text on a page just loaded therefore puts the
    task into the first manager only, leaves the second manager, which is
    [window.taskManager], with the collection as loaded, clears the
    field, and ends with the notification that a task cannot be empty,
    which takes the place of the notification of success. *)
Theorem X19_two_managers_share_the_add_button
  (ls : LocalStorage.Storage) (page : Page) (text : string)
  (now1 : N) (iso1 : string) (now2 : N) (iso2 : string) :
  load ls = Some page ->
  1 <= String.length (trim text) <= 100 ->
  let after := clickAdd now1 iso1 now2 iso2 (typeText text page) in
  its (second page) = its (first page)
  /\ its (first after)
     = mkTask (pretty now1) (trim text) false None None None iso1 :: its (first page)
  /\ its (second after) = its (first page)
  /\ taskInput after = ""
  /\ hd_error (effects after) = Some (ShowNotification "Task cannot be empty" "error").
Proof.
  intros Hload Hlen after. destruct (load_same_collection _ _ Hload) as (Hsame & _).
  unfold after. rewrite clickAdd_valid by exact Hlen.
  cbn [first second its taskInput effects typeText hd_error].
  repeat split; try reflexivity; exact Hsame.
Qed.

Lemma X19_two_managers_share_the_add_button_witness :
  let page := mkPage (mkInstance [] "all") (mkInstance [] "all") ""
                Samples.emptyStorage [] in
  let after := clickAdd 1700000000000 "2023-11-14T22:13:20.000Z"
                 1700000000001 "2023-11-14T22:13:20.001Z"
                 (typeText "Buy milk" page) in
  its (second page) = its (first page)
  /\ its (first after) = [Samples.buyMilk]
  /\ its (second after) = its (first page)
  /\ taskInput after = ""
  /\ hd_error (effects after) = Some (ShowNotification "Task cannot be empty" "error").
Proof.
  apply (X19_two_managers_share_the_add_button Samples.emptyStorage
           (mkPage (mkInstance [] "all") (mkInstance [] "all") ""
              Samples.emptyStorage []) "Buy milk").
  - reflexivity.
  - vm_compute. lia.
Defined.

Lemma saveTasks_outcome (app : State) :
  (loadTasks (localStorage (saveTasks app)) = TaskJson.tasksValue (tasks app))
  \/ (exists payload, SetItem storageKey payload false ∈ trace (saveTasks app)).
Proof.
  destruct (saveTasks_cases app) as [(Hget & _ & _) | [_ Hrej]].
  - left. unfold loadTasks. rewrite Hget.
    rewrite stringify_truthy, parse_stringify_tasks. reflexivity.
  - right. eexists. rewrite Hrej. apply list_elem_of_further, list_elem_of_here.
Qed.

Lemma trace_saveTasks_grows (app : State) (e : Effect) :
  e ∈ trace app -> e ∈ trace (saveTasks app).
Proof.
  intros H. destruct (saveTasks_cases app) as [(_ & _ & ->) | [_ ->]];
    repeat apply list_elem_of_further; exact H.
Qed.

Lemma clickClear_shape (page : Page) :
  let mid :=
    withTasks (List.filter (fun task => negb (completed task)) (its (second page)))
      (enter (second page) (storage page) (effects page)) in
  storage (clickClear page) = localStorage (saveTasks mid)
  /\ (exists message,
         effects (clickClear page)
         = ShowNotification message "info" :: trace (saveTasks mid))
  /\ first (clickClear page) = first page.
Proof.
  intros mid. unfold clickClear, clearCompleted, showNotification, emit.
  cbn [snd first storage effects localStorage trace].
  split; [reflexivity|]. split; [eexists; reflexivity | reflexivity].
Qed.

(** X20.  The Clear Completed button belongs to the second manager.
    After a task is added on a page just loaded, storage holds the
    collection with the new task; a click on the button then stores the
    collection as it was loaded, less its completed tasks, while the
    first manager still holds the new task: on the next load the task
    that was added is gone.  (Both writes are taken to be accepted.) *)
Theorem X20_clear_button_stores_the_other_collection
  (ls : LocalStorage.Storage) (page : Page) (text : string)
  (now1 : N) (iso1 : string) (now2 : N) (iso2 : string) :
  load ls = Some page ->
  1 <= String.length (trim text) <= 100 ->
  let newTask := mkTask (pretty now1) (trim text) false None None None iso1 in
  let added := clickAdd now1 iso1 now2 iso2 (typeText text page) in
  let after := clickClear added in
  Forall (fun e => isRejectedWrite e = false) (effects after) ->
  loadTasks (storage added) = TaskJson.tasksValue (newTask :: its (first page))
  /\ loadTasks (storage after)
     = TaskJson.tasksValue
         (List.filter (fun task => negb (completed task)) (its (first page)))
  /\ its (first after) = newTask :: its (first page).
Proof.
  intros Hload Hlen newTask added after Hok.
  destruct (load_same_collection _ _ Hload) as (Hsame & _).
  assert (Hno : forall payload, SetItem storageKey payload false ∉ effects after).
  { intros payload Hin. rewrite Forall_forall in Hok.
    specialize (Hok _ Hin). discriminate. }
  clear Hok.
  pose proof (clickAdd_valid now1 iso1 now2 iso2 (typeText text page) Hlen) as Hadd.
  cbn zeta in Hadd. cbn [typeText first second its taskInput storage effects] in Hadd.
  fold newTask added in Hadd.
  destruct (clickClear_shape added) as (Hst & [message Heff] & Hfirst).
  fold after in Hst, Heff, Hfirst.
  rewrite Hfirst. rewrite Hst. rewrite Heff in Hno. rewrite Hadd in *.
  cbn [first second its storage effects] in *.
  split; [|split; [|reflexivity]].
  - match goal with
    | |- loadTasks (localStorage (saveTasks ?m)) = _ =>
        destruct (saveTasks_outcome m) as [H | [payload H]]; [exact H|]
    end.
    exfalso. apply (Hno payload). apply list_elem_of_further.
    apply trace_saveTasks_grows. unfold withTasks at 1, enter at 1. cbn [trace].
    apply list_elem_of_further, list_elem_of_further. exact H.
  - match goal with
    | |- loadTasks (localStorage (saveTasks ?m)) = _ =>
        destruct (saveTasks_outcome m) as [H | [payload H]]
    end.
    + rewrite H. unfold withTasks at 1. cbn [tasks]. rewrite Hsame. reflexivity.
    + exfalso. apply (Hno payload). apply list_elem_of_further. exact H.
Qed.

Lemma X20_clear_button_stores_the_other_collection_witness :
  let page := mkPage (mkInstance [] "all") (mkInstance [] "all") ""
                Samples.emptyStorage [] in
  let added := clickAdd 1700000000000 "2023-11-14T22:13:20.000Z"
                 1700000000001 "2023-11-14T22:13:20.001Z"
                 (typeText "Buy milk" page) in
  loadTasks (storage added) = TaskJson.tasksValue [Samples.buyMilk]
  /\ loadTasks (storage (clickClear added)) = TaskJson.tasksValue []
  /\ its (first (clickClear added)) = [Samples.buyMilk].
Proof.
  apply (X20_clear_button_stores_the_other_collection Samples.emptyStorage
           (mkPage (mkInstance [] "all") (mkInstance [] "all") ""
              Samples.emptyStorage []) "Buy milk"
           1700000000000%N "2023-11-14T22:13:20.000Z"
           1700000000001%N "2023-11-14T22:13:20.001Z").
  - reflexivity.
  - vm_compute. lia.
  - vm_compute. repeat constructor.
Defined.

End TwoManagers.

(** ** What FlowTask Pro shows, and what it keeps *)

Section FlowTaskProShows.
Import JsString FlowTaskPro FlowTaskProView.
Variable dateValue : string -> option Z.

Lemma renderTasks_withTasks (app : State) :
  renderTasks dateValue app = withTasks (tasks (renderTasks dateValue app)) app.
Proof.
  unfold renderTasks, projection, sortTasks, sortInPlace.
  repeat match goal with
         | |- context [if ?b then _ else _] => destruct b
         | |- context [match ?r with TasksArray => _ | _ => _ end] => destruct r
         end; destruct app; reflexivity.
Qed.

Lemma render_withTasks (app : State) :
  render dateValue app = withTasks (tasks (render dateValue app)) app.
Proof.
  unfold render, renderDashboard. destruct (String.eqb _ _);
    [destruct app; reflexivity | apply renderTasks_withTasks].
Qed.

Lemma sortTasks_unsorted (r : ArrayRef) (app : State) :
  currentSort app <> "newest" -> currentSort app <> "oldest" ->
  currentSort app <> "priority" ->
  sortTasks dateValue r app = (r, app).
Proof.
  intros Hn Ho Hp. unfold sortTasks.
  destruct (String.eqb_spec (currentSort app) "newest"); [congruence|].
  destruct (String.eqb_spec (currentSort app) "oldest"); [congruence|].
  destruct (String.eqb_spec (currentSort app) "priority"); [congruence|].
  reflexivity.
Qed.

(** X21.  However [renderTasks] sorts, it changes nothing of the state
    but the order of the collection: the same tasks are there, nothing is
    written and nothing is notified.  With one of the filters 'active',
    'completed' or 'high', or with a sort key other than 'newest',
    'oldest' and 'priority', it leaves the state exactly as it was. *)
Theorem X21_renderTasks_only_reorders (app : State) :
  let after := renderTasks dateValue app in
  after = withTasks (tasks after) app
  /\ Permutation (tasks after) (tasks app)
  /\ (currentFilter app = "active" \/ currentFilter app = "completed"
      \/ currentFilter app = "high" -> after = app)
  /\ (currentSort app <> "newest" -> currentSort app <> "oldest" ->
      currentSort app <> "priority" -> after = app).
Proof.
  cbn zeta. split; [apply renderTasks_withTasks|].
  split; [apply renderTasks_permutation|]. split.
  - intros H. exact (proj1 (projection_filtered_is_fresh dateValue app H)).
  - intros Hn Ho Hp. unfold renderTasks, projection.
    rewrite sortTasks_unsorted by assumption. reflexivity.
Qed.

Lemma pro_addTask_valid text p d j now iso (app : State) :
  trim text <> "" ->
  addTask dateValue text p d j now iso app
  = (Boolean true,
     showNotification "Task added successfully!" "success"
       (render dateValue
          (saveTasks
             (withTasks
                (mkTask (pretty now) (trim text) false (Some (default medium p))
                   (Some (default None d)) (Some (default "Inbox" j)) iso
                   :: tasks app) app)))).
Proof.
  intros Hne. unfold addTask.
  destruct (FlowTaskPro_validateTask_cases text app) as [[He _] | [_ ->]];
    [congruence | reflexivity].
Qed.

Lemma currentView_saveTasks (app : State) :
  currentView (saveTasks app) = currentView app.
Proof. unfold saveTasks. destruct (LocalStorage.setItem _ _ _); reflexivity. Qed.

(** X22.  On the dashboard, the view the application starts on, adding
    keeps the order: any text that is not blank, of whatever length, is
    accepted; the new task, with the defaults 'medium', no due date and
    'Inbox' for what was left out, goes in front of the collection as it
    was; and it is the first of the recent tasks, followed by the first
    four of before. *)
Theorem X22_dashboard_add (text : string) (p : option Priority)
  (d : option (option string)) (j : option string) (now : N) (iso : string)
  (app : State) :
  currentView app = "dashboard" ->
  trim text <> "" ->
  let newTask :=
    mkTask (pretty now) (trim text) false (Some (default medium p))
      (Some (default None d)) (Some (default "Inbox" j)) iso in
  let outcome := addTask dateValue text p d j now iso app in
  fst outcome = Boolean true
  /\ tasks (snd outcome) = newTask :: tasks app
  /\ recentTasks (snd outcome) = newTask :: firstn 4 (tasks app).
Proof.
  intros Hview Hne newTask outcome. unfold outcome.
  rewrite pro_addTask_valid by exact Hne. fold newTask. cbn [fst snd].
  assert (Htasks : tasks (showNotification "Task added successfully!" "success"
                            (render dateValue
                               (saveTasks (withTasks (newTask :: tasks app) app))))
                   = newTask :: tasks app).
  { unfold showNotification, emit. cbn [tasks]. unfold render.
    rewrite currentView_saveTasks. cbn [withTasks currentView]. rewrite Hview.
    cbn [String.eqb Ascii.eqb Bool.eqb]. unfold renderDashboard.
    rewrite pro_tasks_saveTasks. reflexivity. }
  split; [reflexivity|]. split; [exact Htasks|].
  unfold recentTasks. rewrite Htasks. reflexivity.
Qed.

Lemma trace_saveTasks_head (app : State) :
  exists written, trace (saveTasks app) = written ++ trace app.
Proof.
  unfold saveTasks. destruct (LocalStorage.setItem _ _ _).
  - eexists [_]. reflexivity.
  - eexists [_; _]. reflexivity.
Qed.


End FlowTaskProShows.

Lemma X21_renderTasks_only_reorders_witness :
  FlowTaskPro.renderTasks JsDate.timeValue
    (Samples.pro "active" "priority" [Samples.report; Samples.release; Samples.review])
  = Samples.pro "active" "priority" [Samples.report; Samples.release; Samples.review].
Proof.
  apply (proj1 (proj2 (proj2 (X21_renderTasks_only_reorders JsDate.timeValue
           (Samples.pro "active" "priority"
              [Samples.report; Samples.release; Samples.review]))))).
  left. reflexivity.
Defined.

Lemma X22_dashboard_add_witness :
  let app := FlowTaskPro.mkState [Samples.release] "dashboard" "all" "newest"
               Samples.emptyStorage [] in
  let outcome :=
    FlowTaskPro.addTask JsDate.timeValue " Write report " (Some low) None None 1700000001000
      "2023-11-14T22:13:21.000Z" app in
  fst outcome = Boolean true
  /\ FlowTaskPro.tasks (snd outcome) = [Samples.report; Samples.release]
  /\ FlowTaskProView.recentTasks (snd outcome) = [Samples.report; Samples.release].
Proof.
  apply (X22_dashboard_add JsDate.timeValue " Write report " (Some low) None None
           1700000001000%N
           "2023-11-14T22:13:21.000Z"
           (FlowTaskPro.mkState [Samples.release] "dashboard" "all" "newest"
              Samples.emptyStorage [])).
  - reflexivity.
  - vm_compute. discriminate.
Defined.


(** ** FlowTask Pro: sorting again, and what is stored *)

Section FlowTaskProKeeps.
Import JsString FlowTaskPro FlowTaskProView.
Variable dateValue : string -> option Z.

Lemma sort_of_sorted {A : Type} (comparefn : A -> A -> option Z)
  (key : A -> Z) (keyed : A -> Prop) (l : list A) :
  (forall a b, keyed a -> keyed b -> comparefn a b = Some (key a - key b)%Z) ->
  Forall keyed l ->
  StronglySorted (JsArray.ascendingBy key) l ->
  JsArray.sort comparefn l = l.
Proof.
  intros Hcmp. induction l as [|x r IH]; intros Hl Hs; [reflexivity|].
  apply Forall_cons in Hl as [Hx Hl]. apply StronglySorted_inv in Hs as [Hs Hle].
  cbn [JsArray.sort]. rewrite (IH Hl Hs).
  destruct r as [|y r]; [reflexivity|]. cbn [JsArray.insert].
  apply Forall_cons in Hl as [Hy _]. apply Forall_cons in Hle as [Hxy _].
  unfold JsArray.sortCompare. rewrite (Hcmp x y Hx Hy).
  unfold JsArray.ascendingBy in Hxy.
  destruct (Z.ltb_spec 0 (key x - key y)); [lia | reflexivity].
Qed.

Lemma sort_sort {A : Type} (comparefn : A -> A -> option Z)
  (key : A -> Z) (keyed : A -> Prop) (l : list A) :
  (forall a b, keyed a -> keyed b -> comparefn a b = Some (key a - key b)%Z) ->
  Forall keyed l ->
  JsArray.sort comparefn (JsArray.sort comparefn l) = JsArray.sort comparefn l.
Proof.
  intros Hcmp Hl. apply (sort_of_sorted comparefn key keyed); [exact Hcmp | |].
  - apply (sort_keyed comparefn), Hl.
  - exact (sort_sorted comparefn key keyed Hcmp l Hl).
Qed.

Lemma renderTasks_store (app : State) :
  currentFilter app <> "active" -> currentFilter app <> "completed" ->
  currentFilter app <> "high" ->
  renderTasks dateValue app = snd (sortTasks dateValue TasksArray app).
Proof.
  intros Ha Hc Hh. unfold renderTasks, projection, getFilteredTasks.
  destruct (String.eqb_spec (currentFilter app) "active"); [congruence|].
  destruct (String.eqb_spec (currentFilter app) "completed"); [congruence|].
  destruct (String.eqb_spec (currentFilter app) "high"); [congruence|].
  reflexivity.
Qed.

Lemma sortTasks_store_twice (app : State) :
  Forall hasPriority (tasks app) ->
  Forall (hasDate dateValue) (tasks app) ->
  snd (sortTasks dateValue TasksArray (snd (sortTasks dateValue TasksArray app)))
  = snd (sortTasks dateValue TasksArray app).
Proof.
  intros Hp Hd. unfold sortTasks.
  destruct (String.eqb (currentSort app) "newest") eqn:E1;
    [|destruct (String.eqb (currentSort app) "oldest") eqn:E2;
      [|destruct (String.eqb (currentSort app) "priority") eqn:E3]];
    cbn [sortInPlace snd withTasks currentSort]; rewrite ?E1, ?E2, ?E3;
    cbn [sortInPlace snd withTasks currentSort currentView currentFilter
           localStorage trace tasks]; [| | |reflexivity].
  - rewrite (sort_sort _ (fun t => (- createdTime dateValue t)%Z) (hasDate dateValue));
      [reflexivity | | exact Hd].
    intros a b Ha Hb.
    rewrite (createdTime_of_date dateValue a Ha), (createdTime_of_date dateValue b Hb).
    cbn. f_equal. lia.
  - rewrite (sort_sort _ (createdTime dateValue) (hasDate dateValue));
      [reflexivity | | exact Hd].
    intros a b Ha Hb.
    rewrite (createdTime_of_date dateValue a Ha), (createdTime_of_date dateValue b Hb).
    reflexivity.
  - rewrite (sort_sort _ (fun t => (- rank t)%Z) hasPriority);
      [reflexivity | | exact Hp].
    intros a b Ha Hb. rewrite (rank_of_priority a Ha), (rank_of_priority b Hb).
    cbn. f_equal. lia.
Qed.

(** X24.  Rendering the task list a second time changes nothing more:
    when every task has a priority and a valid creation date, the order
    [renderTasks] leaves is one it keeps, whatever the filter and the sort
    key. *)
Theorem X24_renderTasks_twice (app : State) :
  Forall hasPriority (tasks app) ->
  Forall (hasDate dateValue) (tasks app) ->
  renderTasks dateValue (renderTasks dateValue app) = renderTasks dateValue app.
Proof.
  intros Hp Hd.
  destruct (String.eqb_spec (currentFilter app) "active") as [Ha | Ha];
    [|destruct (String.eqb_spec (currentFilter app) "completed") as [Hc | Hc];
      [|destruct (String.eqb_spec (currentFilter app) "high") as [Hh | Hh]]].
  - pose proof (proj1 (projection_filtered_is_fresh dateValue app (or_introl Ha)))
      as H.
    fold (renderTasks dateValue app) in H. rewrite !H. reflexivity.
  - pose proof (proj1 (projection_filtered_is_fresh dateValue app
                         (or_intror (or_introl Hc)))) as H.
    fold (renderTasks dateValue app) in H. rewrite !H. reflexivity.
  - pose proof (proj1 (projection_filtered_is_fresh dateValue app
                         (or_intror (or_intror Hh)))) as H.
    fold (renderTasks dateValue app) in H. rewrite !H. reflexivity.
  - rewrite (renderTasks_store app Ha Hc Hh).
    rewrite renderTasks_store.
    + apply sortTasks_store_twice; assumption.
    + rewrite <- (renderTasks_store app Ha Hc Hh), renderTasks_withTasks. exact Ha.
    + rewrite <- (renderTasks_store app Ha Hc Hh), renderTasks_withTasks. exact Hc.
    + rewrite <- (renderTasks_store app Ha Hc Hh), renderTasks_withTasks. exact Hh.
Qed.

Lemma pro_saveTasks_cases (app : State) :
  let payload := JSON.stringify (TaskJson.tasksValue (tasks app)) in
  LocalStorage.getItem (localStorage (saveTasks app)) storageKey = Some payload
  \/ trace (saveTasks app)
     = ShowNotification "Error saving tasks" "error"
         :: SetItem storageKey payload false :: trace app.
Proof.
  intros payload. unfold saveTasks. fold payload.
  destruct (LocalStorage.setItem (localStorage app) storageKey payload) as [ls|] eqn:Hset.
  - left. exact (getItem_setItem _ _ _ _ Hset).
  - right. reflexivity.
Qed.

Lemma render_after_save (mid : State) (pre : list Effect) (after : State) :
  tasks after = tasks (render dateValue (saveTasks mid)) ->
  localStorage after = localStorage (render dateValue (saveTasks mid)) ->
  trace after = pre ++ trace (render dateValue (saveTasks mid)) ->
  Permutation (tasks after) (tasks mid)
  /\ localStorage after = localStorage (saveTasks mid)
  /\ trace after = pre ++ trace (saveTasks mid).
Proof.
  intros Ht Hl Htr. rewrite Ht, Hl, Htr.
  rewrite render_permutation, pro_tasks_saveTasks.
  rewrite (render_withTasks dateValue (saveTasks mid)).
  repeat split; reflexivity.
Qed.

(** Every operation either writes nothing and at most reorders the
    collection, or ends in one [saveTasks] of an arrangement of the
    collection it leaves. *)
Lemma pro_perform_shape (app : State) (op : Operation) :
  (Permutation (tasks (perform dateValue app op)) (tasks app)
   /\ localStorage (perform dateValue app op) = localStorage app)
  \/ exists mid pre,
      Permutation (tasks (perform dateValue app op)) (tasks mid)
      /\ trace mid = trace app
      /\ localStorage (perform dateValue app op) = localStorage (saveTasks mid)
      /\ trace (perform dateValue app op) = pre ++ trace (saveTasks mid).
Proof.
  destruct op as [input p d j now iso | i | i | v |]; cbn [perform].
  - destruct (FlowTaskPro_validateTask_cases input app) as [[_ Hv] | [Hne _]].
    + left. unfold addTask. rewrite Hv. split; reflexivity.
    + right. rewrite (pro_addTask_valid dateValue _ p d j now iso app Hne).
      cbn [snd]. eexists (withTasks _ app), [_].
      split; [|split; [reflexivity|]];
        eapply (render_after_save _ [_]); reflexivity.
  - unfold toggleTask. destruct (findIndex _ _) as [k|].
    + right. cbn [snd]. eexists (withTasks _ app), [].
      split; [|split; [reflexivity|]];
        eapply (render_after_save _ []); reflexivity.
    + left. split; reflexivity.
  - right. unfold deleteTask. cbn [snd]. eexists (withTasks _ app), [_].
    split; [|split; [reflexivity|]];
      eapply (render_after_save _ [_]); reflexivity.
  - left. split; reflexivity.
  - left. split; [apply renderTasks_permutation|].
    rewrite renderTasks_withTasks. reflexivity.
Qed.

(** X25.  In FlowTask Pro memory and storage stay in step up to the
    order of the tasks: if what is stored is an arrangement of the
    collection in memory, it still is after any operation, unless the
    operation's write was rejected.  (The order itself need not agree:
    the collection is saved before the view sorts it in place.) *)
Theorem X25_pro_storage_follows_memory_up_to_order
  (app : State) (op : Operation) (new : list Effect) :
  storedUpToOrder app ->
  trace (perform dateValue app op) = new ++ trace app ->
  Forall (fun e => isRejectedWrite e = false) new ->
  storedUpToOrder (perform dateValue app op).
Proof.
  intros (ts & Hload & Hperm) Hnew Hok.
  destruct (pro_perform_shape app op) as [[Ht Hs] | (mid & pre & Ht & Htr & Hls & Htrace)].
  - exists ts. rewrite Hs, Ht. split; assumption.
  - destruct (pro_saveTasks_cases mid) as [Hget | Hrej].
    + exists (tasks mid). split; [|symmetry; exact Ht].
      intros iso1 iso2 tomorrow. unfold loadTasks. rewrite Hls, Hget.
      rewrite stringify_truthy, parse_stringify_tasks. reflexivity.
    + exfalso. rewrite Htrace, Hrej, Htr in Hnew.
      change (pre ++ ?a :: ?b :: trace app) with (pre ++ [a; b] ++ trace app) in Hnew.
      rewrite app_assoc in Hnew. apply app_inv_tail in Hnew. subst new.
      apply Forall_app in Hok as [_ Hok].
      apply Forall_cons in Hok as [_ Hok]. apply Forall_cons in Hok as [Hbad _].
      discriminate.
Qed.

Lemma length_filter_permutation {A : Type} (p : A -> bool) (l l' : list A) :
  Permutation l l' -> length (List.filter p l) = length (List.filter p l').
Proof.
  induction 1 as [|x l l' _ IH|x y l|l l' l'' _ IH1 _ IH2]; cbn [List.filter].
  - reflexivity.
  - destruct (p x); cbn [length]; rewrite IH; reflexivity.
  - destruct (p x), (p y); reflexivity.
  - congruence.
Qed.

(** X26.  The numbers of the dashboard: the tasks counted as completed
    and as pending are all the tasks; rendering the task list, however it
    sorts, changes none of the three numbers; and an add that succeeds
    raises the total and the pending tasks by one. *)
Theorem X26_dashboard_counts (app : State) :
  let '(total, done, pending) := statCounts app in
  total = done + pending
  /\ statCounts (renderTasks dateValue app) = statCounts app
  /\ forall text p d j now iso,
      trim text <> "" ->
      statCounts (snd (addTask dateValue text p d j now iso app))
      = (S total, done, S pending).
Proof.
  assert (Hcount : forall l l' : list Task,
             Permutation l l' ->
             (length l, length (List.filter (fun t => completed t) l),
              length l - length (List.filter (fun t => completed t) l))
             = (length l', length (List.filter (fun t => completed t) l'),
                length l' - length (List.filter (fun t => completed t) l'))).
  { intros l l' H. rewrite (Permutation_length H).
    rewrite (length_filter_permutation _ _ _ H). reflexivity. }
  unfold statCounts.
  pose proof (Permutation_length
                (filter_partition (fun t => completed t) (tasks app))) as Hpart.
  rewrite length_app, length_filter_negb in Hpart.
  split; [lia|]. split; [apply Hcount, renderTasks_permutation|].
  intros text p d j now iso Hne.
  destruct (pro_addTask_tasks dateValue text p d j now iso app)
    as [(_ & _ & Hperm) | [Hno _]].
  - rewrite (Hcount _ _ Hperm). cbn [List.filter completed length].
    apply pair_equal_spec. split; [apply pair_equal_spec; split|]; lia.
  - rewrite (pro_addTask_valid dateValue _ p d j now iso app Hne) in Hno.
    discriminate.
Qed.

End FlowTaskProKeeps.

Lemma X24_renderTasks_twice_witness :
  let app := Samples.pro "all" "priority"
               [Samples.report; Samples.release; Samples.review] in
  FlowTaskPro.renderTasks JsDate.timeValue (FlowTaskPro.renderTasks JsDate.timeValue app)
  = FlowTaskPro.renderTasks JsDate.timeValue app.
Proof.
  apply (X24_renderTasks_twice JsDate.timeValue
           (Samples.pro "all" "priority"
              [Samples.report; Samples.release; Samples.review])).
  - repeat constructor; discriminate.
  - repeat constructor; vm_compute; discriminate.
Defined.

Lemma X25_pro_storage_follows_memory_up_to_order_witness :
  storedUpToOrder
    (FlowTaskPro.perform JsDate.timeValue
       (FlowTaskPro.saveTasks (Samples.pro "all" "oldest" [Samples.release]))
       (FlowTaskPro.Add "Write report" (Some low) None None 1700000001000
          "2023-11-14T22:13:21.000Z")).
Proof.
  apply (X25_pro_storage_follows_memory_up_to_order JsDate.timeValue
           (FlowTaskPro.saveTasks (Samples.pro "all" "oldest" [Samples.release]))
           (FlowTaskPro.Add "Write report" (Some low) None None 1700000001000%N
              "2023-11-14T22:13:21.000Z")
           [ShowNotification "Task added successfully!" "success";
            SetItem FlowTaskPro.storageKey
              (JSON.stringify
                 (TaskJson.tasksValue
                    [mkTask "1700000001000" "Write report" false (Some low)
                       (Some None) (Some "Inbox") "2023-11-14T22:13:21.000Z";
                     Samples.release])) true]).
  - exists [Samples.release]. split; [|reflexivity].
    intros iso1 iso2 tomorrow. vm_compute. reflexivity.
  - vm_compute. reflexivity.
  - repeat constructor.
Defined.

Lemma X26_dashboard_counts_witness :
  FlowTaskProView.statCounts
    (snd (FlowTaskPro.addTask JsDate.timeValue "Write report" (Some low) None None
            1700000001000 "2023-11-14T22:13:21.000Z"
            (Samples.pro "all" "oldest" [Samples.release; Samples.review])))
  = (3, 1, 2).
Proof.
  apply (X26_dashboard_counts JsDate.timeValue
           (Samples.pro "all" "oldest" [Samples.release; Samples.review])).
  vm_compute. discriminate.
Defined.

(** ** Loading the page again *)

Section Reload.
Import JsString TaskManager.

Lemma trace_saveTasks_app (app : State) :
  exists written, trace (saveTasks app) = written ++ trace app.
Proof.
  destruct (saveTasks_cases app) as [(_ & _ & ->) | [_ ->]].
  - eexists [_]. reflexivity.
  - eexists [_; _]. reflexivity.
Qed.

(** The trace only grows. *)
Lemma trace_perform_app (app : State) (op : Operation) :
  exists new, trace (perform app op) = new ++ trace app.
Proof.
  assert (Hsaved : forall ts pre after,
             trace after = pre ++ trace (saveTasks (withTasks ts app)) ->
             exists new, trace after = new ++ trace app).
  { intros ts pre after ->.
    destruct (trace_saveTasks_app (withTasks ts app)) as [written ->].
    exists (pre ++ written). rewrite app_assoc. reflexivity. }
  destruct op as [input now iso | i | i newText | i | | f]; cbn [perform].
  - unfold addTask.
    destruct (TaskManager_validateTask_cases input app)
      as [[_ ->] | [[_ ->] | [_ ->]]];
      [eexists [_]; reflexivity | eexists [_]; reflexivity |].
    cbn [negb snd]. eapply (Hsaved _ [_]). reflexivity.
  - unfold toggleTask. destruct (findIndex _ _); [|exists []; reflexivity].
    cbn [snd]. eapply (Hsaved _ []). reflexivity.
  - unfold editTask.
    destruct (TaskManager_validateTask_cases newText app)
      as [[_ ->] | [[_ ->] | [_ ->]]];
      [eexists [_]; reflexivity | eexists [_]; reflexivity |].
    cbn [negb]. destruct (findIndex _ _); [|exists []; reflexivity].
    cbn [snd]. eapply (Hsaved _ [_]). reflexivity.
  - unfold deleteTask. cbn [snd]. eapply (Hsaved _ [_]). reflexivity.
  - unfold clearCompleted. cbn [snd]. eapply (Hsaved _ [_]). reflexivity.
  - exists []. reflexivity.
Qed.

Lemma trace_run_app (ops : list Operation) (app : State) :
  exists new, trace (run ops app) = new ++ trace app.
Proof.
  revert app. induction ops as [|op ops IH]; intros app; [exists []; reflexivity|].
  cbn [run fold_left]. destruct (IH (perform app op)) as [later Hlater].
  destruct (trace_perform_app app op) as [new Hnew].
  exists (later ++ new). unfold run in Hlater. rewrite Hlater, Hnew, app_assoc.
  reflexivity.
Qed.

Lemma run_keeps_inSync (ops : list Operation) (app : State) (new : list Effect) :
  inSync app ->
  trace (run ops app) = new ++ trace app ->
  Forall (fun e => isRejectedWrite e = false) new ->
  inSync (run ops app).
Proof.
  revert app new. induction ops as [|op ops IH]; intros app new Hsync Htrace Hok;
    [exact Hsync|].
  cbn [run fold_left] in *.
  destruct (trace_perform_app app op) as [first Hfirst].
  destruct (trace_run_app ops (perform app op)) as [later Hlater].
  unfold run in Hlater.
  assert (Hsplit : new = later ++ first).
  { rewrite Hlater, Hfirst, app_assoc in Htrace. apply app_inv_tail in Htrace.
    symmetry. exact Htrace. }
  subst new. apply Forall_app in Hok as [Hok2 Hok1].
  apply (IH (perform app op) later).
  - exact (perform_keeps_inSync app op first Hsync Hfirst Hok1).
  - exact Hlater.
  - exact Hok2.
Qed.

(** X27.  Loading the page again.  From a first run, whatever the user
    does, as long as no write is rejected a new [TaskManager] built from
    what is stored holds exactly the collection the old one held, in the
    same order and with every field; the filter is not kept, it is 'all'
    again. *)
Theorem X27_reload_restores_the_collection
  (ls : LocalStorage.Storage) (app : State) (ops : list Operation) :
  LocalStorage.getItem ls storageKey = None ->
  new ls = Some app ->
  let before := run ops app in
  Forall (fun e => isRejectedWrite e = false) (trace before) ->
  new (localStorage before)
  = Some (mkState (tasks before) "all" (localStorage before) []).
Proof.
  intros Hnone Hnew before Hok.
  assert (Hstart : inSync app /\ trace app = []).
  { unfold new, loadTasks in Hnew. rewrite Hnone in Hnew. cbn in Hnew.
    injection Hnew as <-. unfold inSync, loadTasks. cbn [localStorage tasks trace].
    rewrite Hnone. split; reflexivity. }
  destruct Hstart as [Hsync Hempty].
  assert (Hafter : inSync before).
  { apply (run_keeps_inSync ops app (trace before)); [exact Hsync | | exact Hok].
    rewrite Hempty, app_nil_r. reflexivity. }
  unfold inSync in Hafter. unfold new. rewrite Hafter, readTasks_tasksValue.
  reflexivity.
Qed.

Lemma X27_reload_restores_the_collection_witness :
  let before :=
    run [Add "Buy milk" 1700000000000 "2023-11-14T22:13:20.000Z";
         SetFilter "active";
         Toggle "1700000000000"] Samples.fresh in
  new (localStorage before)
  = Some (mkState (tasks before) "all" (localStorage before) []).
Proof.
  apply (X27_reload_restores_the_collection Samples.emptyStorage Samples.fresh
           [Add "Buy milk" 1700000000000%N "2023-11-14T22:13:20.000Z";
            SetFilter "active";
            Toggle "1700000000000"]).
  - reflexivity.
  - reflexivity.
  - vm_compute. repeat constructor.
Defined.

End Reload.

(** ** FlowTask Pro: toggling twice *)

Section FlowTaskProToggle.
Import JsString FlowTaskPro.
Variable dateValue : string -> option Z.

Lemma map_absent_id (i : string) (f : Task -> Task) (l : list Task) :
  i ∉ ids l -> map (fun t => if String.eqb (id t) i then f t else t) l = l.
Proof.
  unfold ids. induction l as [|t l IH]; cbn [map]; [reflexivity|].
  rewrite not_elem_of_cons. intros [Hne Hl].
  destruct (String.eqb_spec (id t) i) as [E | _]; [congruence|].
  rewrite (IH Hl). reflexivity.
Qed.

(** With distinct ids, changing the first task of an id changes every
    task of that id. *)
Lemma alter_found (i : string) (f : Task -> Task) (l : list Task) :
  NoDup (ids l) ->
  match findIndex (fun t => String.eqb (id t) i) l with
  | Some k => alter f k l
  | None => l
  end
  = map (fun t => if String.eqb (id t) i then f t else t) l.
Proof.
  unfold ids. induction l as [|t l IH]; cbn [map findIndex]; [reflexivity|].
  intros Hnd. apply NoDup_cons in Hnd as [Hnew Hnd].
  destruct (String.eqb_spec (id t) i) as [E | _].
  - cbn. rewrite map_absent_id; [reflexivity|]. rewrite <- E. exact Hnew.
  - specialize (IH Hnd).
    destruct (findIndex (fun t => String.eqb (id t) i) l) as [k|]; cbn;
      rewrite <- IH; reflexivity.
Qed.

Lemma ids_map_same (g : Task -> Task) (l : list Task) :
  (forall t, id (g t) = id t) -> ids (map g l) = ids l.
Proof.
  intros Hg. unfold ids. rewrite map_map. apply map_ext. exact Hg.
Qed.

(** X28.  In FlowTask Pro two toggles of the same id give back the
    collection up to the order of the tasks, provided the ids are
    distinct: the view may sort the collection between the two calls, and
    each call changes the first task it finds with the id. *)
Theorem X28_pro_toggle_twice (i : string) (app : State) :
  NoDup (ids (tasks app)) ->
  Permutation
    (tasks (snd (toggleTask dateValue i (snd (toggleTask dateValue i app)))))
    (tasks app).
Proof.
  intros Hnd.
  set (flip := fun task => setCompleted (negb (completed task)) task).
  set (g := fun t => if String.eqb (id t) i then flip t else t).
  assert (Hid : forall t, id (g t) = id t).
  { intros t. unfold g. destruct (String.eqb (id t) i); reflexivity. }
  assert (Hgg : forall t, g (g t) = t).
  { intros t. unfold g. destruct (String.eqb (id t) i) eqn:E.
    - change (id (flip t)) with (id t). rewrite E. apply toggle_toggle.
    - rewrite E. reflexivity. }
  assert (Hone : forall a, NoDup (ids (tasks a)) ->
                           Permutation (tasks (snd (toggleTask dateValue i a)))
                             (map g (tasks a))).
  { intros a Ha. rewrite pro_toggleTask_tasks. fold flip.
    rewrite (alter_found i flip (tasks a) Ha). reflexivity. }
  pose proof (Hone app Hnd) as H1.
  assert (Hnd1 : NoDup (ids (tasks (snd (toggleTask dateValue i app))))).
  { apply (NoDup_ids_permutation (map g (tasks app))); [exact H1|].
    rewrite (ids_map_same g _ Hid). exact Hnd. }
  rewrite (Hone _ Hnd1). rewrite H1. rewrite map_map.
  rewrite (map_ext _ (fun t => t) Hgg), map_id. reflexivity.
Qed.

End FlowTaskProToggle.

Lemma X28_pro_toggle_twice_witness :
  let app := Samples.pro "all" "priority"
               [Samples.report; Samples.release; Samples.review] in
  Permutation
    (FlowTaskPro.tasks
       (snd (FlowTaskPro.toggleTask JsDate.timeValue "1700000002000"
               (snd (FlowTaskPro.toggleTask JsDate.timeValue "1700000002000" app)))))
    (FlowTaskPro.tasks app).
Proof.
  apply (X28_pro_toggle_twice JsDate.timeValue "1700000002000"
           (Samples.pro "all" "priority"
              [Samples.report; Samples.release; Samples.review])).
  apply (bool_decide_unpack _). vm_compute. exact I.
Defined.
